(** * The capture-session reactor of nethogs ([src/main.cpp])

    A shallow embedding of [main.cpp]: the process-wide variables of the
    file become a [state] record, calls into the operating system and into
    the other translation units (libpcap wrapper, UI, process table) become
    [event]s whose answers are read from a [platform] record (startup) and
    from a [tick] record (one per iteration of the main loop), and [exit]
    becomes the [Exit] outcome of a small state/trace/exit monad. *)

From Stdlib Require Import ZArith List String Ascii Bool Lia.
Import ListNotations.
Open Scope Z_scope.

(** ** Constants of the C library and of the Linux headers *)

Definition EXIT_SUCCESS : Z := 0.
Definition EXIT_FAILURE : Z := 1.
(** [linux/capability.h] *)
Definition CAP_NET_ADMIN : Z := 12.
Definition CAP_NET_RAW : Z := 13.

(** [time_t] is a signed 64-bit integer; sums are reduced to that range. *)
Definition time_min : Z := - 2 ^ 63.
Definition time_max : Z := 2 ^ 63 - 1.
Definition wrap_time (z : Z) : Z := (z + 2 ^ 63) mod 2 ^ 64 - 2 ^ 63.
Definition time_add (a b : Z) : Z := wrap_time (a + b).

(** ** Data *)

(** [struct dp_handle] of decpcap: only its [pcap_handle] is read here. *)
Record dp_handle := mk_dp_handle { pcap_handle : Z }.

(** [class handle]: one cell of the chain of capture sessions; the chain
    itself is a list whose head is the most recently opened session. *)
Record handle := mk_handle { content : dp_handle; devicename : string }.

(** The packet kinds for which [main] installs a callback. *)
Inductive dp_packet_type := dp_packet_ip | dp_packet_ip6 | dp_packet_tcp | dp_packet_udp.

(** The messages [forceExit] is called with. *)
Inductive fatal_msg :=
| MsgNoDevices        (* "No devices to monitor. ..." *)
| MsgNoBinary         (* "Failed to locate nethogs binary." *)
| MsgNeedCaps         (* "To run nethogs without being root you need to enable capabilities ..." *)
| MsgNeedRoot         (* "You need to be root to run NetHogs!" *)
| MsgPipe             (* "Error creating pipe file descriptors" *)
| MsgGetifaddrs       (* "getifaddrs failed while establishing local IP." *)
| MsgAllOpenFailed.   (* "Error opening pcap handlers for all devices." *)

(** Everything written to [stderr]. *)
Inductive log_msg :=
| LogFatal (m : fatal_msg)
| LogNonblock                          (* "Error putting libpcap in nonblocking mode" *)
| LogNoSelectableFd (dev : string)     (* "failed to get selectable_fd for %s" *)
| LogOpenError (dev : string)          (* "Error opening handler for device %s" *)
| LogDispatchErr (dev : string)        (* retval == -1: device name and dp_geterr *)
| LogDispatchRet (dev : string) (retval : Z).  (* other negative retval *)

(** Calls that leave [main.cpp]. [EvPcapClose] stands for the release of a
    capture session ([pcap_close] on its [pcap_handle]); it is part of the
    alphabet so that traces can be asked whether a session was released. *)
Inductive event :=
| EvInitUi
| EvExitUi
| EvStderr (m : log_msg)
| EvWrite (fd : Z) (byte : string)
| EvGetLocal (dev : string)
| EvDpOpenLive (dev : string)
| EvDpAddcb (h : dp_handle) (k : dp_packet_type)
| EvGetSelectableFd (h : dp_handle)
| EvSignalSigint
| EvDpDispatch (h : dp_handle)
| EvTime (t : Z)
| EvUiTick
| EvDoRefresh
| EvSelect (nfds : Z) (fds : list Z) (timeout_sec : Z)
| EvUsleep (usec : Z)
| EvClose (fd : Z)
| EvProcClean
| EvPcapClose (h : dp_handle).

(** The file-scope variables of [main.cpp] whose value lives from one call
    to the next, and the one piece of kernel state they interact with:
    whether a byte is buffered in the self-pipe. The remaining file-scope
    variable, [pc_loop_fd_set], is scratch space of [wait_for_next_trigger]:
    every call that reads it has first cleared and refilled it, so it is
    the set built and tested inside that function and not a field here;
    nothing below speaks about its value after a call. *)
Record state := mk_state {
  self_pipe : Z * Z;
  last_refresh_time : Z;
  pc_loop_fd_list : list Z;
  pc_loop_use_select : bool;
  pipe_readable : bool
}.

Definition initial_state : state :=
  {| self_pipe := (-1, -1); last_refresh_time := 0; pc_loop_fd_list := [];
     pc_loop_use_select := true; pipe_readable := false |}.

Definition set_self_pipe (p : Z * Z) (s : state) : state :=
  {| self_pipe := p; last_refresh_time := last_refresh_time s;
     pc_loop_fd_list := pc_loop_fd_list s;
     pc_loop_use_select := pc_loop_use_select s; pipe_readable := pipe_readable s |}.
Definition set_last_refresh_time (t : Z) (s : state) : state :=
  {| self_pipe := self_pipe s; last_refresh_time := t;
     pc_loop_fd_list := pc_loop_fd_list s;
     pc_loop_use_select := pc_loop_use_select s; pipe_readable := pipe_readable s |}.
Definition set_fd_list (l : list Z) (s : state) : state :=
  {| self_pipe := self_pipe s; last_refresh_time := last_refresh_time s;
     pc_loop_fd_list := l;
     pc_loop_use_select := pc_loop_use_select s; pipe_readable := pipe_readable s |}.
Definition set_use_select (b : bool) (s : state) : state :=
  {| self_pipe := self_pipe s; last_refresh_time := last_refresh_time s;
     pc_loop_fd_list := pc_loop_fd_list s;
     pc_loop_use_select := b; pipe_readable := pipe_readable s |}.
Definition set_pipe_readable (b : bool) (s : state) : state :=
  {| self_pipe := self_pipe s; last_refresh_time := last_refresh_time s;
     pc_loop_fd_list := pc_loop_fd_list s;
     pc_loop_use_select := pc_loop_use_select s; pipe_readable := b |}.

(** Variables of [nethogs.cpp] that are fixed once the options are parsed,
    and the compile-time switch [DEBUG]. *)
Record config := mk_config {
  DEBUG : bool;
  tracemode : bool;
  refreshdelay : Z
}.

(** Answers of the operating system and of the collaborators at startup. *)
Record platform := mk_platform {
  linux : bool;                         (* #ifdef __linux__ *)
  get_devices : list string;            (* device names; NULL is [] *)
  geteuid : Z;
  readlink_exe : Z;                     (* readlink("/proc/self/exe", ...) *)
  xattr_caps1 : Z;                      (* caps[1] after getxattr; 0 if it failed *)
  sys_pipe : option (Z * Z);            (* pipe(pfd); None is -1 *)
  fcntl_rd : Z;                         (* fcntl(pfd[0], F_SETFL, ...) *)
  fcntl_wr : Z;                         (* fcntl(pfd[1], F_SETFL, ...) *)
  getLocal : string -> bool;
  dp_open_live : string -> option dp_handle;   (* None is NULL *)
  dp_setnonblock : dp_handle -> Z;
  pcap_get_selectable_fd : Z -> Z
}.

(** Answers during one iteration of the main loop. *)
Record tick := mk_tick {
  sigint : bool;                        (* SIGINT delivered before this iteration *)
  dp_dispatch : dp_handle -> Z;
  now : Z;                              (* ::time(NULL) *)
  select_ret : Z;                       (* -1 on error *)
  readable : list Z                     (* descriptors with captured data *)
}.

(** ** The monad: state, trace of events, and [exit] *)

Inductive outcome (A : Type) :=
| Ret (a : A)
| Exit (code : Z).
Arguments Ret {A} a.
Arguments Exit {A} code.

Record result (A : Type) := mk_result {
  events : list event;
  final : state;
  value : outcome A
}.
Arguments mk_result {A}.
Arguments events {A}.
Arguments final {A}.
Arguments value {A}.

Definition M (A : Type) : Type := state -> result A.

Definition ret {A} (a : A) : M A := fun s => mk_result [] s (Ret a).

Definition bind {A B} (m : M A) (k : A -> M B) : M B := fun s =>
  let r := m s in
  match value r with
  | Ret a => let r' := k a (final r) in
             mk_result (events r ++ events r') (final r') (value r')
  | Exit c => mk_result (events r) (final r) (Exit c)
  end.

Definition emit (e : event) : M unit := fun s => mk_result [e] s (Ret tt).
Definition get : M state := fun s => mk_result [] s (Ret s).
Definition modify (f : state -> state) : M unit := fun s => mk_result [] (f s) (Ret tt).
Definition exit {A} (code : Z) : M A := fun s => mk_result [] s (Exit code).
Definition when (b : bool) (m : M unit) : M unit := if b then m else ret tt.

Declare Scope reactor_scope.
Delimit Scope reactor_scope with reactor.
Notation "x <- m ;; k" := (bind m (fun x => k))
  (at level 61, m at next level, right associativity) : reactor_scope.
Notation "m ;; k" := (bind m (fun _ => k))
  (at level 61, right associativity) : reactor_scope.
Open Scope reactor_scope.

(** ** [main.cpp] *)

Section Reactor.

Variable cfg : config.
Variable E : platform.

Definition ui_enabled : bool := negb (tracemode cfg) && negb (DEBUG cfg).

(** [quit_cb]: the SIGINT handler. *)
Definition quit_cb : M unit :=
  s <- get ;;
  if negb (snd (self_pipe s) =? -1) then
    emit (EvWrite (snd (self_pipe s)) "x") ;;
    modify (set_pipe_readable true)
  else
    exit 0.

(** [forceExit]. *)
Definition forceExit {A} (success : bool) (msg : fatal_msg) : M A :=
  when ui_enabled (emit EvExitUi) ;;
  emit (EvStderr (LogFatal msg)) ;;
  if success then exit EXIT_SUCCESS else exit EXIT_FAILURE.

(** [create_self_pipe]. *)
Definition create_self_pipe : Z * Z :=
  match sys_pipe E with
  | None => (-1, -1)
  | Some (pfd0, pfd1) =>
      if fcntl_rd E =? -1 then (-1, -1)
      else if fcntl_wr E =? -1 then (-1, -1)
      else (pfd0, pfd1)
  end.

(** [FD_ISSET] on the set [select] leaves behind: the registered
    descriptors that are readable. *)
Definition fd_readable (s : state) (t : tick) (fd : Z) : bool :=
  ((fd =? fst (self_pipe s)) && pipe_readable s) || existsb (Z.eqb fd) (readable t).

Definition select_result (s : state) (t : tick) (fds : list Z) : list Z :=
  filter (fd_readable s t) fds.

Definition FD_ISSET (fd : Z) (set : list Z) : bool := existsb (Z.eqb fd) set.

Definition compute_nfds (fds : list Z) : Z :=
  fold_left (fun nfds fd => Z.max nfds (fd + 1)) fds 0.

(** [wait_for_next_trigger]. *)
Definition wait_for_next_trigger (t : tick) : M bool :=
  s <- get ;;
  if pc_loop_use_select s then
    let fds := pc_loop_fd_list s in
    emit (EvSelect (compute_nfds fds) fds (refreshdelay cfg)) ;;
    if negb (select_ret t =? -1) then
      if FD_ISSET (fst (self_pipe s)) (select_result s t fds) then ret false
      else ret true
    else ret true
  else
    emit (EvUsleep 1000) ;;
    ret true.

(** [clean_up]. *)
Definition clean_up : M unit :=
  s <- get ;;
  fold_right (fun fd k => emit (EvClose fd) ;; k) (ret tt) (pc_loop_fd_list s) ;;
  emit EvProcClean ;;
  when ui_enabled (emit EvExitUi).

(** *** [main]: opening the capture sessions (the [while] over devices) *)

(** The locals the device loop updates. *)
Record open_acc := mk_open_acc {
  handles : list handle;
  nb_devices : Z;
  nb_failed_devices : Z
}.

Definition no_sessions : open_acc :=
  {| handles := []; nb_devices := 0; nb_failed_devices := 0 |}.

(** The [if (pc_loop_use_select)] block that follows a successful open. *)
Definition register_selectable (dev : string) (newhandle : dp_handle) : M unit :=
  s <- get ;;
  if pc_loop_use_select s then
    emit (EvGetSelectableFd newhandle) ;;
    let fd := pcap_get_selectable_fd E (pcap_handle newhandle) in
    if negb (fd =? -1) then
      modify (fun s => set_fd_list (pc_loop_fd_list s ++ [fd]) s)
    else
      modify (set_use_select false) ;;
      modify (set_fd_list []) ;;
      emit (EvStderr (LogNoSelectableFd dev))
  else ret tt.

(** One iteration of the device loop. *)
Definition open_device (dev : string) (a : open_acc) : M open_acc :=
  let nb := nb_devices a + 1 in
  emit (EvGetLocal dev) ;;
  (if negb (getLocal E dev) then forceExit false MsgGetifaddrs else ret tt) ;;
  emit (EvDpOpenLive dev) ;;
  match dp_open_live E dev with
  | Some newhandle =>
      emit (EvDpAddcb newhandle dp_packet_ip) ;;
      emit (EvDpAddcb newhandle dp_packet_ip6) ;;
      emit (EvDpAddcb newhandle dp_packet_tcp) ;;
      emit (EvDpAddcb newhandle dp_packet_udp) ;;
      when (dp_setnonblock E newhandle =? -1) (emit (EvStderr LogNonblock)) ;;
      register_selectable dev newhandle ;;
      ret {| handles := mk_handle newhandle dev :: handles a;
             nb_devices := nb;
             nb_failed_devices := nb_failed_devices a |}
  | None =>
      emit (EvStderr (LogOpenError dev)) ;;
      ret {| handles := handles a;
             nb_devices := nb;
             nb_failed_devices := nb_failed_devices a + 1 |}
  end.

Fixpoint open_devices (devs : list string) (a : open_acc) : M open_acc :=
  match devs with
  | [] => ret a
  | dev :: rest => a' <- open_device dev a ;; open_devices rest a'
  end.

(** The device loop followed by the test [nb_devices == nb_failed_devices]. *)
Definition open_sessions (devs : list string) : M (list handle) :=
  a <- open_devices devs no_sessions ;;
  (if nb_devices a =? nb_failed_devices a
   then forceExit false MsgAllOpenFailed else ret tt) ;;
  ret (handles a).

(** The privilege test of [main]. *)
Definition caps_missing : bool :=
  negb (Z.land (Z.shiftr (xattr_caps1 E) CAP_NET_ADMIN) 1 =? 1)
  || negb (Z.land (Z.shiftr (xattr_caps1 E) CAP_NET_RAW) 1 =? 1).

Definition check_privilege : M unit :=
  if negb (geteuid E =? 0) then
    if linux E then
      (if readlink_exe E =? -1 then forceExit false MsgNoBinary else ret tt) ;;
      (if caps_missing then forceExit false MsgNeedCaps else ret tt)
    else forceExit false MsgNeedRoot
  else ret tt.

(** [main] from [get_devices] to [signal(SIGINT, &quit_cb)]. *)
Definition startup : M (list handle) :=
  (match get_devices E with
   | [] => forceExit false MsgNoDevices
   | _ => ret tt
   end) ;;
  when ui_enabled (emit EvInitUi) ;;
  check_privilege ;;
  modify (set_self_pipe create_self_pipe) ;;
  s <- get ;;
  (if (fst (self_pipe s) =? -1) || (snd (self_pipe s) =? -1)
   then forceExit false MsgPipe
   else modify (fun s => set_fd_list (pc_loop_fd_list s ++ [fst (self_pipe s)]) s)) ;;
  hs <- open_sessions (get_devices E) ;;
  emit EvSignalSigint ;;
  ret hs.

(** *** [main]: the main loop *)

(** The body of the [for] over the chain of handles. *)
Definition dispatch_one (t : tick) (h : handle) (packets_read : bool) : M bool :=
  emit (EvDpDispatch (content h)) ;;
  let retval := dp_dispatch t (content h) in
  if retval =? -1 then
    emit (EvStderr (LogDispatchErr (devicename h))) ;; ret packets_read
  else if retval <? 0 then
    emit (EvStderr (LogDispatchRet (devicename h) retval)) ;; ret packets_read
  else if negb (retval =? 0) then ret true
  else ret packets_read.

Fixpoint dispatch_pass (t : tick) (hs : list handle) (packets_read : bool) : M bool :=
  match hs with
  | [] => ret packets_read
  | h :: rest => pr <- dispatch_one t h packets_read ;; dispatch_pass t rest pr
  end.

(** The refresh test. *)
Definition refresh_check (t : tick) : M unit :=
  emit (EvTime (now t)) ;;
  s <- get ;;
  if time_add (last_refresh_time s) (refreshdelay cfg) <=? now t then
    modify (set_last_refresh_time (now t)) ;;
    when (negb (DEBUG cfg) && negb (tracemode cfg)) (emit EvUiTick) ;;
    emit EvDoRefresh
  else ret tt.

(** One iteration of [while (1)]; the value is [true] when the iteration
    ends in [break]. *)
Definition loop_body (hs : list handle) (t : tick) : M bool :=
  packets_read <- dispatch_pass t hs false ;;
  refresh_check t ;;
  if negb packets_read then
    go_on <- wait_for_next_trigger t ;;
    if negb go_on then ret true else ret false
  else ret false.

(** The loop over a finite prefix of the environment's answers. A SIGINT
    runs the installed handler; it is delivered ahead of the iteration it
    interrupts, a dispatch batch being never cut short by it. The value is
    [true] when the loop was left by [break], [false] when it is still
    running after the last answer. *)
Fixpoint main_loop (hs : list handle) (ticks : list tick) : M bool :=
  match ticks with
  | [] => ret false
  | t :: rest =>
      when (sigint t) quit_cb ;;
      stop <- loop_body hs t ;;
      if stop then ret true else main_loop hs rest
  end.

Inductive run_status :=
| Looping      (* still inside [while (1)] *)
| Returned.    (* [clean_up] done, [main] returned *)

Definition main (ticks : list tick) : M run_status :=
  hs <- startup ;;
  stop <- main_loop hs ticks ;;
  if stop then clean_up ;; ret Returned else ret Looping.

End Reactor.

(** ** [main]: the options *)

(** The variables the option loop writes: globals of [nethogs.cpp] and the
    locals [promisc], [all] and [filter] of [main]. *)
Module Opt.
Record t := mk {
  bughuntmode : bool;
  tracemode : bool;
  promisc : Z;
  sortRecv : bool;
  refreshdelay : Z;
  viewMode : Z;
  refreshlimit : Z;
  showcommandline : bool;
  all : bool;
  filter : option string
}.
End Opt.

Definition set_bughuntmode (v : bool) (o : Opt.t) : Opt.t :=
  Opt.mk v (Opt.tracemode o) (Opt.promisc o) (Opt.sortRecv o) (Opt.refreshdelay o)
    (Opt.viewMode o) (Opt.refreshlimit o) (Opt.showcommandline o) (Opt.all o) (Opt.filter o).
Definition set_tracemode (v : bool) (o : Opt.t) : Opt.t :=
  Opt.mk (Opt.bughuntmode o) v (Opt.promisc o) (Opt.sortRecv o) (Opt.refreshdelay o)
    (Opt.viewMode o) (Opt.refreshlimit o) (Opt.showcommandline o) (Opt.all o) (Opt.filter o).
Definition set_promisc (v : Z) (o : Opt.t) : Opt.t :=
  Opt.mk (Opt.bughuntmode o) (Opt.tracemode o) v (Opt.sortRecv o) (Opt.refreshdelay o)
    (Opt.viewMode o) (Opt.refreshlimit o) (Opt.showcommandline o) (Opt.all o) (Opt.filter o).
Definition set_sortRecv (v : bool) (o : Opt.t) : Opt.t :=
  Opt.mk (Opt.bughuntmode o) (Opt.tracemode o) (Opt.promisc o) v (Opt.refreshdelay o)
    (Opt.viewMode o) (Opt.refreshlimit o) (Opt.showcommandline o) (Opt.all o) (Opt.filter o).
Definition set_refreshdelay (v : Z) (o : Opt.t) : Opt.t :=
  Opt.mk (Opt.bughuntmode o) (Opt.tracemode o) (Opt.promisc o) (Opt.sortRecv o) v
    (Opt.viewMode o) (Opt.refreshlimit o) (Opt.showcommandline o) (Opt.all o) (Opt.filter o).
Definition set_viewMode (v : Z) (o : Opt.t) : Opt.t :=
  Opt.mk (Opt.bughuntmode o) (Opt.tracemode o) (Opt.promisc o) (Opt.sortRecv o)
    (Opt.refreshdelay o) v (Opt.refreshlimit o) (Opt.showcommandline o) (Opt.all o)
    (Opt.filter o).
Definition set_refreshlimit (v : Z) (o : Opt.t) : Opt.t :=
  Opt.mk (Opt.bughuntmode o) (Opt.tracemode o) (Opt.promisc o) (Opt.sortRecv o)
    (Opt.refreshdelay o) (Opt.viewMode o) v (Opt.showcommandline o) (Opt.all o)
    (Opt.filter o).
Definition set_showcommandline (v : bool) (o : Opt.t) : Opt.t :=
  Opt.mk (Opt.bughuntmode o) (Opt.tracemode o) (Opt.promisc o) (Opt.sortRecv o)
    (Opt.refreshdelay o) (Opt.viewMode o) (Opt.refreshlimit o) v (Opt.all o) (Opt.filter o).
Definition set_all (v : bool) (o : Opt.t) : Opt.t :=
  Opt.mk (Opt.bughuntmode o) (Opt.tracemode o) (Opt.promisc o) (Opt.sortRecv o)
    (Opt.refreshdelay o) (Opt.viewMode o) (Opt.refreshlimit o) (Opt.showcommandline o) v
    (Opt.filter o).
Definition set_filter (v : option string) (o : Opt.t) : Opt.t :=
  Opt.mk (Opt.bughuntmode o) (Opt.tracemode o) (Opt.promisc o) (Opt.sortRecv o)
    (Opt.refreshdelay o) (Opt.viewMode o) (Opt.refreshlimit o) (Opt.showcommandline o)
    (Opt.all o) v.

(** What one call of [getopt] hands to the [switch]: the option character
    (['?'] for an unknown option or a missing argument) and [optarg]. *)
Record getopt_ret := mk_getopt_ret { opt : ascii; optarg : string }.

(** What is printed before an early [exit]: where, and which text. *)
Inductive stream := cout | cerr.
Inductive cli_text := VersionText | UsageText.

(** [versiondisplay] and [help]. *)
Definition versiondisplay : stream * cli_text := (cout, VersionText).
Definition help (iserror : bool) : stream * cli_text :=
  (if iserror then cerr else cout, UsageText).

(** Either the options are read, or the process has printed and exited. *)
Inductive parsed :=
| Parsed (o : Opt.t)
| Stopped (out : stream * cli_text) (code : Z).

Section Options.

(** [atoi] of the C library, and [VIEWMODE_COUNT] of [nethogs.h]. *)
Variable atoi : string -> Z.
Variable VIEWMODE_COUNT : Z.

(** The [switch] of the option loop; [%] is the remainder of C. *)
Definition option_case (g : getopt_ret) (o : Opt.t) : parsed :=
  match opt g with
  | "V"%char => Stopped versiondisplay 0
  | "h"%char => Stopped (help false) 0
  | "b"%char => Parsed (set_tracemode true (set_bughuntmode true o))
  | "t"%char => Parsed (set_tracemode true o)
  | "p"%char => Parsed (set_promisc 1 o)
  | "s"%char => Parsed (set_sortRecv false o)
  | "d"%char => Parsed (set_refreshdelay (atoi (optarg g)) o)
  | "v"%char => Parsed (set_viewMode (Z.rem (atoi (optarg g)) VIEWMODE_COUNT) o)
  | "c"%char => Parsed (set_refreshlimit (atoi (optarg g)) o)
  | "l"%char => Parsed (set_showcommandline true o)
  | "a"%char => Parsed (set_all true o)
  | "f"%char => Parsed (set_filter (Some (optarg g)) o)
  | _ => Stopped (help true) EXIT_FAILURE
  end.

(** The [while] over the answers of [getopt], up to its [-1]. *)
Fixpoint getopt_loop (gs : list getopt_ret) (o : Opt.t) : parsed :=
  match gs with
  | [] => Parsed o
  | g :: rest =>
      match option_case g o with
      | Parsed o' => getopt_loop rest o'
      | Stopped out code => Stopped out code
      end
  end.

(** The locals are initialised, then the loop runs. *)
Definition parse_options (gs : list getopt_ret) (globals : Opt.t) : parsed :=
  getopt_loop gs (set_filter None (set_all false (set_promisc 0 globals))).

(** The whole of [main]: the options, then the reactor under the
    configuration they give. The answers of the platform may depend on the
    options ([all], [promisc] and [filter] are passed on). *)
Inductive program_result :=
| CliExit (out : stream * cli_text) (code : Z)
| Run (r : result run_status).

Definition config_of (debug : bool) (o : Opt.t) : config :=
  {| DEBUG := debug; tracemode := Opt.tracemode o; refreshdelay := Opt.refreshdelay o |}.

Definition program (debug : bool) (globals : Opt.t) (gs : list getopt_ret)
    (env : Opt.t -> platform) (ticks : list tick) : program_result :=
  match parse_options gs globals with
  | Stopped out code => CliExit out code
  | Parsed o => Run (main (config_of debug o) (env o) ticks initial_state)
  end.

End Options.

(** The options that let the loop go on. *)
Definition plain (c : ascii) : bool :=
  existsb (Ascii.eqb c) (list_ascii_of_string "btpsdvclaf").
Definition is_opt (c : ascii) (g : getopt_ret) : bool := Ascii.eqb (opt g) c.

(** What the first option that is not plain makes the process print and
    return. *)
Definition decisive (c : ascii) : (stream * cli_text) * Z :=
  if Ascii.eqb c "V" then (versiondisplay, 0)
  else if Ascii.eqb c "h" then (help false, 0)
  else (help true, EXIT_FAILURE).

(** The defaults of [nethogs.cpp], as its usage text gives them. *)
Definition default_options : Opt.t :=
  Opt.mk false false 0 true 1 0 0 false false None.

(** A reading of [atoi] for the runs below: leading white space is skipped,
    an optional sign is taken, then decimal digits are read up to the first
    character that is not one (C leaves the result open when it does not
    fit [int]). *)
Definition is_space (c : ascii) : bool :=
  let n := nat_of_ascii c in Nat.eqb n 32 || (Nat.leb 9 n && Nat.leb n 13).
Definition is_digit (c : ascii) : bool :=
  let n := nat_of_ascii c in Nat.leb 48 n && Nat.leb n 57.
Fixpoint skip_spaces (cs : list ascii) : list ascii :=
  match cs with
  | c :: rest => if is_space c then skip_spaces rest else cs
  | [] => []
  end.
Fixpoint read_digits (acc : Z) (cs : list ascii) : Z :=
  match cs with
  | c :: rest =>
      if is_digit c then read_digits (10 * acc + (Z.of_nat (nat_of_ascii c) - 48)) rest
      else acc
  | [] => acc
  end.
Definition atoi_digits (s : string) : Z :=
  match skip_spaces (list_ascii_of_string s) with
  | "-"%char :: rest => - read_digits 0 rest
  | "+"%char :: rest => read_digits 0 rest
  | cs => read_digits 0 cs
  end.

(** ** Concrete runs *)

Definition cfg_ui : config := {| DEBUG := false; tracemode := false; refreshdelay := 1 |}.

Definition h_eth0 : dp_handle := {| pcap_handle := 100 |}.
Definition h_eth1 : dp_handle := {| pcap_handle := 101 |}.
Definition h_eth2 : dp_handle := {| pcap_handle := 102 |}.

(** A root process on Linux with three devices: [eth0] and [eth2] open and
    are selectable, [eth1] cannot be opened. *)
Definition three_devices : platform :=
  {| linux := true;
     get_devices := ["eth0"; "eth1"; "eth2"]%string;
     geteuid := 0;
     readlink_exe := 16;
     xattr_caps1 := 0;
     sys_pipe := Some (3, 4);
     fcntl_rd := 0;
     fcntl_wr := 0;
     getLocal := fun _ => true;
     dp_open_live := fun d =>
       if String.eqb d "eth0" then Some h_eth0
       else if String.eqb d "eth2" then Some h_eth2 else None;
     dp_setnonblock := fun _ => 0;
     pcap_get_selectable_fd := fun p => p - 95 |}.

Definition quiet_tick (t : Z) : tick :=
  {| sigint := false; dp_dispatch := fun _ => 0; now := t;
     select_ret := 0; readable := [] |}.

Definition sigint_tick (t : Z) : tick :=
  {| sigint := true; dp_dispatch := fun _ => 0; now := t;
     select_ret := 1; readable := [] |}.

Definition busy_tick (t : Z) : tick :=
  {| sigint := false; dp_dispatch := fun _ => 3; now := t;
     select_ret := 1; readable := [5] |}.

Definition error_tick (t : Z) : tick :=
  {| sigint := false; dp_dispatch := fun _ => -1; now := t;
     select_ret := 0; readable := [] |}.

(** The chain and the state [startup] leaves behind on [three_devices]. *)
Definition chain_two : list handle :=
  [mk_handle h_eth2 "eth2"; mk_handle h_eth0 "eth0"].
Definition s_running : state :=
  {| self_pipe := (3, 4); last_refresh_time := 0; pc_loop_fd_list := [3; 5; 7];
     pc_loop_use_select := true; pipe_readable := false |}.

(** A root process with one device whose capture handle has no selectable
    descriptor, and the state [startup] leaves behind on it. *)
Definition h_wlan0 : dp_handle := {| pcap_handle := 200 |}.
Definition one_unselectable : platform :=
  {| linux := true;
     get_devices := ["wlan0"]%string;
     geteuid := 0;
     readlink_exe := 16;
     xattr_caps1 := 0;
     sys_pipe := Some (3, 4);
     fcntl_rd := 0;
     fcntl_wr := 0;
     getLocal := fun _ => true;
     dp_open_live := fun _ => Some h_wlan0;
     dp_setnonblock := fun _ => 0;
     pcap_get_selectable_fd := fun _ => -1 |}.
Definition chain_wlan0 : list handle := [mk_handle h_wlan0 "wlan0"].
Definition s_fallback : state :=
  {| self_pipe := (3, 4); last_refresh_time := 0; pc_loop_fd_list := [];
     pc_loop_use_select := false; pipe_readable := false |}.

(** An ordinary user on Linux whose binary carries [cap_net_admin] only. *)
Definition unprivileged : platform :=
  {| linux := true;
     get_devices := ["eth0"]%string;
     geteuid := 1000;
     readlink_exe := 16;
     xattr_caps1 := 4096;
     sys_pipe := Some (3, 4);
     fcntl_rd := 0;
     fcntl_wr := 0;
     getLocal := fun _ => true;
     dp_open_live := fun _ => Some h_eth0;
     dp_setnonblock := fun _ => 0;
     pcap_get_selectable_fd := fun _ => 5 |}.

(** A root process with two devices: [eth0] opens, the local-address lookup
    fails for [eth1]. *)
Definition lookup_fails_on_second : platform :=
  {| linux := true;
     get_devices := ["eth0"; "eth1"]%string;
     geteuid := 0;
     readlink_exe := 16;
     xattr_caps1 := 0;
     sys_pipe := Some (3, 4);
     fcntl_rd := 0;
     fcntl_wr := 0;
     getLocal := fun d => String.eqb d "eth0";
     dp_open_live := fun d => if String.eqb d "eth0" then Some h_eth0 else Some h_eth1;
     dp_setnonblock := fun _ => 0;
     pcap_get_selectable_fd := fun p => p - 95 |}.

(** A root process with one device that opens and is selectable, but
    cannot be put in non-blocking mode. *)
Definition nonblock_fails : platform :=
  {| linux := true;
     get_devices := ["eth0"]%string;
     geteuid := 0;
     readlink_exe := 16;
     xattr_caps1 := 0;
     sys_pipe := Some (3, 4);
     fcntl_rd := 0;
     fcntl_wr := 0;
     getLocal := fun _ => true;
     dp_open_live := fun _ => Some h_eth0;
     dp_setnonblock := fun _ => -1;
     pcap_get_selectable_fd := fun _ => 5 |}.

(** A root process whose second [fcntl] call on the pipe fails. *)
Definition fcntl_fails : platform :=
  {| linux := true;
     get_devices := ["eth0"]%string;
     geteuid := 0;
     readlink_exe := 16;
     xattr_caps1 := 0;
     sys_pipe := Some (3, 4);
     fcntl_rd := 0;
     fcntl_wr := -1;
     getLocal := fun _ => true;
     dp_open_live := fun _ => Some h_eth0;
     dp_setnonblock := fun _ => 0;
     pcap_get_selectable_fd := fun _ => 5 |}.

(** A root process with three devices that all open: [eth0] and [eth2] are
    selectable, [wlan0], the second one, is not. *)
Definition mixed_devices : platform :=
  {| linux := true;
     get_devices := ["eth0"; "wlan0"; "eth2"]%string;
     geteuid := 0;
     readlink_exe := 16;
     xattr_caps1 := 0;
     sys_pipe := Some (3, 4);
     fcntl_rd := 0;
     fcntl_wr := 0;
     getLocal := fun _ => true;
     dp_open_live := fun d =>
       if String.eqb d "eth0" then Some h_eth0
       else if String.eqb d "wlan0" then Some h_wlan0 else Some h_eth2;
     dp_setnonblock := fun _ => 0;
     pcap_get_selectable_fd := fun p => if p =? 200 then -1 else p - 95 |}.
Definition chain_mixed : list handle :=
  [mk_handle h_eth2 "eth2"; mk_handle h_wlan0 "wlan0"; mk_handle h_eth0 "eth0"].

(** An ordinary user on Linux whose binary carries both capabilities, but
    for whom [readlink] on the binary fails. *)
Definition readlink_fails : platform :=
  {| linux := true;
     get_devices := ["eth0"]%string;
     geteuid := 1000;
     readlink_exe := -1;
     xattr_caps1 := 12288;
     sys_pipe := Some (3, 4);
     fcntl_rd := 0;
     fcntl_wr := 0;
     getLocal := fun _ => true;
     dp_open_live := fun _ => Some h_eth0;
     dp_setnonblock := fun _ => 0;
     pcap_get_selectable_fd := fun _ => 5 |}.

(** ** Vocabulary for traces *)

Definition is_refresh (e : event) : bool :=
  match e with EvDoRefresh => true | _ => false end.
Definition count_refresh (evs : list event) : nat := List.length (filter is_refresh evs).

Definition is_wait (e : event) : bool :=
  match e with EvSelect _ _ _ | EvUsleep _ => true | _ => false end.
Definition is_select (e : event) : bool :=
  match e with EvSelect _ _ _ => true | _ => false end.
Definition is_registration (e : event) : bool :=
  match e with EvGetSelectableFd _ => true | _ => false end.
Definition is_open (e : event) : bool :=
  match e with EvDpOpenLive _ => true | _ => false end.
Definition is_dispatch (e : event) : bool :=
  match e with EvDpDispatch _ => true | _ => false end.
Definition is_skip_notice (e : event) : bool :=
  match e with EvStderr (LogOpenError _) => true | _ => false end.
Definition is_release (e : event) : bool :=
  match e with EvPcapClose _ => true | _ => false end.
Definition is_teardown (e : event) : bool :=
  match e with EvClose _ | EvProcClean | EvPcapClose _ => true | _ => false end.

(** [none p evs]: no event of [evs] satisfies [p]. *)
Definition none (p : event -> bool) (evs : list event) : Prop :=
  Forall (fun e => p e = false) evs.

(** What one [dp_dispatch] call puts on the trace, and whether it makes the
    iteration productive. *)
Definition dispatch_log (t : tick) (h : handle) : list event :=
  EvDpDispatch (content h) ::
  (if dp_dispatch t (content h) =? -1 then [EvStderr (LogDispatchErr (devicename h))]
   else if dp_dispatch t (content h) <? 0
        then [EvStderr (LogDispatchRet (devicename h) (dp_dispatch t (content h)))]
        else []).
Definition productive (t : tick) (h : handle) : bool := 0 <? dp_dispatch t (content h).

(** The select-mode flag is off and the registry is empty. *)
Definition fallback (s : state) : Prop :=
  pc_loop_use_select s = false /\ pc_loop_fd_list s = [].

(** The sum [a + b] fits [time_t]. *)
Definition no_overflow (a b : Z) : Prop := time_min <= a + b <= time_max.

(** The sessions [dp_open_live] grants, in device order, and the devices it
    refuses. *)
Definition opened (E : platform) (devs : list string) : list handle :=
  flat_map (fun d => match dp_open_live E d with
                     | Some h => [mk_handle h d]
                     | None => []
                     end) devs.
Definition refused (E : platform) (d : string) : bool :=
  match dp_open_live E d with Some _ => false | None => true end.

(** What [clean_up] puts on the trace. *)
Definition teardown_events (cfg : config) (s : state) : list event :=
  map EvClose (pc_loop_fd_list s) ++ [EvProcClean]
  ++ (if negb (tracemode cfg) && negb (DEBUG cfg) then [EvExitUi] else []).

(** The refresh test of one iteration, as pure functions of the state
    before it. *)
Definition refresh_due (cfg : config) (s : state) (t : tick) : bool :=
  time_add (last_refresh_time s) (refreshdelay cfg) <=? now t.
Definition refresh_log (cfg : config) (s : state) (t : tick) : list event :=
  EvTime (now t) ::
  (if refresh_due cfg s t
   then (if negb (DEBUG cfg) && negb (tracemode cfg) then [EvUiTick] else []) ++ [EvDoRefresh]
   else []).
Definition after_refresh (cfg : config) (s : state) (t : tick) : state :=
  if refresh_due cfg s t then set_last_refresh_time (now t) s else s.

(** The idle wait, as pure functions of the state before it. *)
Definition wait_log (cfg : config) (s : state) : list event :=
  if pc_loop_use_select s
  then [EvSelect (compute_nfds (pc_loop_fd_list s)) (pc_loop_fd_list s) (refreshdelay cfg)]
  else [EvUsleep 1000].
Definition observes_shutdown (s : state) (t : tick) : bool :=
  pc_loop_use_select s
  && negb (select_ret t =? -1)
  && FD_ISSET (fst (self_pipe s)) (select_result s t (pc_loop_fd_list s)).

(** The delivery of SIGINT ahead of an iteration, once the self-pipe exists. *)
Definition deliver (t : tick) (s : state) : state :=
  if sigint t then set_pipe_readable true s else s.
Definition signal_log (t : tick) (s : state) : list event :=
  if sigint t then [EvWrite (snd (self_pipe s)) "x"] else [].
Definition breaks (cfg : config) (hs : list handle) (t : tick) (s : state) : bool :=
  negb (existsb (productive t) hs) && observes_shutdown (after_refresh cfg s t) t.

(** What [forceExit] puts on the trace. *)
Definition fatal_log (cfg : config) (msg : fatal_msg) : list event :=
  (if ui_enabled cfg then [EvExitUi] else []) ++ [EvStderr (LogFatal msg)].

(** The registration step after a successful open, as pure functions of the
    state before it. *)
Definition register_log (E : platform) (dev : string) (h : dp_handle) (s : state)
  : list event :=
  if pc_loop_use_select s then
    EvGetSelectableFd h ::
    (if pcap_get_selectable_fd E (pcap_handle h) =? -1
     then [EvStderr (LogNoSelectableFd dev)] else [])
  else [].
Definition register_state (E : platform) (h : dp_handle) (s : state) : state :=
  if pc_loop_use_select s then
    if pcap_get_selectable_fd E (pcap_handle h) =? -1
    then set_fd_list [] (set_use_select false s)
    else set_fd_list (pc_loop_fd_list s ++ [pcap_get_selectable_fd E (pcap_handle h)]) s
  else s.
Definition open_log (E : platform) (dev : string) (h : dp_handle) (s : state)
  : list event :=
  [EvGetLocal dev; EvDpOpenLive dev;
   EvDpAddcb h dp_packet_ip; EvDpAddcb h dp_packet_ip6;
   EvDpAddcb h dp_packet_tcp; EvDpAddcb h dp_packet_udp]
  ++ (if dp_setnonblock E h =? -1 then [EvStderr LogNonblock] else [])
  ++ register_log E dev h s.

(** The calls made before the main loop, and those made inside it. *)
Definition startup_event (e : event) : bool :=
  match e with
  | EvInitUi | EvExitUi | EvStderr _ | EvGetLocal _ | EvDpOpenLive _
  | EvDpAddcb _ _ | EvGetSelectableFd _ | EvSignalSigint => true
  | _ => false
  end.
Definition loop_event (e : event) : bool :=
  match e with
  | EvWrite _ _ | EvDpDispatch _ | EvStderr _ | EvTime _ | EvUiTick
  | EvDoRefresh | EvSelect _ _ _ | EvUsleep _ => true
  | _ => false
  end.

(** A run that ended in [exit(EXIT_FAILURE)]; a run that can only have
    ended that way if it ended in [exit] at all. *)
Definition fails {A} (r : result A) : Prop := value r = Exit EXIT_FAILURE.
Definition only_failure {A} (r : result A) : Prop :=
  forall c, value r = Exit c -> c = EXIT_FAILURE.

(** The guards of [main] ahead of the device loop: the privilege test
    passes, and the self-pipe was created. *)
Definition privileged (E : platform) : Prop :=
  geteuid E = 0
  \/ (linux E = true /\ readlink_exe E <> -1 /\ caps_missing E = false).
Definition pipe_created (E : platform) : Prop :=
  fst (create_self_pipe E) <> -1 /\ snd (create_self_pipe E) <> -1.

(** More vocabulary for traces. *)
Definition is_stderr (e : event) : bool :=
  match e with EvStderr _ => true | _ => false end.
Definition is_ui (e : event) : bool :=
  match e with EvInitUi | EvExitUi | EvUiTick => true | _ => false end.
Definition is_exit_ui (e : event) : bool :=
  match e with EvExitUi => true | _ => false end.
Definition is_time (e : event) : bool :=
  match e with EvTime _ => true | _ => false end.
Definition is_device_call (e : event) : bool :=
  match e with EvGetLocal _ | EvDpOpenLive _ => true | _ => false end.

(** The selectable descriptor [pcap_get_selectable_fd] answers for a session. *)
Definition selectable_fd (E : platform) (h : handle) : Z :=
  pcap_get_selectable_fd E (pcap_handle (content h)).
Definition selectable (E : platform) (h : handle) : bool :=
  negb (selectable_fd E h =? -1).

(** The registration steps of a list of sessions, one after the other. *)
Definition register_all (E : platform) (hs : list handle) (s : state) : state :=
  fold_left (fun s h => register_state E (content h) s) hs s.

(** An iteration that is not productive and whose [select] does not fail. *)
Definition idle_select_ok (hs : list handle) (t : tick) : bool :=
  negb (existsb (productive t) hs) && negb (select_ret t =? -1).

(** The UI calls of a run that makes none unless it exits through
    [forceExit]. *)
Definition ui_on_exit (cfg : config) {A} (r : result A) : Prop :=
  filter is_ui (events r)
  = match value r with
    | Exit _ => if ui_enabled cfg then [EvExitUi] else []
    | Ret _ => []
    end.

(** Timestamps that never go back, starting from [t0]. *)
Fixpoint clock_from (t0 : Z) (ticks : list tick) : Prop :=
  match ticks with
  | [] => True
  | t :: rest => t0 <= now t /\ clock_from (now t) rest
  end.

(** A [select] call with the given registry and timeout; any other event. *)
Definition select_call_ok (timeout : Z) (registry : list Z) (e : event) : Prop :=
  match e with
  | EvSelect nfds fds timeout_sec =>
      nfds = compute_nfds registry /\ fds = registry /\ timeout_sec = timeout
  | _ => True
  end.

(** Two more lines of the log. *)
Definition is_nonblock_notice (e : event) : bool :=
  match e with EvStderr LogNonblock => true | _ => false end.
Definition is_unselectable_notice (e : event) : bool :=
  match e with EvStderr (LogNoSelectableFd _) => true | _ => false end.

(** * Properties *)

(** ** The monad *)

Lemma bind_Ret {A B} (m : M A) (k : A -> M B) s a :
  value (m s) = Ret a ->
  bind m k s = mk_result (events (m s) ++ events (k a (final (m s))))
                         (final (k a (final (m s)))) (value (k a (final (m s)))).
Proof. unfold bind. intros ->. reflexivity. Qed.

Lemma bind_Exit {A B} (m : M A) (k : A -> M B) s c :
  value (m s) = Exit c ->
  bind m k s = mk_result (events (m s)) (final (m s)) (Exit c).
Proof. unfold bind. intros ->. reflexivity. Qed.

Lemma none_app p l1 l2 : none p l1 -> none p l2 -> none p (l1 ++ l2).
Proof. unfold none. intros H1 H2. apply Forall_app. split; assumption. Qed.

Lemma none_bind {A B} p (m : M A) (k : A -> M B) s :
  none p (events (m s)) ->
  (forall a, value (m s) = Ret a -> none p (events (k a (final (m s))))) ->
  none p (events (bind m k s)).
Proof.
  intros Hm Hk. unfold bind.
  destruct (value (m s)) as [a|c] eqn:Hv; simpl.
  - apply none_app; [exact Hm | apply Hk; reflexivity].
  - exact Hm.
Qed.

Lemma count_refresh_app l1 l2 :
  count_refresh (l1 ++ l2) = (count_refresh l1 + count_refresh l2)%nat.
Proof. unfold count_refresh. rewrite filter_app, List.length_app. reflexivity. Qed.

(** ** The concrete runs are runs of [startup] *)

Example startup_three_devices :
  final (startup cfg_ui three_devices initial_state) = s_running
  /\ value (startup cfg_ui three_devices initial_state) = Ret chain_two.
Proof. split; vm_compute; reflexivity. Qed.

Example startup_one_unselectable :
  final (startup cfg_ui one_unselectable initial_state) = s_fallback
  /\ value (startup cfg_ui one_unselectable initial_state) = Ret chain_wlan0.
Proof. split; vm_compute; reflexivity. Qed.

(** ** The shutdown trigger *)

Lemma quit_cb_write s :
  snd (self_pipe s) <> -1 ->
  quit_cb s = mk_result [EvWrite (snd (self_pipe s)) "x"] (set_pipe_readable true s) (Ret tt).
Proof.
  intros H. unfold quit_cb, bind, get; simpl.
  destruct (Z.eqb_spec (snd (self_pipe s)) (-1)) as [e|_]; [contradiction|]. reflexivity.
Qed.

Lemma quit_cb_exit s :
  snd (self_pipe s) = -1 -> quit_cb s = mk_result [] s (Exit 0).
Proof.
  intros H. unfold quit_cb, bind, get; simpl. rewrite H. reflexivity.
Qed.

Lemma create_self_pipe_failed E :
  sys_pipe E = None \/ fcntl_rd E = -1 \/ fcntl_wr E = -1 ->
  create_self_pipe E = (-1, -1).
Proof.
  unfold create_self_pipe. intros [H|[H|H]].
  - rewrite H. reflexivity.
  - destruct (sys_pipe E) as [[a b]|]; [|reflexivity]. rewrite H. reflexivity.
  - destruct (sys_pipe E) as [[a b]|]; [|reflexivity]. rewrite H.
    destruct (fcntl_rd E =? -1); reflexivity.
Qed.

(** C4. The shutdown trigger [quit_cb]: when the trigger end of the
    self-pipe is valid, the handler's whole effect is one [write] of the
    byte "x" to that end (the variables of the program are untouched, the
    pipe becomes readable); when it is not valid, the handler exits the
    process at once, with nothing on the trace. The trigger end is invalid
    before the pipe is created and whenever [create_self_pipe] fails. *)
Theorem quit_cb_writes_one_byte_or_exits (s : state) :
  (snd (self_pipe s) <> -1 ->
     quit_cb s = mk_result [EvWrite (snd (self_pipe s)) "x"]
                           (set_pipe_readable true s) (Ret tt))
  /\ (snd (self_pipe s) = -1 -> quit_cb s = mk_result [] s (Exit 0))
  /\ snd (self_pipe initial_state) = -1
  /\ (forall E, sys_pipe E = None \/ fcntl_rd E = -1 \/ fcntl_wr E = -1 ->
                snd (create_self_pipe E) = -1).
Proof.
  split; [apply quit_cb_write|].
  split; [apply quit_cb_exit|].
  split; [reflexivity|].
  intros E H. rewrite (create_self_pipe_failed E H). reflexivity.
Qed.

Lemma quit_cb_writes_one_byte_or_exits_witness :
  quit_cb (set_self_pipe (3, 4) initial_state)
    = mk_result [EvWrite 4 "x"]
        (set_pipe_readable true (set_self_pipe (3, 4) initial_state)) (Ret tt)
  /\ quit_cb initial_state = mk_result [] initial_state (Exit 0).
Proof.
  split.
  - apply (proj1 (quit_cb_writes_one_byte_or_exits (set_self_pipe (3, 4) initial_state))).
    simpl. lia.
  - apply (proj1 (proj2 (quit_cb_writes_one_byte_or_exits initial_state))).
    reflexivity.
Defined.

(** ** The pieces of the main loop *)

Lemma forceExit_run cfg (A : Type) (success : bool) msg s :
  @forceExit cfg A success msg s
  = mk_result ((if ui_enabled cfg then [EvExitUi] else []) ++ [EvStderr (LogFatal msg)])
              s (Exit (if success then EXIT_SUCCESS else EXIT_FAILURE)).
Proof.
  unfold forceExit, when, bind, emit, ret, exit.
  destruct (ui_enabled cfg), success; reflexivity.
Qed.

Lemma wait_for_next_trigger_run cfg t s :
  wait_for_next_trigger cfg t s
  = mk_result (wait_log cfg s) s (Ret (negb (observes_shutdown s t))).
Proof.
  unfold wait_for_next_trigger, wait_log, observes_shutdown, bind, get, emit, ret; simpl.
  destruct (pc_loop_use_select s); simpl; [|reflexivity].
  destruct (select_ret t =? -1); simpl; [reflexivity|].
  destruct (FD_ISSET _ _); reflexivity.
Qed.

Lemma dispatch_one_run t h pr s :
  dispatch_one t h pr s = mk_result (dispatch_log t h) s (Ret (pr || productive t h)).
Proof.
  unfold dispatch_one, dispatch_log, productive, bind, emit, ret; simpl.
  destruct (Z.eqb_spec (dp_dispatch t (content h)) (-1)) as [e|ne]; simpl.
  - rewrite e. simpl. rewrite orb_false_r. reflexivity.
  - destruct (Z.ltb_spec (dp_dispatch t (content h)) 0) as [l|g]; simpl.
    + destruct (Z.ltb_spec 0 (dp_dispatch t (content h))); [lia|].
      rewrite orb_false_r. reflexivity.
    + destruct (Z.eqb_spec (dp_dispatch t (content h)) 0) as [z|nz]; simpl.
      * rewrite z. simpl. rewrite orb_false_r. reflexivity.
      * destruct (Z.ltb_spec 0 (dp_dispatch t (content h))); [|lia].
        rewrite orb_true_r. reflexivity.
Qed.

Lemma dispatch_pass_run t hs : forall pr s,
  dispatch_pass t hs pr s
  = mk_result (flat_map (dispatch_log t) hs) s (Ret (pr || existsb (productive t) hs)).
Proof.
  induction hs as [|h rest IH]; intros pr s; simpl.
  - unfold ret. rewrite orb_false_r. reflexivity.
  - rewrite (bind_Ret _ _ _ (pr || productive t h)) by (rewrite dispatch_one_run; reflexivity).
    rewrite dispatch_one_run; simpl. rewrite IH; simpl.
    rewrite orb_assoc. reflexivity.
Qed.

Lemma refresh_check_run cfg t s :
  refresh_check cfg t s = mk_result (refresh_log cfg s t) (after_refresh cfg s t) (Ret tt).
Proof.
  unfold refresh_check, refresh_log, after_refresh, refresh_due, when, bind, get, emit,
    modify, ret; simpl.
  destruct (time_add (last_refresh_time s) (refreshdelay cfg) <=? now t); simpl;
    [|reflexivity].
  destruct (negb (DEBUG cfg) && negb (tracemode cfg)); reflexivity.
Qed.

(** One iteration of the main loop, in closed form. *)
Lemma loop_body_run cfg hs t s :
  loop_body cfg hs t s
  = mk_result (flat_map (dispatch_log t) hs ++ refresh_log cfg s t
               ++ (if existsb (productive t) hs then []
                   else wait_log cfg (after_refresh cfg s t)))
              (after_refresh cfg s t)
              (Ret (negb (existsb (productive t) hs)
                    && observes_shutdown (after_refresh cfg s t) t)).
Proof.
  unfold loop_body.
  rewrite (bind_Ret _ _ _ (existsb (productive t) hs)) by (rewrite dispatch_pass_run; reflexivity).
  rewrite dispatch_pass_run; simpl.
  rewrite (bind_Ret _ _ _ tt) by (rewrite refresh_check_run; reflexivity).
  rewrite refresh_check_run; simpl.
  destruct (existsb (productive t) hs); simpl.
  - unfold ret; simpl. reflexivity.
  - rewrite (bind_Ret _ _ _ (negb (observes_shutdown (after_refresh cfg s t) t)))
      by (rewrite wait_for_next_trigger_run; reflexivity).
    rewrite wait_for_next_trigger_run; simpl.
    destruct (observes_shutdown (after_refresh cfg s t) t); simpl;
      rewrite app_nil_r; reflexivity.
Qed.

Lemma main_loop_step cfg hs t rest s :
  main_loop cfg hs (t :: rest) s
  = if sigint t && (snd (self_pipe s) =? -1) then mk_result [] s (Exit 0)
    else
      let s0 := deliver t s in
      let r := loop_body cfg hs t s0 in
      if breaks cfg hs t s0
      then mk_result (signal_log t s ++ events r) (final r) (Ret true)
      else
        let r' := main_loop cfg hs rest (final r) in
        mk_result (signal_log t s ++ events r ++ events r') (final r') (value r').
Proof.
  cbn [main_loop]. unfold when, deliver, signal_log, breaks.
  destruct (sigint t); simpl.
  - destruct (Z.eqb_spec (snd (self_pipe s)) (-1)) as [e|ne].
    + rewrite (bind_Exit _ _ _ 0) by (rewrite quit_cb_exit by exact e; reflexivity).
      rewrite quit_cb_exit by exact e. reflexivity.
    + rewrite (bind_Ret _ _ _ tt) by (rewrite quit_cb_write by exact ne; reflexivity).
      rewrite quit_cb_write by exact ne. cbn [events final value].
      set (s0 := set_pipe_readable true s).
      rewrite (bind_Ret _ _ _ (negb (existsb (productive t) hs)
                               && observes_shutdown (after_refresh cfg s0 t) t))
        by (rewrite loop_body_run; reflexivity).
      destruct (negb (existsb (productive t) hs)
                && observes_shutdown (after_refresh cfg s0 t) t); cbn [events final value].
      * unfold ret; cbn [events final value]. rewrite app_nil_r. reflexivity.
      * reflexivity.
  - rewrite (bind_Ret _ _ _ tt) by reflexivity. unfold ret at 1. cbn [events final value].
    rewrite (bind_Ret _ _ _ (negb (existsb (productive t) hs)
                             && observes_shutdown (after_refresh cfg s t) t))
      by (rewrite loop_body_run; reflexivity).
    destruct (negb (existsb (productive t) hs)
              && observes_shutdown (after_refresh cfg s t) t); cbn [events final value].
    + unfold ret; cbn [events final value]. rewrite app_nil_r. reflexivity.
    + reflexivity.
Qed.

Lemma none_dispatch_log p t hs :
  (forall h, p (EvDpDispatch h) = false) ->
  (forall m, p (EvStderr m) = false) ->
  none p (flat_map (dispatch_log t) hs).
Proof.
  intros Hd Hs. induction hs as [|h rest IH]; simpl.
  - constructor.
  - constructor; [apply Hd|]. apply none_app; [|exact IH].
    destruct (_ =? -1); [repeat constructor; apply Hs|].
    destruct (_ <? 0); repeat constructor; apply Hs.
Qed.

Lemma none_refresh_log p cfg s t :
  (forall z, p (EvTime z) = false) -> p EvUiTick = false -> p EvDoRefresh = false ->
  none p (refresh_log cfg s t).
Proof.
  intros Ht Hu Hr. unfold refresh_log. constructor; [apply Ht|].
  destruct (refresh_due cfg s t); [|constructor].
  destruct (negb (DEBUG cfg) && negb (tracemode cfg)); repeat constructor; assumption.
Qed.

(** ** C9: a productive iteration never reaches the idle wait *)

(** C9. In an iteration in which some session dispatched at least one
    packet ([dp_dispatch] returned a positive count), [loop_body] does not
    end in [break] and makes no idle wait (neither [select] nor [usleep]),
    whatever the state of the self-pipe: a byte pending in it stays pending
    and the loop goes on with the next iteration, also when the SIGINT
    handler has just written that byte. *)
Theorem productive_iteration_never_waits cfg (hs : list handle) (t : tick) (s : state) :
  (exists h, In h hs /\ 0 < dp_dispatch t (content h)) ->
  value (loop_body cfg hs t s) = Ret false
  /\ none is_wait (events (loop_body cfg hs t s))
  /\ pipe_readable (final (loop_body cfg hs t s)) = pipe_readable s
  /\ (forall rest,
        (sigint t = true -> snd (self_pipe s) <> -1) ->
        value (main_loop cfg hs (t :: rest) s)
        = value (main_loop cfg hs rest (final (loop_body cfg hs t (deliver t s))))).
Proof.
  intros (h & Hin & Hpos).
  assert (Hp : existsb (productive t) hs = true).
  { apply existsb_exists. exists h. split; [exact Hin|].
    unfold productive. apply Z.ltb_lt. exact Hpos. }
  assert (Hb : forall s', breaks cfg hs t s' = false).
  { intros s'. unfold breaks. rewrite Hp. reflexivity. }
  rewrite loop_body_run, Hp. cbn [events final value negb andb].
  repeat split.
  - rewrite app_nil_r. apply none_app.
    + apply none_dispatch_log; reflexivity.
    + apply none_refresh_log; reflexivity.
  - unfold after_refresh. destruct (refresh_due cfg s t); reflexivity.
  - intros rest Hsig. rewrite main_loop_step.
    assert (Hgo : sigint t && (snd (self_pipe s) =? -1) = false).
    { destruct (sigint t); [|reflexivity].
      destruct (Z.eqb_spec (snd (self_pipe s)) (-1)) as [e|_]; [|reflexivity].
      exfalso. apply (Hsig eq_refl). exact e. }
    rewrite Hgo. cbv zeta. rewrite Hb. reflexivity.
Qed.

Lemma productive_iteration_never_waits_witness :
  (exists h, In h chain_two /\ 0 < dp_dispatch (busy_tick 1000) (content h))
  /\ value (loop_body cfg_ui chain_two (busy_tick 1000) (set_pipe_readable true s_running))
     = Ret false.
Proof.
  assert (H : exists h, In h chain_two /\ 0 < dp_dispatch (busy_tick 1000) (content h)).
  { exists (mk_handle h_eth0 "eth0"). split; [right; left; reflexivity | simpl; lia]. }
  split; [exact H|].
  exact (proj1 (productive_iteration_never_waits cfg_ui chain_two (busy_tick 1000)
                  (set_pipe_readable true s_running) H)).
Defined.

(** ** Fields the loop leaves alone *)

Lemma after_refresh_self_pipe cfg s t : self_pipe (after_refresh cfg s t) = self_pipe s.
Proof. unfold after_refresh. destruct (refresh_due cfg s t); reflexivity. Qed.
Lemma after_refresh_use_select cfg s t :
  pc_loop_use_select (after_refresh cfg s t) = pc_loop_use_select s.
Proof. unfold after_refresh. destruct (refresh_due cfg s t); reflexivity. Qed.
Lemma after_refresh_fd_list cfg s t :
  pc_loop_fd_list (after_refresh cfg s t) = pc_loop_fd_list s.
Proof. unfold after_refresh. destruct (refresh_due cfg s t); reflexivity. Qed.
Lemma after_refresh_pipe_readable cfg s t :
  pipe_readable (after_refresh cfg s t) = pipe_readable s.
Proof. unfold after_refresh. destruct (refresh_due cfg s t); reflexivity. Qed.
Lemma deliver_self_pipe t s : self_pipe (deliver t s) = self_pipe s.
Proof. unfold deliver. destruct (sigint t); reflexivity. Qed.
Lemma deliver_use_select t s : pc_loop_use_select (deliver t s) = pc_loop_use_select s.
Proof. unfold deliver. destruct (sigint t); reflexivity. Qed.
Lemma deliver_fd_list t s : pc_loop_fd_list (deliver t s) = pc_loop_fd_list s.
Proof. unfold deliver. destruct (sigint t); reflexivity. Qed.
Lemma deliver_last_refresh_time t s : last_refresh_time (deliver t s) = last_refresh_time s.
Proof. unfold deliver. destruct (sigint t); reflexivity. Qed.

Lemma loop_body_final cfg hs t s : final (loop_body cfg hs t s) = after_refresh cfg s t.
Proof. rewrite loop_body_run. reflexivity. Qed.

(** ** C1: the idle wait of fallback mode *)

(** In select mode the wait end is examined: with the pipe registered and
    readable, a [select] that does not fail makes the wait report shutdown. *)
Lemma select_mode_observes_shutdown cfg t s :
  pc_loop_use_select s = true ->
  In (fst (self_pipe s)) (pc_loop_fd_list s) ->
  pipe_readable s = true ->
  select_ret t <> -1 ->
  value (wait_for_next_trigger cfg t s) = Ret false.
Proof.
  intros Hsel Hin Hrd Hret. rewrite wait_for_next_trigger_run. cbn [value].
  unfold observes_shutdown. rewrite Hsel.
  destruct (Z.eqb_spec (select_ret t) (-1)) as [e|_]; [contradiction|].
  cbn [andb negb].
  assert (Hset : FD_ISSET (fst (self_pipe s)) (select_result s t (pc_loop_fd_list s)) = true).
  { unfold FD_ISSET, select_result. apply existsb_exists.
    exists (fst (self_pipe s)). split; [|apply Z.eqb_refl].
    apply filter_In. split; [exact Hin|].
    unfold fd_readable. rewrite Z.eqb_refl, Hrd. reflexivity. }
  rewrite Hset. reflexivity.
Qed.

(** C1. The idle wait of fallback mode. With the select-mode flag off the
    wait is [usleep(1000)], a fixed bounded sleep, and it always reports
    "go on", also when a byte is pending in the self-pipe: the wait end is
    not examined on this branch. So from a state in fallback mode, for every
    sequence of answers of the environment, SIGINT deliveries included, the
    main loop is never left: a triggered shutdown is not observed. *)
Theorem fallback_loop_never_observes_shutdown cfg (hs : list handle) (ticks : list tick)
    (s : state) :
  pc_loop_use_select s = false ->
  snd (self_pipe s) <> -1 ->
  (forall t, wait_for_next_trigger cfg t (set_pipe_readable true s)
             = mk_result [EvUsleep 1000] (set_pipe_readable true s) (Ret true))
  /\ value (main_loop cfg hs ticks s) = Ret false.
Proof.
  intros Hsel Hpipe. split.
  - intros t. rewrite wait_for_next_trigger_run.
    unfold wait_log, observes_shutdown. cbn [pc_loop_use_select set_pipe_readable].
    rewrite Hsel. reflexivity.
  - revert s Hsel Hpipe. induction ticks as [|t rest IH]; intros s Hsel Hpipe.
    + reflexivity.
    + rewrite main_loop_step.
      destruct (Z.eqb_spec (snd (self_pipe s)) (-1)) as [e|_]; [contradiction|].
      rewrite andb_false_r. cbv zeta.
      assert (Hb : breaks cfg hs t (deliver t s) = false).
      { unfold breaks, observes_shutdown.
        rewrite after_refresh_use_select, deliver_use_select, Hsel.
        cbn [andb]. apply andb_false_r. }
      rewrite Hb. cbn [value]. rewrite loop_body_final. apply IH.
      * rewrite after_refresh_use_select, deliver_use_select. exact Hsel.
      * rewrite after_refresh_self_pipe, deliver_self_pipe. exact Hpipe.
Qed.

Lemma fallback_loop_never_observes_shutdown_witness :
  value (main_loop cfg_ui chain_wlan0
           [sigint_tick 1000; quiet_tick 1000; quiet_tick 1001] s_fallback)
  = Ret false.
Proof.
  apply (proj2 (fallback_loop_never_observes_shutdown cfg_ui chain_wlan0
                  [sigint_tick 1000; quiet_tick 1000; quiet_tick 1001] s_fallback
                  eq_refl ltac:(simpl; lia))).
Defined.

(** The same run from the start of [main]: the handler writes its byte, the
    loop keeps sleeping, [clean_up] is never reached. *)
Example fallback_run_keeps_looping :
  main cfg_ui one_unselectable
       [sigint_tick 1000; quiet_tick 1000; quiet_tick 1001] initial_state
  = mk_result
      [EvInitUi; EvGetLocal "wlan0"; EvDpOpenLive "wlan0";
       EvDpAddcb h_wlan0 dp_packet_ip; EvDpAddcb h_wlan0 dp_packet_ip6;
       EvDpAddcb h_wlan0 dp_packet_tcp; EvDpAddcb h_wlan0 dp_packet_udp;
       EvGetSelectableFd h_wlan0; EvStderr (LogNoSelectableFd "wlan0");
       EvSignalSigint;
       EvWrite 4 "x";
       EvDpDispatch h_wlan0; EvTime 1000; EvUiTick; EvDoRefresh; EvUsleep 1000;
       EvDpDispatch h_wlan0; EvTime 1000; EvUsleep 1000;
       EvDpDispatch h_wlan0; EvTime 1001; EvUiTick; EvDoRefresh; EvUsleep 1000]
      (set_pipe_readable true (set_last_refresh_time 1001 s_fallback))
      (Ret Looping).
Proof. vm_compute. reflexivity. Qed.

(** ** C2: iterations in which every dispatch call fails *)

Lemma all_errors_not_productive t hs :
  (forall h, In h hs -> dp_dispatch t (content h) < 0) ->
  existsb (productive t) hs = false.
Proof.
  intros H. induction hs as [|h rest IH]; simpl; [reflexivity|].
  rewrite IH by (intros h' Hin; apply H; right; exact Hin).
  unfold productive. specialize (H h (or_introl eq_refl)).
  destruct (Z.ltb_spec 0 (dp_dispatch t (content h))); [lia|reflexivity].
Qed.

Lemma dispatch_log_error t h :
  dp_dispatch t (content h) < 0 ->
  exists m, dispatch_log t h = [EvDpDispatch (content h); EvStderr m].
Proof.
  intros H. unfold dispatch_log.
  destruct (Z.eqb_spec (dp_dispatch t (content h)) (-1)); [eexists; reflexivity|].
  destruct (Z.ltb_spec (dp_dispatch t (content h)) 0); [eexists; reflexivity|lia].
Qed.

(** C2, as the code has it. In an iteration in which the dispatch call of
    every session reports an error (a negative return value), each error is
    written to the log, one line per session, and has no other effect: the
    refresh test and the idle wait follow as in any unproductive iteration,
    and the iteration ends in [break] exactly when the idle wait observes
    the wait end of the self-pipe readable. *)
Theorem dispatch_errors_are_only_logged cfg (hs : list handle) (t : tick) (s : state) :
  (forall h, In h hs -> dp_dispatch t (content h) < 0) ->
  loop_body cfg hs t s
  = mk_result (flat_map (dispatch_log t) hs ++ refresh_log cfg s t
               ++ wait_log cfg (after_refresh cfg s t))
              (after_refresh cfg s t)
              (Ret (observes_shutdown (after_refresh cfg s t) t))
  /\ (forall h, In h hs ->
        exists m, dispatch_log t h = [EvDpDispatch (content h); EvStderr m]).
Proof.
  intros H. split.
  - rewrite loop_body_run, (all_errors_not_productive t hs H). reflexivity.
  - intros h Hin. apply dispatch_log_error. apply H. exact Hin.
Qed.

Lemma dispatch_errors_are_only_logged_witness :
  value (loop_body cfg_ui chain_two (error_tick 1000) s_running) = Ret false.
Proof.
  assert (H : forall h, In h chain_two -> dp_dispatch (error_tick 1000) (content h) < 0).
  { intros h _. simpl. lia. }
  rewrite (proj1 (dispatch_errors_are_only_logged cfg_ui chain_two (error_tick 1000)
                    s_running H)).
  reflexivity.
Defined.

(** C2, as stated, fails: on [three_devices] both sessions report [-1] in
    each of two iterations, no shutdown was requested, and [main] is still
    inside its loop, with no teardown on the trace. *)
Lemma all_sessions_failing_does_not_drain :
  (forall h, In h chain_two -> dp_dispatch (error_tick 1000) (content h) = -1)
  /\ value (main cfg_ui three_devices [error_tick 1000; error_tick 1001] initial_state)
     = Ret Looping
  /\ filter is_teardown
       (events (main cfg_ui three_devices [error_tick 1000; error_tick 1001] initial_state))
     = [].
Proof.
  split; [intros h _; reflexivity|].
  split; vm_compute; reflexivity.
Qed.

(** ** C5: the refresh cadence *)

Lemma time_add_exact a b : no_overflow a b -> time_add a b = a + b.
Proof.
  unfold no_overflow, time_add, wrap_time, time_min, time_max. intros H.
  rewrite Z.mod_small; lia.
Qed.

Lemma refresh_due_true cfg s t :
  no_overflow (last_refresh_time s) (refreshdelay cfg) ->
  last_refresh_time s + refreshdelay cfg <= now t ->
  refresh_due cfg s t = true.
Proof.
  intros Hno Hle. unfold refresh_due. rewrite time_add_exact by exact Hno.
  apply Z.leb_le. exact Hle.
Qed.

Lemma refresh_due_false cfg s t :
  no_overflow (last_refresh_time s) (refreshdelay cfg) ->
  now t < last_refresh_time s + refreshdelay cfg ->
  refresh_due cfg s t = false.
Proof.
  intros Hno Hlt. unfold refresh_due. rewrite time_add_exact by exact Hno.
  apply Z.leb_gt. exact Hlt.
Qed.

Lemma count_refresh_none evs : none is_refresh evs -> count_refresh evs = 0%nat.
Proof.
  unfold none, count_refresh. induction 1 as [|e l He _ IH]; simpl; [reflexivity|].
  rewrite He. exact IH.
Qed.

Lemma count_refresh_log cfg s t :
  count_refresh (refresh_log cfg s t) = if refresh_due cfg s t then 1%nat else 0%nat.
Proof.
  unfold refresh_log, count_refresh.
  destruct (refresh_due cfg s t); [|reflexivity].
  destruct (negb (DEBUG cfg) && negb (tracemode cfg)); reflexivity.
Qed.

Lemma count_refresh_wait_log cfg s : count_refresh (wait_log cfg s) = 0%nat.
Proof. unfold wait_log. destruct (pc_loop_use_select s); reflexivity. Qed.

Lemma count_refresh_signal_log t s : count_refresh (signal_log t s) = 0%nat.
Proof. unfold signal_log. destruct (sigint t); reflexivity. Qed.

Lemma count_refresh_loop_body cfg hs t s :
  count_refresh (events (loop_body cfg hs t s))
  = if refresh_due cfg s t then 1%nat else 0%nat.
Proof.
  rewrite loop_body_run. cbn [events]. rewrite !count_refresh_app.
  rewrite (count_refresh_none (flat_map (dispatch_log t) hs))
    by (apply none_dispatch_log; reflexivity).
  rewrite count_refresh_log.
  destruct (existsb (productive t) hs); [|rewrite count_refresh_wait_log];
    destruct (refresh_due cfg s t); reflexivity.
Qed.

(** While every timestamp stays below [last_refresh_time + refreshdelay],
    nothing fires. *)
Lemma no_refresh_before_due cfg hs : forall ticks s,
  snd (self_pipe s) <> -1 ->
  no_overflow (last_refresh_time s) (refreshdelay cfg) ->
  (forall t, In t ticks -> now t < last_refresh_time s + refreshdelay cfg) ->
  count_refresh (events (main_loop cfg hs ticks s)) = 0%nat.
Proof.
  induction ticks as [|t rest IH]; intros s Hpipe Hno Hall.
  - reflexivity.
  - rewrite main_loop_step.
    destruct (Z.eqb_spec (snd (self_pipe s)) (-1)) as [e|_]; [contradiction|].
    rewrite andb_false_r. cbv zeta.
    assert (Hdue : refresh_due cfg (deliver t s) t = false).
    { apply refresh_due_false; rewrite deliver_last_refresh_time;
        [exact Hno | apply Hall; left; reflexivity]. }
    assert (Hfin : final (loop_body cfg hs t (deliver t s)) = deliver t s).
    { rewrite loop_body_final. unfold after_refresh. rewrite Hdue. reflexivity. }
    destruct (breaks cfg hs t (deliver t s)); cbn [events];
      rewrite !count_refresh_app, count_refresh_signal_log, count_refresh_loop_body, Hdue.
    + reflexivity.
    + rewrite Hfin. rewrite IH; [reflexivity| | |].
      * rewrite deliver_self_pipe. exact Hpipe.
      * rewrite deliver_last_refresh_time. exact Hno.
      * intros t' Hin. rewrite deliver_last_refresh_time. apply Hall. right. exact Hin.
Qed.

(** One iteration: the refresh fires exactly when the period has elapsed,
    and then the last-fired timestamp becomes the current time. *)
Lemma refresh_iteration cfg hs t s :
  no_overflow (last_refresh_time s) (refreshdelay cfg) ->
  (last_refresh_time s + refreshdelay cfg <= now t ->
     count_refresh (events (loop_body cfg hs t s)) = 1%nat
     /\ last_refresh_time (final (loop_body cfg hs t s)) = now t)
  /\ (now t < last_refresh_time s + refreshdelay cfg ->
     count_refresh (events (loop_body cfg hs t s)) = 0%nat
     /\ last_refresh_time (final (loop_body cfg hs t s)) = last_refresh_time s).
Proof.
  intros Hno. rewrite count_refresh_loop_body, loop_body_final. unfold after_refresh.
  split; intros H.
  - rewrite (refresh_due_true cfg s t Hno H). split; reflexivity.
  - rewrite (refresh_due_false cfg s t Hno H). split; reflexivity.
Qed.

(** After a stall longer than the period, the first iteration fires once and
    nothing fires again before a full period has passed. *)
Lemma one_refresh_after_stall cfg hs t rest s :
  snd (self_pipe s) <> -1 ->
  no_overflow (last_refresh_time s) (refreshdelay cfg) ->
  no_overflow (now t) (refreshdelay cfg) ->
  last_refresh_time s + refreshdelay cfg <= now t ->
  (forall t', In t' rest -> now t' < now t + refreshdelay cfg) ->
  count_refresh (events (main_loop cfg hs (t :: rest) s)) = 1%nat.
Proof.
  intros Hpipe Hno Hnow Hstall Hrest.
  rewrite main_loop_step.
  destruct (Z.eqb_spec (snd (self_pipe s)) (-1)) as [e|_]; [contradiction|].
  rewrite andb_false_r. cbv zeta.
  assert (Hdue : refresh_due cfg (deliver t s) t = true).
  { apply refresh_due_true; rewrite deliver_last_refresh_time; assumption. }
  assert (Hfin : final (loop_body cfg hs t (deliver t s))
                 = set_last_refresh_time (now t) (deliver t s)).
  { rewrite loop_body_final. unfold after_refresh. rewrite Hdue. reflexivity. }
  destruct (breaks cfg hs t (deliver t s)); cbn [events];
    rewrite !count_refresh_app, count_refresh_signal_log, count_refresh_loop_body, Hdue.
  - reflexivity.
  - rewrite Hfin, no_refresh_before_due; [reflexivity| | |].
    + cbn [self_pipe set_last_refresh_time]. rewrite deliver_self_pipe. exact Hpipe.
    + exact Hnow.
    + exact Hrest.
Qed.

(** Within any window of one period, at most one refresh fires. *)
Lemma at_most_one_refresh_per_period cfg hs : forall ticks s T,
  snd (self_pipe s) <> -1 ->
  no_overflow (last_refresh_time s) (refreshdelay cfg) ->
  (forall t, In t ticks ->
     T <= now t < T + refreshdelay cfg /\ no_overflow (now t) (refreshdelay cfg)) ->
  (count_refresh (events (main_loop cfg hs ticks s)) <= 1)%nat.
Proof.
  induction ticks as [|t rest IH]; intros s T Hpipe Hno Hall.
  - simpl. unfold count_refresh. simpl. lia.
  - destruct (Hall t (or_introl eq_refl)) as [Hwin Hnow].
    destruct (Z.le_gt_cases (last_refresh_time s + refreshdelay cfg) (now t)) as [Hdue|Hnot].
    + rewrite (one_refresh_after_stall cfg hs t rest s Hpipe Hno Hnow Hdue); [lia|].
      intros t' Hin. destruct (Hall t' (or_intror Hin)) as [Hw' _]. lia.
    + rewrite main_loop_step.
      destruct (Z.eqb_spec (snd (self_pipe s)) (-1)) as [e|_]; [contradiction|].
      rewrite andb_false_r. cbv zeta.
      assert (Hd : refresh_due cfg (deliver t s) t = false).
      { apply refresh_due_false; rewrite deliver_last_refresh_time; assumption. }
      assert (Hfin : final (loop_body cfg hs t (deliver t s)) = deliver t s).
      { rewrite loop_body_final. unfold after_refresh. rewrite Hd. reflexivity. }
      destruct (breaks cfg hs t (deliver t s)); cbn [events];
        rewrite !count_refresh_app, count_refresh_signal_log, count_refresh_loop_body, Hd.
      * simpl. lia.
      * rewrite Hfin. simpl.
        apply (IH (deliver t s) T).
        -- rewrite deliver_self_pipe. exact Hpipe.
        -- rewrite deliver_last_refresh_time. exact Hno.
        -- intros t' Hin. apply Hall. right. exact Hin.
Qed.

(** C5. Refresh cadence, for a positive period that does not overflow
    [time_t]. (1) In every iteration the refresh fires exactly when
    [last_refresh_time + refreshdelay <= now], and then [last_refresh_time]
    becomes [now] (not the old value plus the period). (2) After a stall
    longer than the period the resuming iteration fires exactly once, and
    nothing more fires in the iterations that follow as long as their
    timestamps stay below [now + refreshdelay]. (3) Over iterations whose
    timestamps lie within one period [T, T + refreshdelay), the refresh
    fires at most once. *)
Theorem refresh_cadence cfg (hs : list handle) (HP : 0 < refreshdelay cfg) :
  (forall t s,
     no_overflow (last_refresh_time s) (refreshdelay cfg) ->
     (last_refresh_time s + refreshdelay cfg <= now t ->
        count_refresh (events (loop_body cfg hs t s)) = 1%nat
        /\ last_refresh_time (final (loop_body cfg hs t s)) = now t)
     /\ (now t < last_refresh_time s + refreshdelay cfg ->
        count_refresh (events (loop_body cfg hs t s)) = 0%nat
        /\ last_refresh_time (final (loop_body cfg hs t s)) = last_refresh_time s))
  /\ (forall t rest s,
        snd (self_pipe s) <> -1 ->
        no_overflow (last_refresh_time s) (refreshdelay cfg) ->
        no_overflow (now t) (refreshdelay cfg) ->
        last_refresh_time s + refreshdelay cfg < now t ->
        (forall t', In t' rest -> now t' < now t + refreshdelay cfg) ->
        count_refresh (events (main_loop cfg hs (t :: rest) s)) = 1%nat)
  /\ (forall ticks s T,
        snd (self_pipe s) <> -1 ->
        no_overflow (last_refresh_time s) (refreshdelay cfg) ->
        (forall t, In t ticks ->
           T <= now t < T + refreshdelay cfg /\ no_overflow (now t) (refreshdelay cfg)) ->
        (count_refresh (events (main_loop cfg hs ticks s)) <= 1)%nat).
Proof.
  split; [|split].
  - intros t s. apply refresh_iteration.
  - intros t rest s Hpipe Hno Hnow Hstall Hrest.
    apply one_refresh_after_stall; try assumption. lia.
  - apply at_most_one_refresh_per_period.
Qed.

Lemma refresh_cadence_witness :
  count_refresh
    (events (main_loop cfg_ui chain_two
               [quiet_tick 1000; busy_tick 1000; quiet_tick 1000] s_running)) = 1%nat.
Proof.
  assert (HP : 0 < refreshdelay cfg_ui) by (simpl; lia).
  apply (proj1 (proj2 (refresh_cadence cfg_ui chain_two HP))).
  - simpl. lia.
  - unfold no_overflow, time_min, time_max. simpl. lia.
  - unfold no_overflow, time_min, time_max. simpl. lia.
  - simpl. lia.
  - intros t' [H|[H|[]]]; subst t'; simpl; lia.
Defined.

(** ** Opening the capture sessions *)

Lemma register_selectable_run E dev h s :
  register_selectable E dev h s
  = mk_result (register_log E dev h s) (register_state E h s) (Ret tt).
Proof.
  unfold register_selectable, register_log, register_state, bind, get, emit, modify, ret;
    simpl.
  destruct (pc_loop_use_select s); simpl; [|reflexivity].
  destruct (pcap_get_selectable_fd E (pcap_handle h) =? -1); reflexivity.
Qed.

Lemma open_device_getLocal_failed cfg E dev a s :
  getLocal E dev = false ->
  open_device cfg E dev a s
  = mk_result (EvGetLocal dev :: fatal_log cfg MsgGetifaddrs) s (Exit EXIT_FAILURE).
Proof.
  intros H. unfold open_device.
  rewrite (bind_Ret _ _ _ tt) by reflexivity. cbn [emit events final value].
  rewrite H. cbn [negb].
  rewrite (bind_Exit _ _ _ EXIT_FAILURE) by (rewrite forceExit_run; reflexivity).
  rewrite forceExit_run. reflexivity.
Qed.

Lemma open_device_opened cfg E dev a s h :
  getLocal E dev = true ->
  dp_open_live E dev = Some h ->
  open_device cfg E dev a s
  = mk_result (open_log E dev h s) (register_state E h s)
      (Ret {| handles := mk_handle h dev :: handles a;
              nb_devices := nb_devices a + 1;
              nb_failed_devices := nb_failed_devices a |}).
Proof.
  intros Hl Ho. unfold open_device, open_log. rewrite Hl, Ho. cbn [negb].
  unfold when, bind at 1 2 3 4 5 6 7 8, emit, ret. cbn [events final value app].
  destruct (dp_setnonblock E h =? -1); cbn [events final value app];
    rewrite (bind_Ret _ _ _ tt) by (rewrite register_selectable_run; reflexivity);
    rewrite register_selectable_run; cbn [events final value app];
    rewrite app_nil_r; reflexivity.
Qed.

Lemma open_device_refused cfg E dev a s :
  getLocal E dev = true ->
  dp_open_live E dev = None ->
  open_device cfg E dev a s
  = mk_result [EvGetLocal dev; EvDpOpenLive dev; EvStderr (LogOpenError dev)] s
      (Ret {| handles := handles a;
              nb_devices := nb_devices a + 1;
              nb_failed_devices := nb_failed_devices a + 1 |}).
Proof.
  intros Hl Ho. unfold open_device. rewrite Hl, Ho. reflexivity.
Qed.

(** ** C3: the fallback flag is monotonic *)

Lemma register_fallback E dev h s :
  fallback s -> register_state E h s = s /\ register_log E dev h s = [].
Proof.
  intros [Hsel _]. unfold register_state, register_log. rewrite Hsel. split; reflexivity.
Qed.

Lemma open_device_fallback cfg E dev a s :
  fallback s ->
  final (open_device cfg E dev a s) = s
  /\ none is_registration (events (open_device cfg E dev a s)).
Proof.
  intros Hfb. destruct (getLocal E dev) eqn:Hl.
  - destruct (dp_open_live E dev) as [h|] eqn:Ho.
    + rewrite (open_device_opened cfg E dev a s h Hl Ho). cbn [final events].
      destruct (register_fallback E dev h s Hfb) as [Hs Hlog].
      split; [exact Hs|]. unfold open_log. rewrite Hlog.
      repeat (constructor; [reflexivity|]).
      apply none_app; [|constructor].
      destruct (dp_setnonblock E h =? -1); repeat constructor.
    + rewrite (open_device_refused cfg E dev a s Hl Ho). cbn [final events].
      split; [reflexivity|]. repeat constructor.
  - rewrite (open_device_getLocal_failed cfg E dev a s Hl). cbn [final events].
    split; [reflexivity|]. constructor; [reflexivity|].
    unfold fatal_log. apply none_app; [|repeat constructor].
    destruct (ui_enabled cfg); repeat constructor.
Qed.

Lemma open_devices_fallback cfg E : forall devs a s,
  fallback s ->
  final (open_devices cfg E devs a s) = s
  /\ none is_registration (events (open_devices cfg E devs a s)).
Proof.
  induction devs as [|dev rest IH]; intros a s Hfb.
  - split; [reflexivity|constructor].
  - cbn [open_devices].
    destruct (open_device_fallback cfg E dev a s Hfb) as [Hs Hev].
    destruct (value (open_device cfg E dev a s)) as [a'|c] eqn:Hv.
    + rewrite (bind_Ret _ _ _ a' Hv). cbn [final events]. rewrite Hs.
      destruct (IH a' s Hfb) as [Hs' Hev'].
      split; [exact Hs'|]. apply none_app; assumption.
    + rewrite (bind_Exit _ _ _ c Hv). cbn [final events].
      split; assumption.
Qed.

Lemma main_loop_fallback cfg hs : forall ticks s,
  fallback s ->
  fallback (final (main_loop cfg hs ticks s))
  /\ none is_select (events (main_loop cfg hs ticks s)).
Proof.
  induction ticks as [|t rest IH]; intros s Hfb.
  - split; [exact Hfb|constructor].
  - rewrite main_loop_step.
    destruct (sigint t && (snd (self_pipe s) =? -1)).
    + split; [exact Hfb|constructor].
    + cbv zeta.
      assert (Hfb' : fallback (after_refresh cfg (deliver t s) t)).
      { destruct Hfb as [Hsel Hl]. split.
        - rewrite after_refresh_use_select, deliver_use_select. exact Hsel.
        - rewrite after_refresh_fd_list, deliver_fd_list. exact Hl. }
      assert (Hsig : none is_select (signal_log t s)).
      { unfold signal_log. destruct (sigint t); repeat constructor. }
      assert (Hbody : none is_select (events (loop_body cfg hs t (deliver t s)))).
      { rewrite loop_body_run. cbn [events].
        apply none_app; [apply none_dispatch_log; reflexivity|].
        apply none_app; [apply none_refresh_log; reflexivity|].
        destruct (existsb (productive t) hs); [constructor|].
        unfold wait_log. destruct Hfb' as [Hsel _]. rewrite Hsel. repeat constructor. }
      destruct (breaks cfg hs t (deliver t s)); cbn [final events].
      * rewrite loop_body_final. split; [exact Hfb'|]. apply none_app; assumption.
      * rewrite loop_body_final. destruct (IH _ Hfb') as [Hf He].
        split; [exact Hf|]. apply none_app; [exact Hsig|]. apply none_app; assumption.
Qed.

(** ** Exit codes and alphabets of the startup *)

Lemma only_failure_Ret {A} (r : result A) a : value r = Ret a -> only_failure r.
Proof. intros H c Hc. rewrite H in Hc. discriminate. Qed.

Lemma only_failure_bind {A B} (m : M A) (k : A -> M B) s :
  only_failure (m s) ->
  (forall a, value (m s) = Ret a -> only_failure (k a (final (m s)))) ->
  only_failure (bind m k s).
Proof.
  intros Hm Hk c.
  destruct (value (m s)) as [a|c'] eqn:Hv.
  - rewrite (bind_Ret _ _ _ a Hv). cbn [value]. intros Hc.
    apply (Hk a eq_refl). exact Hc.
  - rewrite (bind_Exit _ _ _ c' Hv). cbn [value]. intros Hc.
    injection Hc as <-. apply Hm. exact Hv.
Qed.

Lemma fails_bind_l {A B} (m : M A) (k : A -> M B) s : fails (m s) -> fails (bind m k s).
Proof. unfold fails. intros H. rewrite (bind_Exit _ _ _ _ H). reflexivity. Qed.

Lemma fails_bind_r {A B} (m : M A) (k : A -> M B) s a :
  value (m s) = Ret a -> fails (k a (final (m s))) -> fails (bind m k s).
Proof. unfold fails. intros H Hk. rewrite (bind_Ret _ _ _ _ H). exact Hk. Qed.

Lemma fails_bind {A B} (m : M A) (k : A -> M B) s :
  only_failure (m s) ->
  (forall a, value (m s) = Ret a -> fails (k a (final (m s)))) ->
  fails (bind m k s).
Proof.
  intros Hm Hk. destruct (value (m s)) as [a|c] eqn:Hv.
  - apply (fails_bind_r _ _ _ a Hv). apply Hk. reflexivity.
  - apply fails_bind_l. unfold fails. rewrite Hv, (Hm c Hv). reflexivity.
Qed.

Lemma only_failure_forceExit cfg (A : Type) msg s :
  only_failure (@forceExit cfg A false msg s).
Proof. rewrite forceExit_run. intros c H. injection H as <-. reflexivity. Qed.

Lemma none_weaken (p q : event -> bool) evs :
  (forall e, q e = false -> p e = false) -> none q evs -> none p evs.
Proof. intros H. unfold none. apply Forall_impl. exact H. Qed.

Lemma none_fatal_log p cfg msg :
  p EvExitUi = false -> (forall m, p (EvStderr m) = false) -> none p (fatal_log cfg msg).
Proof.
  intros Hu Hs. unfold fatal_log. apply none_app; [|repeat constructor; apply Hs].
  destruct (ui_enabled cfg); repeat constructor. exact Hu.
Qed.

Lemma open_device_only_failure cfg E dev a s : only_failure (open_device cfg E dev a s).
Proof.
  destruct (getLocal E dev) eqn:Hl.
  - destruct (dp_open_live E dev) as [h|] eqn:Ho.
    + rewrite (open_device_opened cfg E dev a s h Hl Ho). eapply only_failure_Ret. reflexivity.
    + rewrite (open_device_refused cfg E dev a s Hl Ho). eapply only_failure_Ret. reflexivity.
  - rewrite (open_device_getLocal_failed cfg E dev a s Hl).
    intros c H. injection H as <-. reflexivity.
Qed.

Lemma open_device_alphabet cfg E dev a s :
  none (fun e => negb (startup_event e)) (events (open_device cfg E dev a s)).
Proof.
  destruct (getLocal E dev) eqn:Hl.
  - destruct (dp_open_live E dev) as [h|] eqn:Ho.
    + rewrite (open_device_opened cfg E dev a s h Hl Ho). cbn [events].
      unfold open_log, register_log. repeat (constructor; [reflexivity|]).
      apply none_app.
      * destruct (dp_setnonblock E h =? -1); repeat constructor.
      * destruct (pc_loop_use_select s); [|constructor].
        constructor; [reflexivity|]. destruct (_ =? -1); repeat constructor.
    + rewrite (open_device_refused cfg E dev a s Hl Ho). repeat constructor.
  - rewrite (open_device_getLocal_failed cfg E dev a s Hl). cbn [events].
    constructor; [reflexivity|]. apply none_fatal_log; reflexivity.
Qed.

Lemma open_devices_only_failure cfg E : forall devs a s,
  only_failure (open_devices cfg E devs a s).
Proof.
  induction devs as [|dev rest IH]; intros a s; cbn [open_devices].
  - eapply only_failure_Ret. reflexivity.
  - apply only_failure_bind; [apply open_device_only_failure|]. intros a' _. apply IH.
Qed.

Lemma open_devices_alphabet cfg E : forall devs a s,
  none (fun e => negb (startup_event e)) (events (open_devices cfg E devs a s)).
Proof.
  induction devs as [|dev rest IH]; intros a s; cbn [open_devices].
  - constructor.
  - apply none_bind; [apply open_device_alphabet|]. intros a' _. apply IH.
Qed.

Lemma none_forceExit p cfg (A : Type) success msg s :
  p EvExitUi = false -> (forall m, p (EvStderr m) = false) ->
  none p (events (@forceExit cfg A success msg s)).
Proof. intros Hu Hs. rewrite forceExit_run. apply none_fatal_log; assumption. Qed.

Lemma open_sessions_only_failure cfg E devs s : only_failure (open_sessions cfg E devs s).
Proof.
  unfold open_sessions.
  apply only_failure_bind; [apply open_devices_only_failure|]. intros a _.
  apply only_failure_bind.
  - destruct (nb_devices a =? nb_failed_devices a);
      [apply only_failure_forceExit | eapply only_failure_Ret; reflexivity].
  - intros _ _. eapply only_failure_Ret. reflexivity.
Qed.

Lemma open_sessions_alphabet cfg E devs s :
  none (fun e => negb (startup_event e)) (events (open_sessions cfg E devs s)).
Proof.
  unfold open_sessions.
  apply none_bind; [apply open_devices_alphabet|]. intros a _.
  apply none_bind.
  - destruct (nb_devices a =? nb_failed_devices a);
      [apply none_forceExit; reflexivity | constructor].
  - intros _ _. constructor.
Qed.

Lemma check_privilege_only_failure cfg E s : only_failure (check_privilege cfg E s).
Proof.
  unfold check_privilege.
  destruct (negb (geteuid E =? 0)); [|eapply only_failure_Ret; reflexivity].
  destruct (linux E); [|apply only_failure_forceExit].
  apply only_failure_bind.
  - destruct (readlink_exe E =? -1);
      [apply only_failure_forceExit | eapply only_failure_Ret; reflexivity].
  - intros _ _. destruct (caps_missing E);
      [apply only_failure_forceExit | eapply only_failure_Ret; reflexivity].
Qed.

Lemma check_privilege_alphabet p cfg E s :
  p EvExitUi = false -> (forall m, p (EvStderr m) = false) ->
  none p (events (check_privilege cfg E s)).
Proof.
  intros Hu Hs. unfold check_privilege.
  destruct (negb (geteuid E =? 0)); [|constructor].
  destruct (linux E); [|apply none_forceExit; assumption].
  apply none_bind.
  - destruct (readlink_exe E =? -1); [apply none_forceExit; assumption | constructor].
  - intros _ _. destruct (caps_missing E); [apply none_forceExit; assumption | constructor].
Qed.

Lemma startup_only_failure cfg E s : only_failure (startup cfg E s).
Proof.
  unfold startup.
  apply only_failure_bind.
  { destruct (get_devices E);
      [apply only_failure_forceExit | eapply only_failure_Ret; reflexivity]. }
  intros _ _. apply only_failure_bind.
  { unfold when. destruct (ui_enabled cfg); eapply only_failure_Ret; reflexivity. }
  intros _ _. apply only_failure_bind; [apply check_privilege_only_failure|].
  intros _ _. apply only_failure_bind; [eapply only_failure_Ret; reflexivity|].
  intros _ _. apply only_failure_bind; [eapply only_failure_Ret; reflexivity|].
  intros s1 _. apply only_failure_bind.
  { destruct ((fst (self_pipe s1) =? -1) || (snd (self_pipe s1) =? -1));
      [apply only_failure_forceExit | eapply only_failure_Ret; reflexivity]. }
  intros _ _. apply only_failure_bind; [apply open_sessions_only_failure|].
  intros hs _. apply only_failure_bind; [eapply only_failure_Ret; reflexivity|].
  intros _ _. eapply only_failure_Ret. reflexivity.
Qed.

Lemma startup_alphabet cfg E s :
  none (fun e => negb (startup_event e)) (events (startup cfg E s)).
Proof.
  unfold startup.
  apply none_bind.
  { destruct (get_devices E); [apply none_forceExit; reflexivity | constructor]. }
  intros _ _. apply none_bind.
  { unfold when. destruct (ui_enabled cfg); repeat constructor. }
  intros _ _. apply none_bind; [apply check_privilege_alphabet; reflexivity|].
  intros _ _. apply none_bind; [constructor|].
  intros _ _. apply none_bind; [constructor|].
  intros s1 _. apply none_bind.
  { destruct ((fst (self_pipe s1) =? -1) || (snd (self_pipe s1) =? -1));
      [apply none_forceExit; reflexivity | constructor]. }
  intros _ _. apply none_bind; [apply open_sessions_alphabet|].
  intros hs _. apply none_bind; [repeat constructor|]. intros _ _. constructor.
Qed.

Lemma main_loop_alphabet cfg hs : forall ticks s,
  none (fun e => negb (loop_event e)) (events (main_loop cfg hs ticks s)).
Proof.
  induction ticks as [|t rest IH]; intros s.
  - constructor.
  - rewrite main_loop_step.
    destruct (sigint t && (snd (self_pipe s) =? -1)); [constructor|]. cbv zeta.
    assert (Hsig : none (fun e => negb (loop_event e)) (signal_log t s)).
    { unfold signal_log. destruct (sigint t); repeat constructor. }
    assert (Hbody : none (fun e => negb (loop_event e))
                         (events (loop_body cfg hs t (deliver t s)))).
    { rewrite loop_body_run. cbn [events].
      apply none_app; [apply none_dispatch_log; reflexivity|].
      apply none_app; [apply none_refresh_log; reflexivity|].
      destruct (existsb (productive t) hs); [constructor|].
      unfold wait_log. destruct (pc_loop_use_select _); repeat constructor. }
    destruct (breaks cfg hs t (deliver t s)); cbn [events].
    + apply none_app; assumption.
    + apply none_app; [exact Hsig|]. apply none_app; [exact Hbody|apply IH].
Qed.

(** When [startup] exits, so does [main], with the same trace. *)
Lemma main_startup_failed cfg E ticks s :
  fails (startup cfg E s) ->
  value (main cfg E ticks s) = Exit EXIT_FAILURE
  /\ events (main cfg E ticks s) = events (startup cfg E s).
Proof.
  unfold fails, main. intros H. rewrite (bind_Exit _ _ _ _ H). split; reflexivity.
Qed.

(** ** C7: the privilege test comes before any session is opened *)

Lemma caps_bit c n :
  0 <= n -> (Z.land (Z.shiftr c n) 1 =? 1) = Z.testbit c n.
Proof.
  intros Hn. rewrite Z.testbit_odd.
  change 1 with (Z.ones 1) at 1. rewrite Z.land_ones by lia.
  change (2 ^ 1) with 2. rewrite Zmod_odd.
  destruct (Z.odd (Z.shiftr c n)); reflexivity.
Qed.

Lemma caps_missing_spec E :
  caps_missing E = true <->
  ~ (Z.testbit (xattr_caps1 E) CAP_NET_ADMIN = true
     /\ Z.testbit (xattr_caps1 E) CAP_NET_RAW = true).
Proof.
  unfold caps_missing.
  rewrite !caps_bit by (unfold CAP_NET_ADMIN, CAP_NET_RAW; lia).
  destruct (Z.testbit (xattr_caps1 E) CAP_NET_ADMIN),
           (Z.testbit (xattr_caps1 E) CAP_NET_RAW); simpl; split; intros H;
    first [ reflexivity | discriminate H | (intros [H1 H2]; congruence)
          | (exfalso; apply H; split; reflexivity) ].
Qed.

Lemma check_privilege_fails cfg E s :
  geteuid E <> 0 ->
  caps_missing E = true ->
  fails (check_privilege cfg E s).
Proof.
  intros Hid Hcaps. unfold check_privilege.
  destruct (Z.eqb_spec (geteuid E) 0) as [e|_]; [contradiction|]. cbn [negb].
  destruct (linux E).
  - apply fails_bind.
    + destruct (readlink_exe E =? -1);
        [apply only_failure_forceExit | eapply only_failure_Ret; reflexivity].
    + intros _ _. rewrite Hcaps. unfold fails. rewrite forceExit_run. reflexivity.
  - unfold fails. rewrite forceExit_run. reflexivity.
Qed.

Lemma startup_privilege_failed cfg E s :
  geteuid E <> 0 ->
  caps_missing E = true ->
  fails (startup cfg E s) /\ none is_open (events (startup cfg E s)).
Proof.
  intros Hid Hcaps. unfold startup. split.
  - apply fails_bind.
    { destruct (get_devices E);
        [apply only_failure_forceExit | eapply only_failure_Ret; reflexivity]. }
    intros _ _. apply fails_bind.
    { unfold when. destruct (ui_enabled cfg); eapply only_failure_Ret; reflexivity. }
    intros _ _. apply fails_bind_l. apply check_privilege_fails; assumption.
  - apply none_bind.
    { destruct (get_devices E); [apply none_forceExit; reflexivity | constructor]. }
    intros _ _. apply none_bind.
    { unfold when. destruct (ui_enabled cfg); repeat constructor. }
    intros _ _.
    match goal with |- none _ (events (bind _ ?k ?s')) =>
      rewrite (bind_Exit _ k s' EXIT_FAILURE)
        by (apply check_privilege_fails; assumption)
    end.
    cbn [events]. apply check_privilege_alphabet; reflexivity.
Qed.

(** C7. When the process is not root and the capability word of its binary
    does not have both [CAP_NET_ADMIN] and [CAP_NET_RAW] set, [main] ends in
    [exit(EXIT_FAILURE)] and its whole trace holds no [dp_open_live] call:
    no capture session is opened on a run whose privilege test fails. This
    holds whatever the platform, the devices and the later answers are. *)
Theorem privilege_failure_opens_no_session cfg E (ticks : list tick) (s : state) :
  geteuid E <> 0 ->
  ~ (Z.testbit (xattr_caps1 E) CAP_NET_ADMIN = true
     /\ Z.testbit (xattr_caps1 E) CAP_NET_RAW = true) ->
  value (main cfg E ticks s) = Exit EXIT_FAILURE
  /\ none is_open (events (main cfg E ticks s)).
Proof.
  intros Hid Hcaps. apply caps_missing_spec in Hcaps.
  destruct (startup_privilege_failed cfg E s Hid Hcaps) as [Hf Hev].
  destruct (main_startup_failed cfg E ticks s Hf) as [Hv He].
  split; [exact Hv|]. rewrite He. exact Hev.
Qed.

Lemma privilege_failure_opens_no_session_witness :
  value (main cfg_ui unprivileged [quiet_tick 1000] initial_state) = Exit EXIT_FAILURE
  /\ none is_open (events (main cfg_ui unprivileged [quiet_tick 1000] initial_state)).
Proof.
  apply (privilege_failure_opens_no_session cfg_ui unprivileged [quiet_tick 1000]
           initial_state).
  - simpl. lia.
  - simpl. intros [_ H]. discriminate H.
Defined.

(** ** The device loop when every local-address lookup succeeds *)

Lemma bind_assoc {A B C} (m : M A) (k : A -> M B) (k' : B -> M C) s :
  bind (bind m k) k' s = bind m (fun a => bind (k a) k') s.
Proof.
  unfold bind. destruct (value (m s)) as [a|c]; cbn [events final value]; [|reflexivity].
  destruct (value (k a (final (m s)))) as [b|c]; cbn [events final value];
    [rewrite app_assoc|]; reflexivity.
Qed.

Lemma open_devices_app cfg E : forall pre post a s,
  open_devices cfg E (pre ++ post) a s
  = bind (open_devices cfg E pre a) (fun a' => open_devices cfg E post a') s.
Proof.
  induction pre as [|dev rest IH]; intros post a s; cbn [open_devices app].
  - unfold bind, ret. cbn [events final value app].
    destruct (open_devices cfg E post a s); reflexivity.
  - rewrite bind_assoc.
    destruct (value (open_device cfg E dev a s)) as [a'|c] eqn:Hv.
    + rewrite !(bind_Ret _ _ _ _ Hv), IH. reflexivity.
    + rewrite !(bind_Exit _ _ _ _ Hv). reflexivity.
Qed.

Lemma skip_notices_open_log E dev h s : filter is_skip_notice (open_log E dev h s) = [].
Proof.
  unfold open_log, register_log. cbn [app filter is_skip_notice].
  rewrite filter_app.
  destruct (dp_setnonblock E h =? -1); cbn [filter is_skip_notice app];
    (destruct (pc_loop_use_select s); [|reflexivity]);
    destruct (_ =? -1); reflexivity.
Qed.

Lemma open_devices_ok cfg E : forall devs a s,
  (forall d, In d devs -> getLocal E d = true) ->
  value (open_devices cfg E devs a s)
  = Ret {| handles := rev (opened E devs) ++ handles a;
           nb_devices := nb_devices a + Z.of_nat (List.length devs);
           nb_failed_devices :=
             nb_failed_devices a + Z.of_nat (List.length (filter (refused E) devs)) |}
  /\ filter is_skip_notice (events (open_devices cfg E devs a s))
     = map (fun d => EvStderr (LogOpenError d)) (filter (refused E) devs).
Proof.
  induction devs as [|dev rest IH]; intros a s Hl.
  - cbn. rewrite !Z.add_0_r. destruct a; split; reflexivity.
  - assert (Hdev : getLocal E dev = true) by (apply Hl; left; reflexivity).
    assert (Hrest : forall d, In d rest -> getLocal E d = true)
      by (intros d Hin; apply Hl; right; exact Hin).
    destruct (dp_open_live E dev) as [h|] eqn:Ho.
    + assert (Hr : refused E dev = false) by (unfold refused; rewrite Ho; reflexivity).
      cbn [open_devices opened flat_map filter]. rewrite Hr, Ho.
      rewrite (bind_Ret _ _ _ _ (f_equal value (open_device_opened cfg E dev a s h Hdev Ho))).
      rewrite (open_device_opened cfg E dev a s h Hdev Ho). cbn [events final value].
      match goal with |- context [open_devices cfg E rest ?a' ?s'] =>
        destruct (IH a' s' Hrest) as [Hv Hn] end.
      rewrite Hv, filter_app, Hn, skip_notices_open_log.
      cbn [handles nb_devices nb_failed_devices app rev List.length].
      split; [|reflexivity].
      rewrite <- app_assoc. cbn [app]. rewrite Nat2Z.inj_succ.
      f_equal. f_equal. lia.
    + assert (Hr : refused E dev = true) by (unfold refused; rewrite Ho; reflexivity).
      cbn [open_devices opened flat_map filter]. rewrite Hr, Ho.
      rewrite (bind_Ret _ _ _ _ (f_equal value (open_device_refused cfg E dev a s Hdev Ho))).
      rewrite (open_device_refused cfg E dev a s Hdev Ho). cbn [events final value].
      match goal with |- context [open_devices cfg E rest ?a' ?s'] =>
        destruct (IH a' s' Hrest) as [Hv Hn] end.
      rewrite Hv, filter_app, Hn.
      cbn [handles nb_devices nb_failed_devices app rev List.length filter is_skip_notice map].
      split; [|reflexivity].
      rewrite !Nat2Z.inj_succ. f_equal. f_equal; lia.
Qed.

(** ** C10: a failed local-address lookup is fatal *)

Lemma open_devices_lookup_failed cfg E : forall devs a s,
  (exists d, In d devs /\ getLocal E d = false) ->
  fails (open_devices cfg E devs a s).
Proof.
  induction devs as [|dev rest IH]; intros a s (d & Hin & Hd).
  - destruct Hin.
  - cbn [open_devices]. destruct (getLocal E dev) eqn:Hl.
    + apply fails_bind; [apply open_device_only_failure|].
      intros a' _. apply IH. exists d. split; [|exact Hd].
      destruct Hin as [->|Hin]; [congruence|exact Hin].
    + apply fails_bind_l. unfold fails.
      rewrite (open_device_getLocal_failed cfg E dev a s Hl). reflexivity.
Qed.

Lemma startup_lookup_failed cfg E s :
  (exists d, In d (get_devices E) /\ getLocal E d = false) ->
  fails (startup cfg E s).
Proof.
  intros H. unfold startup.
  apply fails_bind.
  { destruct (get_devices E);
      [apply only_failure_forceExit | eapply only_failure_Ret; reflexivity]. }
  intros _ _. apply fails_bind.
  { unfold when. destruct (ui_enabled cfg); eapply only_failure_Ret; reflexivity. }
  intros _ _. apply fails_bind; [apply check_privilege_only_failure|].
  intros _ _. apply fails_bind; [eapply only_failure_Ret; reflexivity|].
  intros _ _. apply fails_bind; [eapply only_failure_Ret; reflexivity|].
  intros s1 _. apply fails_bind.
  { destruct ((fst (self_pipe s1) =? -1) || (snd (self_pipe s1) =? -1));
      [apply only_failure_forceExit | eapply only_failure_Ret; reflexivity]. }
  intros _ _. apply fails_bind_l. unfold open_sessions. apply fails_bind_l.
  apply open_devices_lookup_failed. exact H.
Qed.

Lemma startup_never_dispatches cfg E s : none is_dispatch (events (startup cfg E s)).
Proof.
  apply (none_weaken _ (fun e => negb (startup_event e))); [|apply startup_alphabet].
  intros [ ]; simpl; intros H; try reflexivity; discriminate H.
Qed.

(** C10. If [getLocal] fails for some device of the list, [main] ends in
    [exit(EXIT_FAILURE)] without a single dispatch call (the main loop is
    never entered). In the device loop, at the first device whose lookup
    fails the trace ends with that lookup and the fatal message: no
    [dp_open_live] for it, no skip notice, no later device. A device whose
    lookup succeeds and whose capture session cannot be opened lets the
    device loop continue instead. *)
Theorem getLocal_failure_aborts_startup cfg E :
  (forall ticks s,
     (exists d, In d (get_devices E) /\ getLocal E d = false) ->
     value (main cfg E ticks s) = Exit EXIT_FAILURE
     /\ none is_dispatch (events (main cfg E ticks s)))
  /\ (forall pre d post a s,
        (forall d', In d' pre -> getLocal E d' = true) ->
        getLocal E d = false ->
        open_devices cfg E (pre ++ d :: post) a s
        = mk_result (events (open_devices cfg E pre a s)
                     ++ EvGetLocal d :: fatal_log cfg MsgGetifaddrs)
                    (final (open_devices cfg E pre a s))
                    (Exit EXIT_FAILURE))
  /\ (forall d a s,
        getLocal E d = true ->
        dp_open_live E d = None ->
        exists a', value (open_device cfg E d a s) = Ret a').
Proof.
  split; [|split].
  - intros ticks s H.
    destruct (main_startup_failed cfg E ticks s (startup_lookup_failed cfg E s H)) as [Hv He].
    split; [exact Hv|]. rewrite He. apply startup_never_dispatches.
  - intros pre d post a s Hpre Hd.
    rewrite open_devices_app.
    destruct (open_devices_ok cfg E pre a s Hpre) as [Hv _].
    rewrite (bind_Ret _ _ _ _ Hv). cbn [open_devices].
    rewrite (bind_Exit _ _ _ EXIT_FAILURE)
      by (rewrite open_device_getLocal_failed by exact Hd; reflexivity).
    rewrite open_device_getLocal_failed by exact Hd. reflexivity.
  - intros d a s Hl Ho. rewrite (open_device_refused cfg E d a s Hl Ho).
    eexists. reflexivity.
Qed.

Lemma getLocal_failure_aborts_startup_witness :
  value (main cfg_ui lookup_fails_on_second [quiet_tick 1000] initial_state)
  = Exit EXIT_FAILURE
  /\ none is_dispatch
       (events (main cfg_ui lookup_fails_on_second [quiet_tick 1000] initial_state)).
Proof.
  apply (proj1 (getLocal_failure_aborts_startup cfg_ui lookup_fails_on_second)).
  exists "eth1"%string. split; [right; left; reflexivity | reflexivity].
Defined.

(** ** C6: devices that cannot be opened *)

Lemma forallb_false {A} (f : A -> bool) l :
  forallb f l = false -> exists x, In x l /\ f x = false.
Proof.
  induction l as [|x l IH]; simpl; [discriminate|].
  destruct (f x) eqn:Hx; simpl.
  - intros H. destruct (IH H) as (y & Hin & Hy). exists y. split; [right|]; assumption.
  - intros _. exists x. split; [left; reflexivity|exact Hx].
Qed.

Lemma all_refused_filter E devs :
  (forall d, In d devs -> dp_open_live E d = None) -> filter (refused E) devs = devs.
Proof.
  intros H. induction devs as [|d rest IH]; simpl; [reflexivity|].
  unfold refused at 1. rewrite (H d (or_introl eq_refl)).
  rewrite IH by (intros d' Hin; apply H; right; exact Hin). reflexivity.
Qed.

Lemma some_opened_length E devs :
  (exists d, In d devs /\ dp_open_live E d <> None) ->
  (List.length (filter (refused E) devs) < List.length devs)%nat.
Proof.
  intros (d & Hin & Hd). induction devs as [|d' rest IH]; [destruct Hin|].
  simpl. pose proof (filter_length_le (refused E) rest) as Hle.
  destruct Hin as [->|Hin].
  - unfold refused at 1. destruct (dp_open_live E d); [simpl; lia|congruence].
  - specialize (IH Hin). destruct (refused E d'); simpl; lia.
Qed.

Lemma open_sessions_all_refused cfg E devs s :
  (forall d, In d devs -> dp_open_live E d = None) ->
  fails (open_sessions cfg E devs s).
Proof.
  intros Hall. unfold open_sessions.
  destruct (forallb (getLocal E) devs) eqn:Hl.
  - assert (Hok : forall d, In d devs -> getLocal E d = true)
      by (apply forallb_forall; exact Hl).
    destruct (open_devices_ok cfg E devs no_sessions s Hok) as [Hv _].
    eapply fails_bind_r; [exact Hv|].
    cbn [nb_devices nb_failed_devices no_sessions].
    rewrite (all_refused_filter E devs Hall), Z.eqb_refl.
    apply fails_bind_l. unfold fails. rewrite forceExit_run. reflexivity.
  - apply fails_bind_l. apply open_devices_lookup_failed.
    apply forallb_false. exact Hl.
Qed.

Lemma open_sessions_some_opened cfg E devs s :
  (forall d, In d devs -> getLocal E d = true) ->
  (exists d, In d devs /\ dp_open_live E d <> None) ->
  value (open_sessions cfg E devs s) = Ret (rev (opened E devs))
  /\ filter is_skip_notice (events (open_sessions cfg E devs s))
     = map (fun d => EvStderr (LogOpenError d)) (filter (refused E) devs).
Proof.
  intros Hok Hsome. unfold open_sessions.
  destruct (open_devices_ok cfg E devs no_sessions s Hok) as [Hv Hn].
  rewrite (bind_Ret _ _ _ _ Hv). cbn [nb_devices nb_failed_devices no_sessions handles].
  pose proof (some_opened_length E devs Hsome) as Hlt.
  destruct (Z.eqb_spec (0 + Z.of_nat (List.length devs))
                       (0 + Z.of_nat (List.length (filter (refused E) devs)))) as [e|_];
    [lia|].
  unfold bind at 1, ret. cbn [events final value].
  rewrite !app_nil_r. split; [reflexivity|exact Hn].
Qed.

Lemma startup_open_sessions_failed cfg E s :
  (forall s', fails (open_sessions cfg E (get_devices E) s')) ->
  fails (startup cfg E s).
Proof.
  intros H. unfold startup.
  apply fails_bind.
  { destruct (get_devices E);
      [apply only_failure_forceExit | eapply only_failure_Ret; reflexivity]. }
  intros _ _. apply fails_bind.
  { unfold when. destruct (ui_enabled cfg); eapply only_failure_Ret; reflexivity. }
  intros _ _. apply fails_bind; [apply check_privilege_only_failure|].
  intros _ _. apply fails_bind; [eapply only_failure_Ret; reflexivity|].
  intros _ _. apply fails_bind; [eapply only_failure_Ret; reflexivity|].
  intros s1 _. apply fails_bind.
  { destruct ((fst (self_pipe s1) =? -1) || (snd (self_pipe s1) =? -1));
      [apply only_failure_forceExit | eapply only_failure_Ret; reflexivity]. }
  intros _ _. apply fails_bind_l. apply H.
Qed.

Lemma check_privilege_passes cfg E s :
  privileged E -> check_privilege cfg E s = mk_result [] s (Ret tt).
Proof.
  unfold privileged, check_privilege. intros [Hroot|(Hlin & Hexe & Hcaps)].
  - rewrite Hroot. reflexivity.
  - destruct (negb (geteuid E =? 0)); [|reflexivity].
    rewrite Hlin, Hcaps.
    destruct (Z.eqb_spec (readlink_exe E) (-1)) as [e|_]; [contradiction|]. reflexivity.
Qed.

(** Past its guards, [startup] returns what the device loop returns. *)
Lemma startup_past_guards cfg E s :
  get_devices E <> [] -> privileged E -> pipe_created E ->
  value (startup cfg E s)
  = value (open_sessions cfg E (get_devices E)
             (set_fd_list (pc_loop_fd_list s ++ [fst (create_self_pipe E)])
                (set_self_pipe (create_self_pipe E) s))).
Proof.
  intros Hdev Hpriv [Hrd Hwr]. unfold startup.
  destruct (get_devices E) as [|d rest] eqn:Hd; [contradiction|].
  rewrite (bind_Ret _ _ _ tt) by reflexivity. cbn [ret events final value].
  rewrite (bind_Ret _ _ _ tt) by (unfold when; destruct (ui_enabled cfg); reflexivity).
  assert (Hui : final (when (ui_enabled cfg) (emit EvInitUi) s) = s)
    by (unfold when; destruct (ui_enabled cfg); reflexivity).
  rewrite Hui. cbn [value].
  rewrite (bind_Ret _ _ _ tt) by (rewrite check_privilege_passes by exact Hpriv; reflexivity).
  rewrite check_privilege_passes by exact Hpriv. cbn [events final value].
  rewrite (bind_Ret _ _ _ tt) by reflexivity. cbn [modify events final value].
  rewrite (bind_Ret _ _ _ (set_self_pipe (create_self_pipe E) s)) by reflexivity.
  cbn [get events final value self_pipe set_self_pipe].
  destruct (Z.eqb_spec (fst (create_self_pipe E)) (-1)) as [e|_]; [contradiction|].
  destruct (Z.eqb_spec (snd (create_self_pipe E)) (-1)) as [e|_]; [contradiction|].
  cbn [orb].
  rewrite (bind_Ret _ _ _ tt) by reflexivity.
  cbn [modify events final value self_pipe set_self_pipe pc_loop_fd_list].
  match goal with |- context [open_sessions cfg E (d :: rest) ?s1] =>
    destruct (value (open_sessions cfg E (d :: rest) s1)) as [hs|c] eqn:Hv end.
  - rewrite (bind_Ret _ _ _ hs Hv). reflexivity.
  - rewrite (bind_Exit _ _ _ c Hv). reflexivity.
Qed.

(** C6, as the code has it. (1) If no device of the list can be opened,
    [main] ends in [exit(EXIT_FAILURE)] without a single dispatch call.
    (2) If the local-address lookup succeeds for every device and at least
    one device opens, the device loop returns the chain of exactly the
    sessions that opened, most recent first, and the skip notices on its
    trace are exactly one per device that could not be opened, in device
    order. (3) Under the same conditions, once the privilege test has passed
    and the self-pipe exists, that chain is what [startup] hands to the main
    loop. *)
Theorem open_failures_are_skipped cfg E :
  (forall ticks s,
     (forall d, In d (get_devices E) -> dp_open_live E d = None) ->
     value (main cfg E ticks s) = Exit EXIT_FAILURE
     /\ none is_dispatch (events (main cfg E ticks s)))
  /\ (forall devs s,
        (forall d, In d devs -> getLocal E d = true) ->
        (exists d, In d devs /\ dp_open_live E d <> None) ->
        value (open_sessions cfg E devs s) = Ret (rev (opened E devs))
        /\ filter is_skip_notice (events (open_sessions cfg E devs s))
           = map (fun d => EvStderr (LogOpenError d)) (filter (refused E) devs))
  /\ (forall s,
        privileged E -> pipe_created E ->
        (forall d, In d (get_devices E) -> getLocal E d = true) ->
        (exists d, In d (get_devices E) /\ dp_open_live E d <> None) ->
        value (startup cfg E s) = Ret (rev (opened E (get_devices E)))).
Proof.
  split; [|split].
  - intros ticks s Hall.
    assert (Hf : fails (startup cfg E s)).
    { apply startup_open_sessions_failed. intros s'.
      apply open_sessions_all_refused. exact Hall. }
    destruct (main_startup_failed cfg E ticks s Hf) as [Hv He].
    split; [exact Hv|]. rewrite He. apply startup_never_dispatches.
  - apply open_sessions_some_opened.
  - intros s Hpriv Hpipe Hok Hsome.
    assert (Hdev : get_devices E <> []).
    { destruct Hsome as (d & Hin & _). intros He. rewrite He in Hin. destruct Hin. }
    rewrite (startup_past_guards cfg E s Hdev Hpriv Hpipe).
    apply open_sessions_some_opened; assumption.
Qed.

Lemma open_failures_are_skipped_witness :
  (value (open_sessions cfg_ui three_devices ["eth0"; "eth1"; "eth2"]%string s_running)
   = Ret chain_two
   /\ filter is_skip_notice
        (events (open_sessions cfg_ui three_devices ["eth0"; "eth1"; "eth2"]%string s_running))
      = [EvStderr (LogOpenError "eth1")])
  /\ value (startup cfg_ui three_devices initial_state) = Ret chain_two.
Proof.
  assert (Hok : forall d, In d ["eth0"; "eth1"; "eth2"]%string ->
                          getLocal three_devices d = true)
    by (intros d _; reflexivity).
  assert (Hsome : exists d, In d ["eth0"; "eth1"; "eth2"]%string
                            /\ dp_open_live three_devices d <> None)
    by (exists "eth0"%string; split; [left; reflexivity | discriminate]).
  split.
  - apply (proj1 (proj2 (open_failures_are_skipped cfg_ui three_devices))
             ["eth0"; "eth1"; "eth2"]%string s_running Hok Hsome).
  - apply (proj2 (proj2 (open_failures_are_skipped cfg_ui three_devices)) initial_state).
    + left. reflexivity.
    + split; simpl; lia.
    + exact Hok.
    + exact Hsome.
Defined.

(** C6, as stated, fails: on [lookup_fails_on_second] the session of [eth0]
    opens, then the lookup for [eth1] fails and [main] exits with
    [EXIT_FAILURE]; the main loop never runs. *)
Lemma opened_session_does_not_ensure_loop :
  dp_open_live lookup_fails_on_second "eth0" = Some h_eth0
  /\ main cfg_ui lookup_fails_on_second [quiet_tick 1000] initial_state
     = mk_result
         [EvInitUi; EvGetLocal "eth0"; EvDpOpenLive "eth0";
          EvDpAddcb h_eth0 dp_packet_ip; EvDpAddcb h_eth0 dp_packet_ip6;
          EvDpAddcb h_eth0 dp_packet_tcp; EvDpAddcb h_eth0 dp_packet_udp;
          EvGetSelectableFd h_eth0;
          EvGetLocal "eth1"; EvExitUi; EvStderr (LogFatal MsgGetifaddrs)]
         (set_fd_list [3; 5] (set_self_pipe (3, 4) initial_state))
         (Exit EXIT_FAILURE).
Proof. split; vm_compute; reflexivity. Qed.

(** ** C8: teardown *)

Lemma close_all_run (fds : list Z) s :
  fold_right (fun fd k => emit (EvClose fd) ;; k) (ret tt) fds s
  = mk_result (map EvClose fds) s (Ret tt).
Proof.
  induction fds as [|fd rest IH]; cbn [fold_right map]; [reflexivity|].
  rewrite (bind_Ret _ _ _ tt) by reflexivity. cbn [emit events final value].
  rewrite IH. reflexivity.
Qed.

Lemma clean_up_run cfg s : clean_up cfg s = mk_result (teardown_events cfg s) s (Ret tt).
Proof.
  unfold clean_up, teardown_events.
  rewrite (bind_Ret _ _ _ s) by reflexivity. cbn [get events final value app].
  rewrite (bind_Ret _ _ _ tt) by (rewrite close_all_run; reflexivity).
  rewrite close_all_run. cbn [events final value].
  unfold when, ui_enabled, bind, emit, ret.
  destruct (negb (tracemode cfg) && negb (DEBUG cfg)); reflexivity.
Qed.

(** [main] in closed form over its three phases. *)
Lemma main_run cfg E ticks s :
  main cfg E ticks s
  = match value (startup cfg E s) with
    | Exit c => mk_result (events (startup cfg E s)) (final (startup cfg E s)) (Exit c)
    | Ret hs =>
        let r1 := startup cfg E s in
        let r2 := main_loop cfg hs ticks (final r1) in
        match value r2 with
        | Exit c => mk_result (events r1 ++ events r2) (final r2) (Exit c)
        | Ret true =>
            mk_result (events r1 ++ events r2 ++ teardown_events cfg (final r2))
                      (final r2) (Ret Returned)
        | Ret false => mk_result (events r1 ++ events r2) (final r2) (Ret Looping)
        end
    end.
Proof.
  unfold main.
  destruct (value (startup cfg E s)) as [hs|c] eqn:H1.
  - rewrite (bind_Ret _ _ _ hs H1). cbv zeta.
    destruct (value (main_loop cfg hs ticks (final (startup cfg E s)))) as [[|]|c] eqn:H2.
    + rewrite (bind_Ret _ _ _ true H2). cbn [events final value].
      rewrite (bind_Ret _ _ _ tt) by (rewrite clean_up_run; reflexivity).
      rewrite clean_up_run. unfold ret. cbn [events final value].
      rewrite app_nil_r. reflexivity.
    + rewrite (bind_Ret _ _ _ false H2). unfold ret. cbn [events final value].
      rewrite app_nil_r. reflexivity.
    + rewrite (bind_Exit _ _ _ c H2). reflexivity.
  - rewrite (bind_Exit _ _ _ c H1). reflexivity.
Qed.

Lemma startup_never_tears_down cfg E s :
  none is_teardown (events (startup cfg E s)).
Proof.
  apply (none_weaken _ (fun e => negb (startup_event e))); [|apply startup_alphabet].
  intros [ ]; simpl; intros H; try reflexivity; discriminate H.
Qed.

Lemma main_loop_never_tears_down cfg hs ticks s :
  none is_teardown (events (main_loop cfg hs ticks s)).
Proof.
  apply (none_weaken _ (fun e => negb (loop_event e))); [|apply main_loop_alphabet].
  intros [ ]; simpl; intros H; try reflexivity; discriminate H.
Qed.

Lemma teardown_never_releases cfg s : none is_release (teardown_events cfg s).
Proof.
  unfold teardown_events. apply none_app.
  - induction (pc_loop_fd_list s); simpl; constructor; [reflexivity|assumption].
  - constructor; [reflexivity|].
    destruct (negb (tracemode cfg) && negb (DEBUG cfg)); repeat constructor.
Qed.

Lemma teardown_is_weaker e : is_teardown e = false -> is_release e = false.
Proof. destruct e; simpl; intros H; try reflexivity; discriminate H. Qed.

(** C8, as the code has it. [clean_up] closes every descriptor of the
    registry, in registration order, then calls [procclean], then calls
    [exit_ui] exactly when neither trace mode nor [DEBUG] is on; it changes
    no variable and makes no other call. A run of [main] that returns has
    made these calls once, as the end of its trace, and no other [close] or
    [procclean] before; a run that has not returned has made none. No run
    of [main] releases a capture session. *)
Theorem teardown_closes_registry_not_sessions cfg E :
  (forall s,
     clean_up cfg s
     = mk_result (map EvClose (pc_loop_fd_list s) ++ [EvProcClean]
                  ++ (if negb (tracemode cfg) && negb (DEBUG cfg) then [EvExitUi] else []))
                 s (Ret tt))
  /\ (forall ticks s,
        value (main cfg E ticks s) = Ret Returned ->
        exists pre,
          events (main cfg E ticks s)
          = pre ++ teardown_events cfg (final (main cfg E ticks s))
          /\ none is_teardown pre)
  /\ (forall ticks s,
        value (main cfg E ticks s) <> Ret Returned ->
        none is_teardown (events (main cfg E ticks s)))
  /\ (forall ticks s, none is_release (events (main cfg E ticks s))).
Proof.
  split; [intros s; apply clean_up_run|].
  split; [|split]; intros ticks s; rewrite main_run;
    pose proof (startup_never_tears_down cfg E s) as H1;
    destruct (value (startup cfg E s)) as [hs|c]; cbv zeta.
  - pose proof (main_loop_never_tears_down cfg hs ticks (final (startup cfg E s))) as H2.
    destruct (value (main_loop cfg hs ticks (final (startup cfg E s)))) as [[|]|c];
      cbn [events final value]; intros H; try discriminate H.
    exists (events (startup cfg E s)
            ++ events (main_loop cfg hs ticks (final (startup cfg E s)))).
    split; [rewrite app_assoc; reflexivity | apply none_app; assumption].
  - intros H; discriminate H.
  - pose proof (main_loop_never_tears_down cfg hs ticks (final (startup cfg E s))) as H2.
    destruct (value (main_loop cfg hs ticks (final (startup cfg E s)))) as [[|]|c];
      cbn [events final value]; intros H.
    + contradiction H; reflexivity.
    + apply none_app; assumption.
    + apply none_app; assumption.
  - intros _. exact H1.
  - pose proof (main_loop_never_tears_down cfg hs ticks (final (startup cfg E s))) as H2.
    apply (none_weaken _ _ _ teardown_is_weaker) in H1.
    apply (none_weaken _ _ _ teardown_is_weaker) in H2.
    destruct (value (main_loop cfg hs ticks (final (startup cfg E s)))) as [[|]|c];
      cbn [events final value].
    + apply none_app; [assumption|].
      apply none_app; [assumption|apply teardown_never_releases].
    + apply none_app; assumption.
    + apply none_app; assumption.
  - cbn [events]. apply (none_weaken _ _ _ teardown_is_weaker). exact H1.
Qed.

Lemma teardown_closes_registry_not_sessions_witness :
  exists pre,
    events (main cfg_ui three_devices [sigint_tick 1000] initial_state)
    = pre ++ teardown_events cfg_ui
               (final (main cfg_ui three_devices [sigint_tick 1000] initial_state))
    /\ none is_teardown pre.
Proof.
  apply (proj1 (proj2 (teardown_closes_registry_not_sessions cfg_ui three_devices))
           [sigint_tick 1000] initial_state).
  vm_compute. reflexivity.
Defined.

(** C8, as stated, fails: on [three_devices] the run returns after the first
    SIGINT; its chain holds the sessions of [eth2] and [eth0]; the teardown
    closed the three registered descriptors and called [procclean], and no
    session was released. *)
Lemma teardown_leaves_sessions_open :
  value (startup cfg_ui three_devices initial_state) = Ret chain_two
  /\ value (main cfg_ui three_devices [sigint_tick 1000] initial_state) = Ret Returned
  /\ filter is_teardown (events (main cfg_ui three_devices [sigint_tick 1000] initial_state))
     = [EvClose 3; EvClose 5; EvClose 7; EvProcClean]
  /\ filter is_release (events (main cfg_ui three_devices [sigint_tick 1000] initial_state))
     = [].
Proof. repeat split; vm_compute; reflexivity. Qed.

(** * Further properties of [main.cpp] *)

(** ** The first argument of [select] *)

Lemma fold_max_bounds : forall (fds : list Z) (acc : Z),
  let nfds := fold_left (fun nfds fd => Z.max nfds (fd + 1)) fds acc in
  acc <= nfds
  /\ (forall fd, In fd fds -> fd < nfds)
  /\ (nfds = acc \/ exists fd, In fd fds /\ nfds = fd + 1).
Proof.
  induction fds as [|fd rest IH]; intros acc; cbn [fold_left].
  - split; [lia|]. split; [intros fd []|left; reflexivity].
  - destruct (IH (Z.max acc (fd + 1))) as (Hge & Hlt & Hwhich). cbv zeta.
    split; [lia|]. split.
    + intros fd' [->|Hin]; [lia|apply Hlt; exact Hin].
    + destruct Hwhich as [Heq|(fd' & Hin & Heq)].
      * destruct (Z.max_spec acc (fd + 1)) as [[_ Hm]|[_ Hm]].
        -- right. exists fd. split; [left; reflexivity|lia].
        -- left. lia.
      * right. exists fd'. split; [right; exact Hin|exact Heq].
Qed.

(** X1. The [nfds] that [wait_for_next_trigger] computes is non-negative,
    strictly above every registered descriptor, and tight: it is [0] (empty
    registry, or no descriptor above [-1]) or some registered descriptor
    plus one. *)
Theorem compute_nfds_bounds (fds : list Z) :
  0 <= compute_nfds fds
  /\ (forall fd, In fd fds -> fd < compute_nfds fds)
  /\ (compute_nfds fds = 0 \/ exists fd, In fd fds /\ compute_nfds fds = fd + 1).
Proof. unfold compute_nfds. apply (fold_max_bounds fds 0). Qed.

(** ** When the idle wait reports shutdown *)

Lemma FD_ISSET_select_result s t fd fds :
  FD_ISSET fd (select_result s t fds) = true <-> In fd fds /\ fd_readable s t fd = true.
Proof.
  unfold FD_ISSET, select_result. rewrite existsb_exists. split.
  - intros (x & Hin & Heq). apply Z.eqb_eq in Heq. subst x.
    apply filter_In in Hin. exact Hin.
  - intros [Hin Hrd]. exists fd. split; [|apply Z.eqb_refl].
    apply filter_In. split; assumption.
Qed.

Lemma fd_readable_pipe s t :
  fd_readable s t (fst (self_pipe s)) = true
  <-> pipe_readable s = true \/ In (fst (self_pipe s)) (readable t).
Proof.
  unfold fd_readable. rewrite Z.eqb_refl, orb_true_iff, existsb_exists. cbn [andb].
  split; intros [H|H]; try (left; exact H).
  - destruct H as (x & Hin & Heq). apply Z.eqb_eq in Heq. subst x. right. exact Hin.
  - right. exists (fst (self_pipe s)). split; [exact H|apply Z.eqb_refl].
Qed.

Lemma observes_shutdown_spec s t :
  observes_shutdown s t = true
  <-> pc_loop_use_select s = true
      /\ select_ret t <> -1
      /\ In (fst (self_pipe s)) (pc_loop_fd_list s)
      /\ (pipe_readable s = true \/ In (fst (self_pipe s)) (readable t)).
Proof.
  unfold observes_shutdown. rewrite !andb_true_iff, negb_true_iff, Z.eqb_neq.
  rewrite FD_ISSET_select_result, fd_readable_pipe. tauto.
Qed.

(** X2. [wait_for_next_trigger] never exits and assigns none of
    [self_pipe], [last_refresh_time], [pc_loop_fd_list] and
    [pc_loop_use_select]; it does not read from the self-pipe either, so a
    pending byte stays pending. It reports shutdown ([false]) exactly when
    the program is in select mode, [select] did not return [-1], the read
    end of the self-pipe is in the registry, and that end is readable; in
    every other case, a failed [select] included, it reports "go on". *)
Theorem wait_reports_shutdown_iff cfg (t : tick) (s : state) :
  (self_pipe (final (wait_for_next_trigger cfg t s)) = self_pipe s
   /\ last_refresh_time (final (wait_for_next_trigger cfg t s)) = last_refresh_time s
   /\ pc_loop_fd_list (final (wait_for_next_trigger cfg t s)) = pc_loop_fd_list s
   /\ pc_loop_use_select (final (wait_for_next_trigger cfg t s)) = pc_loop_use_select s
   /\ pipe_readable (final (wait_for_next_trigger cfg t s)) = pipe_readable s)
  /\ (value (wait_for_next_trigger cfg t s) = Ret false
      \/ value (wait_for_next_trigger cfg t s) = Ret true)
  /\ (value (wait_for_next_trigger cfg t s) = Ret false
      <-> pc_loop_use_select s = true
          /\ select_ret t <> -1
          /\ In (fst (self_pipe s)) (pc_loop_fd_list s)
          /\ (pipe_readable s = true \/ In (fst (self_pipe s)) (readable t))).
Proof.
  rewrite wait_for_next_trigger_run. cbn [final value].
  split; [repeat split|]. rewrite <- observes_shutdown_spec.
  destruct (observes_shutdown s t); cbn [negb].
  - split; [left; reflexivity|]. split; intros _; reflexivity.
  - split; [right; reflexivity|]. split; intros H; discriminate H.
Qed.

(** ** What the main loop leaves alone *)

(** X3. The main loop never touches the self-pipe pair, the registry or the
    select-mode flag, whatever the environment answers, and a byte pending
    in the self-pipe is never consumed: once readable, the wait end stays
    readable. *)
Theorem main_loop_keeps_registry cfg (hs : list handle) (ticks : list tick) (s : state) :
  self_pipe (final (main_loop cfg hs ticks s)) = self_pipe s
  /\ pc_loop_fd_list (final (main_loop cfg hs ticks s)) = pc_loop_fd_list s
  /\ pc_loop_use_select (final (main_loop cfg hs ticks s)) = pc_loop_use_select s
  /\ (pipe_readable s = true -> pipe_readable (final (main_loop cfg hs ticks s)) = true).
Proof.
  revert s. induction ticks as [|t rest IH]; intros s.
  - repeat split. intros H. exact H.
  - rewrite main_loop_step.
    destruct (sigint t && (snd (self_pipe s) =? -1)).
    { repeat split. intros H. exact H. }
    cbv zeta.
    assert (Hp : pipe_readable s = true ->
                 pipe_readable (after_refresh cfg (deliver t s) t) = true).
    { intros H. rewrite after_refresh_pipe_readable. unfold deliver.
      destruct (sigint t); [reflexivity|exact H]. }
    destruct (breaks cfg hs t (deliver t s)); cbn [final]; rewrite loop_body_final.
    + rewrite after_refresh_self_pipe, after_refresh_fd_list, after_refresh_use_select,
        deliver_self_pipe, deliver_fd_list, deliver_use_select.
      repeat split. exact Hp.
    + destruct (IH (after_refresh cfg (deliver t s) t)) as (H1 & H2 & H3 & H4).
      rewrite H1, H2, H3.
      rewrite after_refresh_self_pipe, after_refresh_fd_list, after_refresh_use_select,
        deliver_self_pipe, deliver_fd_list, deliver_use_select.
      repeat split. intros H. apply H4. apply Hp. exact H.
Qed.

(** ** The dispatch pass *)

Lemma dispatch_log_calls t hs :
  filter is_dispatch (flat_map (dispatch_log t) hs)
  = map (fun h => EvDpDispatch (content h)) hs.
Proof.
  induction hs as [|h rest IH]; [reflexivity|].
  cbn [flat_map map]. rewrite filter_app, IH. unfold dispatch_log.
  cbn [filter is_dispatch].
  destruct (_ =? -1); [reflexivity|]. destruct (_ <? 0); reflexivity.
Qed.

Lemma dispatch_log_errors t hs :
  List.length (filter is_stderr (flat_map (dispatch_log t) hs))
  = List.length (filter (fun h => dp_dispatch t (content h) <? 0) hs).
Proof.
  induction hs as [|h rest IH]; [reflexivity|].
  cbn [flat_map filter]. rewrite filter_app, List.length_app, IH. unfold dispatch_log.
  cbn [filter is_stderr].
  destruct (Z.eqb_spec (dp_dispatch t (content h)) (-1)) as [e|ne].
  - rewrite e. reflexivity.
  - destruct (dp_dispatch t (content h) <? 0); reflexivity.
Qed.

Lemma filter_none p evs : none p evs -> filter p evs = [].
Proof.
  unfold none. induction 1 as [|e l He _ IH]; simpl; [reflexivity|].
  rewrite He. exact IH.
Qed.

(** X4. In every iteration of the main loop each session of the chain gets
    exactly one [dp_dispatch] call, in chain order, whatever the calls on
    the sessions before it returned; and the iteration writes exactly one
    line to [stderr] per session whose call returned a negative value. *)
Theorem every_session_is_dispatched_once cfg (hs : list handle) (t : tick) (s : state) :
  filter is_dispatch (events (loop_body cfg hs t s))
  = map (fun h => EvDpDispatch (content h)) hs
  /\ List.length (filter is_stderr (events (loop_body cfg hs t s)))
     = List.length (filter (fun h => dp_dispatch t (content h) <? 0) hs).
Proof.
  rewrite loop_body_run. cbn [events]. rewrite !filter_app.
  assert (Hw : forall p, p (EvUsleep 1000) = false ->
                 (forall a b c, p (EvSelect a b c) = false) ->
                 filter p (if existsb (productive t) hs then []
                           else wait_log cfg (after_refresh cfg s t)) = []).
  { intros p Hu Hs. destruct (existsb (productive t) hs); [reflexivity|].
    unfold wait_log. destruct (pc_loop_use_select _); simpl; [rewrite Hs|rewrite Hu];
      reflexivity. }
  rewrite !Hw by reflexivity.
  rewrite !(filter_none _ (refresh_log cfg s t)) by (apply none_refresh_log; reflexivity).
  rewrite !app_nil_r. split; [apply dispatch_log_calls|apply dispatch_log_errors].
Qed.

(** ** What a successful [startup] establishes *)

Lemma check_privilege_cases cfg E s :
  privileged E \/ fails (check_privilege cfg E s).
Proof.
  unfold privileged.
  destruct (Z.eq_dec (geteuid E) 0) as [Hroot|Huser]; [left; left; exact Hroot|].
  destruct (caps_missing E) eqn:Hcaps.
  { right. apply check_privilege_fails; assumption. }
  destruct (linux E) eqn:Hlin.
  - destruct (Z.eq_dec (readlink_exe E) (-1)) as [Hexe|Hexe].
    + right. unfold check_privilege.
      destruct (Z.eqb_spec (geteuid E) 0) as [e|_]; [contradiction|]. cbn [negb].
      rewrite Hlin. apply fails_bind_l. rewrite Hexe, Z.eqb_refl.
      unfold fails. rewrite forceExit_run. reflexivity.
    + left. right. repeat split; assumption.
  - right. unfold check_privilege.
    destruct (Z.eqb_spec (geteuid E) 0) as [e|_]; [contradiction|]. cbn [negb].
    rewrite Hlin. unfold fails. rewrite forceExit_run. reflexivity.
Qed.

Lemma pipe_created_dec E : pipe_created E \/ ~ pipe_created E.
Proof.
  unfold pipe_created.
  destruct (Z.eq_dec (fst (create_self_pipe E)) (-1));
    destruct (Z.eq_dec (snd (create_self_pipe E)) (-1)); tauto.
Qed.

(** The state in which the device loop starts. *)
Lemma startup_without_pipe cfg E s :
  ~ pipe_created E -> fails (startup cfg E s).
Proof.
  intros Hno. unfold startup.
  apply fails_bind.
  { destruct (get_devices E);
      [apply only_failure_forceExit | eapply only_failure_Ret; reflexivity]. }
  intros _ _. apply fails_bind.
  { unfold when. destruct (ui_enabled cfg); eapply only_failure_Ret; reflexivity. }
  intros _ _. apply fails_bind; [apply check_privilege_only_failure|].
  intros _ _. apply fails_bind; [eapply only_failure_Ret; reflexivity|].
  intros _ _.
  match goal with |- fails (bind get _ ?s1) =>
    apply (fails_bind_r _ _ s1 s1); [reflexivity|] end.
  cbn [get final self_pipe set_self_pipe modify].
  apply fails_bind_l.
  destruct (Z.eqb_spec (fst (create_self_pipe E)) (-1)) as [e1|n1]; cbn [orb].
  - unfold fails. rewrite forceExit_run. reflexivity.
  - destruct (Z.eqb_spec (snd (create_self_pipe E)) (-1)) as [e2|n2].
    + unfold fails. rewrite forceExit_run. reflexivity.
    + exfalso. apply Hno. split; assumption.
Qed.

Lemma startup_cases cfg E s :
  fails (startup cfg E s)
  \/ (get_devices E <> [] /\ privileged E /\ pipe_created E).
Proof.
  destruct (get_devices E) as [|d rest] eqn:Hd.
  { left. unfold startup. rewrite Hd. apply fails_bind_l.
    unfold fails. rewrite forceExit_run. reflexivity. }
  destruct (pipe_created_dec E) as [Hpipe|Hpipe];
    [|left; apply startup_without_pipe; exact Hpipe].
  destruct (check_privilege_cases cfg E s) as [Hpriv|Hfail].
  - right. split; [discriminate|]. split; assumption.
  - left. unfold startup. rewrite Hd.
    apply fails_bind; [eapply only_failure_Ret; reflexivity|].
    intros _ _. apply fails_bind.
    { unfold when. destruct (ui_enabled cfg); eapply only_failure_Ret; reflexivity. }
    intros _ _. apply fails_bind_l.
    assert (Hui : final (when (ui_enabled cfg) (emit EvInitUi) s) = s)
      by (unfold when; destruct (ui_enabled cfg); reflexivity).
    cbn [ret final]. rewrite Hui. exact Hfail.
Qed.

(** Past its guards, [startup] in closed form. *)
Lemma startup_past_guards_run cfg E s :
  get_devices E <> [] -> privileged E -> pipe_created E ->
  let r := open_sessions cfg E (get_devices E)
             (set_fd_list (pc_loop_fd_list s ++ [fst (create_self_pipe E)])
                (set_self_pipe (create_self_pipe E) s)) in
  startup cfg E s
  = mk_result ((if ui_enabled cfg then [EvInitUi] else []) ++ events r
               ++ match value r with Ret _ => [EvSignalSigint] | Exit _ => [] end)
              (final r) (value r).
Proof.
  intros Hdev Hpriv [Hrd Hwr]. cbv zeta. unfold startup.
  destruct (get_devices E) as [|d rest] eqn:Hd; [contradiction|].
  rewrite (bind_Ret _ _ _ tt) by reflexivity. cbn [ret events final value app].
  rewrite (bind_Ret _ _ _ tt) by (unfold when; destruct (ui_enabled cfg); reflexivity).
  assert (Hui : final (when (ui_enabled cfg) (emit EvInitUi) s) = s)
    by (unfold when; destruct (ui_enabled cfg); reflexivity).
  assert (Hev : events (when (ui_enabled cfg) (emit EvInitUi) s)
                = if ui_enabled cfg then [EvInitUi] else [])
    by (unfold when; destruct (ui_enabled cfg); reflexivity).
  rewrite Hui, Hev. cbn [events final value].
  rewrite (bind_Ret _ _ _ tt) by (rewrite check_privilege_passes by exact Hpriv; reflexivity).
  rewrite check_privilege_passes by exact Hpriv. cbn [events final value app].
  rewrite (bind_Ret _ _ _ tt) by reflexivity. cbn [modify events final value app].
  rewrite (bind_Ret _ _ _ (set_self_pipe (create_self_pipe E) s)) by reflexivity.
  cbn [get events final value self_pipe set_self_pipe app].
  destruct (Z.eqb_spec (fst (create_self_pipe E)) (-1)) as [e|_]; [contradiction|].
  destruct (Z.eqb_spec (snd (create_self_pipe E)) (-1)) as [e|_]; [contradiction|].
  cbn [orb].
  rewrite (bind_Ret _ _ _ tt) by reflexivity.
  cbn [modify events final value self_pipe set_self_pipe pc_loop_fd_list app].
  match goal with |- context [open_sessions cfg E (d :: rest) ?s1] =>
    destruct (value (open_sessions cfg E (d :: rest) s1)) as [hs|c] eqn:Hv end.
  - rewrite (bind_Ret _ _ _ hs Hv). unfold bind, emit, ret. cbn [events final value app].
    reflexivity.
  - rewrite (bind_Exit _ _ _ c Hv). cbn [events final value].
    rewrite app_nil_r. reflexivity.
Qed.

Lemma register_state_opened E dev h s :
  register_state E h s = register_state E (content (mk_handle h dev)) s.
Proof. reflexivity. Qed.

Lemma open_devices_final cfg E : forall devs a s,
  (forall d, In d devs -> getLocal E d = true) ->
  final (open_devices cfg E devs a s) = register_all E (opened E devs) s.
Proof.
  induction devs as [|dev rest IH]; intros a s Hl; [reflexivity|].
  assert (Hdev : getLocal E dev = true) by (apply Hl; left; reflexivity).
  assert (Hrest : forall d, In d rest -> getLocal E d = true)
    by (intros d Hin; apply Hl; right; exact Hin).
  unfold register_all. cbn [open_devices opened flat_map].
  destruct (dp_open_live E dev) as [h|] eqn:Ho.
  - rewrite (bind_Ret _ _ _ _ (f_equal value (open_device_opened cfg E dev a s h Hdev Ho))).
    rewrite (open_device_opened cfg E dev a s h Hdev Ho). cbn [events final value app fold_left].
    apply IH. exact Hrest.
  - rewrite (bind_Ret _ _ _ _ (f_equal value (open_device_refused cfg E dev a s Hdev Ho))).
    rewrite (open_device_refused cfg E dev a s Hdev Ho). cbn [events final value app].
    apply IH. exact Hrest.
Qed.

Lemma register_all_cons E h rest s :
  register_all E (h :: rest) s = register_all E rest (register_state E (content h) s).
Proof. reflexivity. Qed.

Lemma register_state_fields E h s :
  self_pipe (register_state E (content h) s) = self_pipe s
  /\ last_refresh_time (register_state E (content h) s) = last_refresh_time s
  /\ pipe_readable (register_state E (content h) s) = pipe_readable s
  /\ pc_loop_use_select (register_state E (content h) s)
     = pc_loop_use_select s && selectable E h
  /\ (pc_loop_use_select (register_state E (content h) s) = true ->
      pc_loop_fd_list (register_state E (content h) s)
      = pc_loop_fd_list s ++ [selectable_fd E h])
  /\ (pc_loop_use_select s = true ->
      pc_loop_use_select (register_state E (content h) s) = false ->
      pc_loop_fd_list (register_state E (content h) s) = []).
Proof.
  unfold register_state, selectable, selectable_fd.
  destruct (pc_loop_use_select s) eqn:Hsel; cbn [andb].
  - destruct (pcap_get_selectable_fd E (pcap_handle (content h)) =? -1); cbn [negb];
      repeat split;
      cbn [pc_loop_use_select pc_loop_fd_list set_fd_list set_use_select];
      intros; congruence.
  - rewrite Hsel. repeat split; intros; congruence.
Qed.

Lemma register_all_fallback E : forall hs s, fallback s -> register_all E hs s = s.
Proof.
  induction hs as [|h rest IH]; intros s Hfb; [reflexivity|].
  rewrite register_all_cons.
  destruct (register_fallback E (devicename h) (content h) s Hfb) as [Hs _].
  rewrite Hs. apply IH. exact Hfb.
Qed.

Lemma register_all_fields E : forall hs s,
  self_pipe (register_all E hs s) = self_pipe s
  /\ last_refresh_time (register_all E hs s) = last_refresh_time s
  /\ pipe_readable (register_all E hs s) = pipe_readable s
  /\ pc_loop_use_select (register_all E hs s)
     = pc_loop_use_select s && forallb (selectable E) hs
  /\ (pc_loop_use_select (register_all E hs s) = true ->
      pc_loop_fd_list (register_all E hs s)
      = pc_loop_fd_list s ++ map (selectable_fd E) hs)
  /\ (pc_loop_use_select s = true ->
      pc_loop_use_select (register_all E hs s) = false ->
      pc_loop_fd_list (register_all E hs s) = []).
Proof.
  induction hs as [|h rest IH]; intros s.
  - cbn [register_all fold_left forallb map]. rewrite andb_true_r, app_nil_r.
    repeat split. intros H1 H2. congruence.
  - rewrite register_all_cons. cbn [forallb map].
    destruct (IH (register_state E (content h) s)) as (H1 & H2 & H3 & H4 & H5 & H6).
    destruct (register_state_fields E h s) as (R1 & R2 & R3 & R4 & R5 & R6).
    split; [rewrite H1; exact R1|].
    split; [rewrite H2; exact R2|].
    split; [rewrite H3; exact R3|].
    split; [rewrite H4, R4, andb_assoc; reflexivity|].
    split.
    + intros H.
      assert (Hmid : pc_loop_use_select (register_state E (content h) s) = true).
      { rewrite H4 in H. apply andb_true_iff in H. exact (proj1 H). }
      rewrite (H5 H), (R5 Hmid), <- app_assoc. reflexivity.
    + intros Hs H.
      destruct (pc_loop_use_select (register_state E (content h) s)) eqn:Hmid.
      * apply H6; [reflexivity|exact H].
      * assert (Hl : pc_loop_fd_list (register_state E (content h) s) = [])
          by (apply R6; [exact Hs|reflexivity]).
        rewrite register_all_fallback by (split; assumption). exact Hl.
Qed.

Lemma opened_nonempty E devs :
  (exists d, In d devs /\ dp_open_live E d <> None) -> opened E devs <> [].
Proof.
  intros (d & Hin & Hd). induction devs as [|d' rest IH]; [destruct Hin|].
  cbn [opened flat_map]. destruct Hin as [->|Hin].
  - destruct (dp_open_live E d); [discriminate|congruence].
  - destruct (dp_open_live E d'); [discriminate|]. apply IH. exact Hin.
Qed.

Lemma open_sessions_final cfg E devs s :
  (forall d, In d devs -> getLocal E d = true) ->
  final (open_sessions cfg E devs s) = register_all E (opened E devs) s.
Proof.
  intros Hok. unfold open_sessions.
  destruct (open_devices_ok cfg E devs no_sessions s Hok) as [Hv _].
  rewrite (bind_Ret _ _ _ _ Hv). cbn [final].
  rewrite <- (open_devices_final cfg E devs no_sessions s Hok).
  match goal with |- context [if ?b then _ else _] => destruct b end.
  - rewrite (bind_Exit _ _ _ EXIT_FAILURE) by (rewrite forceExit_run; reflexivity).
    rewrite forceExit_run. reflexivity.
  - reflexivity.
Qed.

Lemma open_sessions_returns cfg E devs s hs :
  value (open_sessions cfg E devs s) = Ret hs ->
  (forall d, In d devs -> getLocal E d = true)
  /\ (exists d, In d devs /\ dp_open_live E d <> None)
  /\ hs = rev (opened E devs).
Proof.
  intros Hv.
  destruct (forallb (getLocal E) devs) eqn:Hl.
  2:{ exfalso.
      assert (Hf : fails (open_sessions cfg E devs s)).
      { unfold open_sessions. apply fails_bind_l. apply open_devices_lookup_failed.
        apply forallb_false. exact Hl. }
      unfold fails in Hf. rewrite Hf in Hv. discriminate Hv. }
  assert (Hok : forall d, In d devs -> getLocal E d = true)
    by (apply forallb_forall; exact Hl).
  destruct (forallb (refused E) devs) eqn:Hr.
  { exfalso.
    assert (Hf : fails (open_sessions cfg E devs s)).
    { apply open_sessions_all_refused. intros d Hin.
      pose proof (proj1 (forallb_forall _ _) Hr d Hin) as Hd. unfold refused in Hd.
      destruct (dp_open_live E d); [discriminate Hd|reflexivity]. }
    unfold fails in Hf. rewrite Hf in Hv. discriminate Hv. }
  assert (Hsome : exists d, In d devs /\ dp_open_live E d <> None).
  { destruct (forallb_false _ _ Hr) as (d & Hin & Hd). exists d. split; [exact Hin|].
    unfold refused in Hd. destruct (dp_open_live E d); [discriminate|discriminate Hd]. }
  split; [exact Hok|]. split; [exact Hsome|].
  destruct (open_sessions_some_opened cfg E devs s Hok Hsome) as [Hv' _].
  rewrite Hv' in Hv. injection Hv as <-. reflexivity.
Qed.

Lemma startup_ok_facts cfg E (s : state) (hs : list handle) :
  value (startup cfg E s) = Ret hs ->
  hs = rev (opened E (get_devices E))
  /\ hs <> []
  /\ privileged E
  /\ (forall d, In d (get_devices E) -> getLocal E d = true)
  /\ self_pipe (final (startup cfg E s)) = create_self_pipe E
  /\ fst (create_self_pipe E) <> -1
  /\ snd (create_self_pipe E) <> -1
  /\ last_refresh_time (final (startup cfg E s)) = last_refresh_time s.
Proof.
  intros Hv.
  destruct (startup_cases cfg E s) as [Hf|(Hdev & Hpriv & Hpipe)].
  { unfold fails in Hf. rewrite Hf in Hv. discriminate Hv. }
  pose proof (startup_past_guards_run cfg E s Hdev Hpriv Hpipe) as Hrun.
  cbv zeta in Hrun. rewrite Hrun in Hv |- *. cbn [value final] in Hv |- *.
  destruct (open_sessions_returns cfg E _ _ _ Hv) as (Hok & Hsome & Hhs).
  rewrite (open_sessions_final cfg E _ _ Hok).
  destruct (register_all_fields E (opened E (get_devices E))
              (set_fd_list (pc_loop_fd_list s ++ [fst (create_self_pipe E)])
                 (set_self_pipe (create_self_pipe E) s))) as (F1 & F2 & _).
  rewrite F1, F2. destruct Hpipe as [Hrd Hwr].
  repeat split; try assumption.
  subst hs. intros Hnil. apply (opened_nonempty E _ Hsome).
  apply (f_equal (@rev handle)) in Hnil. rewrite rev_involutive in Hnil. exact Hnil.
Qed.

(** X5. What a successful [startup] establishes, from any state: the chain
    it returns holds exactly the sessions [dp_open_live] granted, most
    recent first, and is not empty; the privilege test passed; the
    local-address lookup succeeded for every device; both ends of the
    self-pipe are valid and stored in [self_pipe]; the refresh timestamp is
    untouched. *)
Theorem startup_postcondition cfg E (s : state) (hs : list handle) :
  value (startup cfg E s) = Ret hs ->
  hs = rev (opened E (get_devices E))
  /\ hs <> []
  /\ privileged E
  /\ (forall d, In d (get_devices E) -> getLocal E d = true)
  /\ self_pipe (final (startup cfg E s)) = create_self_pipe E
  /\ fst (create_self_pipe E) <> -1
  /\ snd (create_self_pipe E) <> -1
  /\ last_refresh_time (final (startup cfg E s)) = last_refresh_time s.
Proof. apply startup_ok_facts. Qed.

Lemma startup_postcondition_witness :
  chain_two = rev (opened three_devices (get_devices three_devices))
  /\ chain_two <> []
  /\ privileged three_devices
  /\ (forall d, In d (get_devices three_devices) -> getLocal three_devices d = true)
  /\ self_pipe (final (startup cfg_ui three_devices initial_state))
     = create_self_pipe three_devices
  /\ fst (create_self_pipe three_devices) <> -1
  /\ snd (create_self_pipe three_devices) <> -1
  /\ last_refresh_time (final (startup cfg_ui three_devices initial_state))
     = last_refresh_time initial_state.
Proof.
  apply (startup_postcondition cfg_ui three_devices initial_state chain_two).
  vm_compute. reflexivity.
Defined.

Lemma startup_ok_registry cfg E (hs : list handle) :
  value (startup cfg E initial_state) = Ret hs ->
  (pc_loop_use_select (final (startup cfg E initial_state)) = true
   <-> forall h, In h hs -> selectable_fd E h <> -1)
  /\ (pc_loop_use_select (final (startup cfg E initial_state)) = true ->
      pc_loop_fd_list (final (startup cfg E initial_state))
      = fst (create_self_pipe E) :: map (selectable_fd E) (rev hs))
  /\ (pc_loop_use_select (final (startup cfg E initial_state)) = false ->
      pc_loop_fd_list (final (startup cfg E initial_state)) = []).
Proof.
  intros Hv.
  destruct (startup_cases cfg E initial_state) as [Hf|(Hdev & Hpriv & Hpipe)].
  { unfold fails in Hf. rewrite Hf in Hv. discriminate Hv. }
  pose proof (startup_past_guards_run cfg E initial_state Hdev Hpriv Hpipe) as Hrun.
  cbv zeta in Hrun. rewrite Hrun in Hv |- *. cbn [value final] in Hv |- *.
  destruct (open_sessions_returns cfg E _ _ _ Hv) as (Hok & _ & Hhs).
  rewrite (open_sessions_final cfg E _ _ Hok).
  cbn [initial_state pc_loop_fd_list app].
  match goal with |- context [register_all E ?l ?s1] =>
    destruct (register_all_fields E l s1) as (_ & _ & _ & F4 & F5 & F6) end.
  cbn [initial_state pc_loop_use_select pc_loop_fd_list set_fd_list set_self_pipe andb app]
    in F4, F5, F6.
  assert (Hrev : rev hs = opened E (get_devices E))
    by (subst hs; apply rev_involutive).
  split; [|split].
  - rewrite F4, forallb_forall. split.
    + intros H h Hin. apply in_rev in Hin. rewrite Hrev in Hin.
      specialize (H h Hin). unfold selectable in H.
      apply negb_true_iff, Z.eqb_neq in H. exact H.
    + intros H h Hin. unfold selectable. apply negb_true_iff, Z.eqb_neq.
      apply H. apply in_rev. rewrite Hrev. exact Hin.
  - intros H. rewrite (F5 H), Hrev. reflexivity.
  - intros H. apply F6; [reflexivity|exact H].
Qed.

(** X6. The registry a successful [startup] leaves behind, starting from the
    initial state. Select mode is kept exactly when every session of the
    chain has a selectable descriptor; then the registry is the read end of
    the self-pipe followed by the descriptors of the sessions in the order
    they were opened. Otherwise the registry is empty. *)
Theorem startup_registry cfg E (hs : list handle) :
  value (startup cfg E initial_state) = Ret hs ->
  (pc_loop_use_select (final (startup cfg E initial_state)) = true
   <-> forall h, In h hs -> selectable_fd E h <> -1)
  /\ (pc_loop_use_select (final (startup cfg E initial_state)) = true ->
      pc_loop_fd_list (final (startup cfg E initial_state))
      = fst (create_self_pipe E) :: map (selectable_fd E) (rev hs))
  /\ (pc_loop_use_select (final (startup cfg E initial_state)) = false ->
      pc_loop_fd_list (final (startup cfg E initial_state)) = []).
Proof. apply startup_ok_registry. Qed.

Lemma startup_registry_witness :
  pc_loop_fd_list (final (startup cfg_ui three_devices initial_state)) = [3; 5; 7]
  /\ pc_loop_fd_list (final (startup cfg_ui one_unselectable initial_state)) = [].
Proof.
  split.
  - apply (proj1 (proj2 (startup_registry cfg_ui three_devices chain_two
                           ltac:(vm_compute; reflexivity)))).
    vm_compute. reflexivity.
  - apply (proj2 (proj2 (startup_registry cfg_ui one_unselectable chain_wlan0
                           ltac:(vm_compute; reflexivity)))).
    vm_compute. reflexivity.
Defined.

(** ** Ways out of [main] *)

Lemma main_loop_returns cfg hs : forall ticks s,
  snd (self_pipe s) <> -1 -> exists b, value (main_loop cfg hs ticks s) = Ret b.
Proof.
  induction ticks as [|t rest IH]; intros s Hpipe.
  - exists false. reflexivity.
  - rewrite main_loop_step.
    destruct (Z.eqb_spec (snd (self_pipe s)) (-1)) as [e|_]; [contradiction|].
    rewrite andb_false_r. cbv zeta.
    destruct (breaks cfg hs t (deliver t s)); cbn [value].
    + exists true. reflexivity.
    + apply IH. rewrite loop_body_final, after_refresh_self_pipe, deliver_self_pipe.
      exact Hpipe.
Qed.

(** X7. [main] calls [exit] only during [startup], and then with
    [EXIT_FAILURE]: if a run of [main] ended in [exit], it is [startup] that
    failed, the whole trace is the trace of [startup], and no dispatch call
    was made. Once the main loop runs, the handler never takes its [exit(0)]
    branch and the run is either still looping or returns through
    [clean_up]. *)
Theorem main_exits_only_in_startup cfg E (ticks : list tick) (s : state) (c : Z) :
  value (main cfg E ticks s) = Exit c ->
  c = EXIT_FAILURE
  /\ value (startup cfg E s) = Exit EXIT_FAILURE
  /\ events (main cfg E ticks s) = events (startup cfg E s)
  /\ none is_dispatch (events (main cfg E ticks s)).
Proof.
  intros Hv. destruct (value (startup cfg E s)) as [hs|c'] eqn:Hs.
  - exfalso. destruct (startup_ok_facts cfg E s hs Hs) as (_ & _ & _ & _ & Hp & _ & Hw & _).
    destruct (main_loop_returns cfg hs ticks (final (startup cfg E s))) as [b Hb].
    { rewrite Hp. exact Hw. }
    rewrite main_run, Hs in Hv. cbv zeta in Hv. rewrite Hb in Hv.
    destruct b; discriminate Hv.
  - assert (Hc : c' = EXIT_FAILURE) by (apply (startup_only_failure cfg E s); exact Hs).
    subst c'.
    destruct (main_startup_failed cfg E ticks s Hs) as [Hm He].
    rewrite Hm in Hv. injection Hv as <-.
    repeat split; try assumption. rewrite He. apply startup_never_dispatches.
Qed.

Lemma main_exits_only_in_startup_witness :
  EXIT_FAILURE = EXIT_FAILURE
  /\ value (startup cfg_ui unprivileged initial_state) = Exit EXIT_FAILURE
  /\ events (main cfg_ui unprivileged [quiet_tick 1000] initial_state)
     = events (startup cfg_ui unprivileged initial_state)
  /\ none is_dispatch (events (main cfg_ui unprivileged [quiet_tick 1000] initial_state)).
Proof.
  apply (main_exits_only_in_startup cfg_ui unprivileged [quiet_tick 1000] initial_state).
  vm_compute. reflexivity.
Defined.

(** ** A requested shutdown in select mode *)

Lemma deliver_pipe_readable t s :
  pipe_readable (deliver t s) = sigint t || pipe_readable s.
Proof. unfold deliver. destruct (sigint t); reflexivity. Qed.

Lemma pending_shutdown_breaks cfg hs t post : forall pre s,
  pc_loop_use_select s = true ->
  In (fst (self_pipe s)) (pc_loop_fd_list s) ->
  snd (self_pipe s) <> -1 ->
  pipe_readable s = true \/ (exists t', In t' (pre ++ [t]) /\ sigint t' = true) ->
  idle_select_ok hs t = true ->
  value (main_loop cfg hs (pre ++ t :: post) s) = Ret true.
Proof.
  intros pre s Hsel Hin Hpipe Hpend Hidle.
  apply andb_true_iff in Hidle. destruct Hidle as [Hunprod Hret].
  apply negb_true_iff, Z.eqb_neq in Hret.
  revert s Hsel Hin Hpipe Hpend.
  induction pre as [|t0 pre' IH]; intros s Hsel Hin Hpipe Hpend; cbn [app];
    rewrite main_loop_step;
    (destruct (Z.eqb_spec (snd (self_pipe s)) (-1)) as [e|_]; [contradiction|]);
    rewrite andb_false_r; cbv zeta.
  - assert (Hb : breaks cfg hs t (deliver t s) = true).
    { unfold breaks. rewrite Hunprod. cbn [andb]. apply observes_shutdown_spec.
      rewrite after_refresh_use_select, after_refresh_self_pipe, after_refresh_fd_list,
        after_refresh_pipe_readable, deliver_use_select, deliver_self_pipe, deliver_fd_list,
        deliver_pipe_readable.
      repeat split; try assumption. left.
      destruct Hpend as [Hp|(t' & [<-|[]] & Hs)].
      - rewrite Hp. apply orb_true_r.
      - rewrite Hs. reflexivity. }
    rewrite Hb. reflexivity.
  - destruct (breaks cfg hs t0 (deliver t0 s)); [reflexivity|]. cbn [value].
    rewrite loop_body_final. apply IH.
    + rewrite after_refresh_use_select, deliver_use_select. exact Hsel.
    + rewrite after_refresh_self_pipe, after_refresh_fd_list, deliver_self_pipe,
        deliver_fd_list. exact Hin.
    + rewrite after_refresh_self_pipe, deliver_self_pipe. exact Hpipe.
    + rewrite after_refresh_pipe_readable, deliver_pipe_readable.
      destruct Hpend as [Hp|(t' & [<-|Hin'] & Hs)].
      * left. rewrite Hp. apply orb_true_r.
      * left. rewrite Hs. reflexivity.
      * right. exists t'. split; assumption.
Qed.

(** Answers that come after the iteration that left the loop are never
    consulted. *)
Lemma main_loop_ignores_rest cfg hs l' : forall l s,
  value (main_loop cfg hs l s) <> Ret false ->
  main_loop cfg hs (l ++ l') s = main_loop cfg hs l s.
Proof.
  induction l as [|t rest IH]; intros s Hv.
  - exfalso. apply Hv. reflexivity.
  - cbn [app]. rewrite !main_loop_step. rewrite main_loop_step in Hv.
    destruct (sigint t && (snd (self_pipe s) =? -1)); [reflexivity|].
    cbv zeta in Hv |- *.
    destruct (breaks cfg hs t (deliver t s)); [reflexivity|].
    cbn [value] in Hv. rewrite (IH _ Hv). reflexivity.
Qed.

(** X8. In select mode a requested shutdown is never lost. Take a run whose
    [startup] succeeded from the initial state with every session
    selectable. If SIGINT is delivered ahead of some iteration up to [t],
    and [t] is an iteration in which no session is productive and [select]
    does not fail, then [main] returns through [clean_up] at [t] at the
    latest, and nothing the environment would answer afterwards is
    consulted. *)
Theorem sigint_stops_select_mode_run cfg E (hs : list handle)
    (pre : list tick) (t : tick) (post : list tick) :
  value (startup cfg E initial_state) = Ret hs ->
  (forall h, In h hs -> selectable_fd E h <> -1) ->
  (exists t', In t' (pre ++ [t]) /\ sigint t' = true) ->
  idle_select_ok hs t = true ->
  value (main cfg E (pre ++ t :: post) initial_state) = Ret Returned
  /\ main cfg E (pre ++ t :: post) initial_state = main cfg E (pre ++ [t]) initial_state.
Proof.
  intros Hs Hall Hsig Hidle.
  destruct (startup_ok_facts cfg E initial_state hs Hs)
    as (_ & _ & _ & _ & Hp & _ & Hw & _).
  destruct (startup_ok_registry cfg E hs Hs) as (Hiff & Hlist & _).
  pose proof (proj2 Hiff Hall) as Hsel.
  assert (Hbreak : forall post',
            value (main_loop cfg hs (pre ++ t :: post') (final (startup cfg E initial_state)))
            = Ret true).
  { intros post'. apply pending_shutdown_breaks.
    - exact Hsel.
    - rewrite (Hlist Hsel), Hp. left. reflexivity.
    - rewrite Hp. exact Hw.
    - right. exact Hsig.
    - exact Hidle. }
  assert (Hsame : main_loop cfg hs (pre ++ t :: post) (final (startup cfg E initial_state))
                  = main_loop cfg hs (pre ++ [t]) (final (startup cfg E initial_state))).
  { change (pre ++ t :: post) with (pre ++ [t] ++ post). rewrite app_assoc.
    apply main_loop_ignores_rest. rewrite (Hbreak []). discriminate. }
  split.
  - rewrite main_run, Hs. cbv zeta. rewrite (Hbreak post). reflexivity.
  - rewrite !main_run, Hs. cbv zeta. rewrite Hsame. reflexivity.
Qed.

Lemma sigint_stops_select_mode_run_witness :
  value (main cfg_ui three_devices
           ([busy_tick 1000] ++ sigint_tick 1001 :: [quiet_tick 1002]) initial_state)
  = Ret Returned
  /\ main cfg_ui three_devices
       ([busy_tick 1000] ++ sigint_tick 1001 :: [quiet_tick 1002]) initial_state
     = main cfg_ui three_devices ([busy_tick 1000] ++ [sigint_tick 1001]) initial_state.
Proof.
  apply (sigint_stops_select_mode_run cfg_ui three_devices chain_two).
  - vm_compute. reflexivity.
  - intros h [<-|[<-|[]]]; vm_compute; discriminate.
  - exists (sigint_tick 1001). split; [right; left; reflexivity|reflexivity].
  - reflexivity.
Defined.

(** ** A self-pipe that cannot be created *)

(** X9. If the self-pipe cannot be created ([pipe] fails, or either [fcntl]
    call fails), [main] ends in [exit(EXIT_FAILURE)] before any device is
    touched: its trace holds no [getLocal] and no [dp_open_live] call, and
    the handler for SIGINT is not installed. *)
Theorem pipe_failure_is_fatal cfg E (ticks : list tick) (s : state) :
  sys_pipe E = None \/ fcntl_rd E = -1 \/ fcntl_wr E = -1 ->
  value (main cfg E ticks s) = Exit EXIT_FAILURE
  /\ none is_device_call (events (main cfg E ticks s))
  /\ ~ In EvSignalSigint (events (main cfg E ticks s)).
Proof.
  intros Hcause.
  assert (Hno : ~ pipe_created E).
  { intros [Hrd _]. rewrite (create_self_pipe_failed E Hcause) in Hrd.
    apply Hrd. reflexivity. }
  pose proof (startup_without_pipe cfg E s Hno) as Hf.
  destruct (main_startup_failed cfg E ticks s Hf) as [Hv He].
  split; [exact Hv|]. rewrite He.
  assert (Hnone : none (fun e => is_device_call e || negb (startup_event e)
                                 || match e with EvSignalSigint => true | _ => false end)
                       (events (startup cfg E s))).
  { unfold startup.
    apply none_bind.
    { destruct (get_devices E); [apply none_forceExit; reflexivity | constructor]. }
    intros _ _. apply none_bind.
    { unfold when. destruct (ui_enabled cfg); repeat constructor. }
    intros _ _. apply none_bind; [apply check_privilege_alphabet; reflexivity|].
    intros _ _. apply none_bind; [constructor|].
    intros _ _. apply none_bind; [constructor|].
    intros s1 Hs1. cbn [get value] in Hs1. injection Hs1 as <-.
    cbn [get final modify self_pipe set_self_pipe].
    assert (Hbad : (fst (create_self_pipe E) =? -1) || (snd (create_self_pipe E) =? -1)
                   = true).
    { rewrite (create_self_pipe_failed E Hcause). reflexivity. }
    rewrite Hbad.
    match goal with |- none _ (events (bind _ ?k ?s')) =>
      rewrite (bind_Exit _ k s' EXIT_FAILURE) by (rewrite forceExit_run; reflexivity)
    end.
    apply none_forceExit; reflexivity. }
  split.
  - apply (none_weaken _ _ _ (fun e H => proj1 (orb_false_elim _ _
                                 (proj1 (orb_false_elim _ _ H)))) Hnone).
  - intros Hin. unfold none in Hnone. rewrite Forall_forall in Hnone.
    specialize (Hnone _ Hin). discriminate Hnone.
Qed.

Lemma pipe_failure_is_fatal_witness :
  value (main cfg_ui fcntl_fails [quiet_tick 1000] initial_state) = Exit EXIT_FAILURE
  /\ none is_device_call (events (main cfg_ui fcntl_fails [quiet_tick 1000] initial_state))
  /\ ~ In EvSignalSigint (events (main cfg_ui fcntl_fails [quiet_tick 1000] initial_state)).
Proof.
  apply (pipe_failure_is_fatal cfg_ui fcntl_fails [quiet_tick 1000] initial_state).
  right. right. reflexivity.
Defined.

(** ** The UI calls of a run *)

Lemma ui_on_exit_quiet cfg {A} (r : result A) a :
  value r = Ret a -> filter is_ui (events r) = [] -> ui_on_exit cfg r.
Proof. unfold ui_on_exit. intros -> H. exact H. Qed.

Lemma ui_on_exit_bind cfg {A B} (m : M A) (k : A -> M B) s :
  ui_on_exit cfg (m s) ->
  (forall a, value (m s) = Ret a -> ui_on_exit cfg (k a (final (m s)))) ->
  ui_on_exit cfg (bind m k s).
Proof.
  unfold ui_on_exit. intros Hm Hk.
  destruct (value (m s)) as [a|c] eqn:Hv.
  - rewrite (bind_Ret _ _ _ a Hv). cbn [events value].
    rewrite filter_app, Hm. apply (Hk a eq_refl).
  - rewrite (bind_Exit _ _ _ c Hv). cbn [events value]. exact Hm.
Qed.

Lemma ui_on_exit_forceExit cfg (A : Type) success msg s :
  ui_on_exit cfg (@forceExit cfg A success msg s).
Proof.
  unfold ui_on_exit. rewrite forceExit_run. cbn [events value].
  destruct (ui_enabled cfg); reflexivity.
Qed.

Lemma filter_ui_open_log E dev h s : filter is_ui (open_log E dev h s) = [].
Proof.
  unfold open_log, register_log. cbn [app filter is_ui]. rewrite filter_app.
  destruct (dp_setnonblock E h =? -1); cbn [filter is_ui app];
    (destruct (pc_loop_use_select s); [|reflexivity]);
    destruct (_ =? -1); reflexivity.
Qed.

Lemma ui_on_exit_open_device cfg E dev a s : ui_on_exit cfg (open_device cfg E dev a s).
Proof.
  destruct (getLocal E dev) eqn:Hl.
  - destruct (dp_open_live E dev) as [h|] eqn:Ho.
    + rewrite (open_device_opened cfg E dev a s h Hl Ho).
      eapply ui_on_exit_quiet; [reflexivity|apply filter_ui_open_log].
    + rewrite (open_device_refused cfg E dev a s Hl Ho).
      eapply ui_on_exit_quiet; reflexivity.
  - rewrite (open_device_getLocal_failed cfg E dev a s Hl).
    unfold ui_on_exit, fatal_log. cbn [events value filter is_ui].
    destruct (ui_enabled cfg); reflexivity.
Qed.

Lemma ui_on_exit_open_devices cfg E : forall devs a s,
  ui_on_exit cfg (open_devices cfg E devs a s).
Proof.
  induction devs as [|dev rest IH]; intros a s; cbn [open_devices].
  - eapply ui_on_exit_quiet; reflexivity.
  - apply ui_on_exit_bind; [apply ui_on_exit_open_device|]. intros a' _. apply IH.
Qed.

Lemma ui_on_exit_open_sessions cfg E devs s : ui_on_exit cfg (open_sessions cfg E devs s).
Proof.
  unfold open_sessions.
  apply ui_on_exit_bind; [apply ui_on_exit_open_devices|]. intros a _.
  apply ui_on_exit_bind.
  - destruct (nb_devices a =? nb_failed_devices a);
      [apply ui_on_exit_forceExit | eapply ui_on_exit_quiet; reflexivity].
  - intros _ _. eapply ui_on_exit_quiet; reflexivity.
Qed.

Lemma ui_on_exit_check_privilege cfg E s : ui_on_exit cfg (check_privilege cfg E s).
Proof.
  unfold check_privilege.
  destruct (negb (geteuid E =? 0)); [|eapply ui_on_exit_quiet; reflexivity].
  destruct (linux E); [|apply ui_on_exit_forceExit].
  apply ui_on_exit_bind.
  - destruct (readlink_exe E =? -1);
      [apply ui_on_exit_forceExit | eapply ui_on_exit_quiet; reflexivity].
  - intros _ _. destruct (caps_missing E);
      [apply ui_on_exit_forceExit | eapply ui_on_exit_quiet; reflexivity].
Qed.

(** The UI calls of [startup]: [exit_ui] alone when there is no device,
    otherwise [init_ui], followed by [exit_ui] when [startup] exits. *)
Lemma startup_ui_calls cfg E s :
  filter is_ui (events (startup cfg E s))
  = if ui_enabled cfg then
      match get_devices E, value (startup cfg E s) with
      | [], _ => [EvExitUi]
      | _ :: _, Exit _ => [EvInitUi; EvExitUi]
      | _ :: _, Ret _ => [EvInitUi]
      end
    else [].
Proof.
  assert (Hrest : forall s',
    ui_on_exit cfg
      ((check_privilege cfg E ;;
        modify (set_self_pipe (create_self_pipe E)) ;;
        s1 <- get ;;
        (if (fst (self_pipe s1) =? -1) || (snd (self_pipe s1) =? -1)
         then forceExit cfg false MsgPipe
         else modify (fun s2 => set_fd_list (pc_loop_fd_list s2 ++ [fst (self_pipe s2)]) s2)) ;;
        hs <- open_sessions cfg E (get_devices E) ;;
        emit EvSignalSigint ;;
        ret hs) s')).
  { intros s'.
    apply ui_on_exit_bind; [apply ui_on_exit_check_privilege|].
    intros _ _. apply ui_on_exit_bind; [eapply ui_on_exit_quiet; reflexivity|].
    intros _ _. apply ui_on_exit_bind; [eapply ui_on_exit_quiet; reflexivity|].
    intros s1 _. apply ui_on_exit_bind.
    { destruct ((fst (self_pipe s1) =? -1) || (snd (self_pipe s1) =? -1));
        [apply ui_on_exit_forceExit | eapply ui_on_exit_quiet; reflexivity]. }
    intros _ _. apply ui_on_exit_bind; [apply ui_on_exit_open_sessions|].
    intros hs _. apply ui_on_exit_bind; [eapply ui_on_exit_quiet; reflexivity|].
    intros _ _. eapply ui_on_exit_quiet; reflexivity. }
  unfold startup. destruct (get_devices E) as [|d rest] eqn:Hd.
  - rewrite (bind_Exit _ _ _ EXIT_FAILURE) by (rewrite forceExit_run; reflexivity).
    rewrite forceExit_run. cbn [events]. destruct (ui_enabled cfg); reflexivity.
  - rewrite (bind_Ret _ _ _ tt) by reflexivity. cbn [ret events final value app].
    rewrite (bind_Ret _ _ _ tt) by (unfold when; destruct (ui_enabled cfg); reflexivity).
    assert (Hui : final (when (ui_enabled cfg) (emit EvInitUi) s) = s)
      by (unfold when; destruct (ui_enabled cfg); reflexivity).
    assert (Hev : events (when (ui_enabled cfg) (emit EvInitUi) s)
                  = if ui_enabled cfg then [EvInitUi] else [])
      by (unfold when; destruct (ui_enabled cfg); reflexivity).
    rewrite Hui, Hev. cbn [events value]. rewrite filter_app.
    specialize (Hrest s). unfold ui_on_exit in Hrest. rewrite Hrest.
    destruct (ui_enabled cfg); cbn [filter is_ui app];
      match goal with |- context [match ?v with Ret _ => _ | Exit _ => _ end] =>
        destruct v end; reflexivity.
Qed.

Lemma main_loop_ui_calls cfg hs : forall ticks s,
  none is_exit_ui (events (main_loop cfg hs ticks s))
  /\ (ui_enabled cfg = false -> none is_ui (events (main_loop cfg hs ticks s))).
Proof.
  intros ticks s. split.
  - apply (none_weaken _ (fun e => negb (loop_event e))); [|apply main_loop_alphabet].
    intros [ ]; simpl; intros H; try reflexivity; discriminate H.
  - intros Hoff. revert s. induction ticks as [|t rest IH]; intros s; [constructor|].
    rewrite main_loop_step.
    destruct (sigint t && (snd (self_pipe s) =? -1)); [constructor|]. cbv zeta.
    assert (Hsig : none is_ui (signal_log t s)).
    { unfold signal_log. destruct (sigint t); repeat constructor. }
    assert (Hbody : none is_ui (events (loop_body cfg hs t (deliver t s)))).
    { rewrite loop_body_run. cbn [events].
      apply none_app; [apply none_dispatch_log; reflexivity|].
      apply none_app.
      - unfold refresh_log. constructor; [reflexivity|].
        destruct (refresh_due cfg (deliver t s) t); [|constructor].
        unfold ui_enabled in Hoff. rewrite andb_comm, Hoff. repeat constructor.
      - destruct (existsb (productive t) hs); [constructor|].
        unfold wait_log. destruct (pc_loop_use_select _); repeat constructor. }
    destruct (breaks cfg hs t (deliver t s)); cbn [events].
    + apply none_app; assumption.
    + apply none_app; [exact Hsig|]. apply none_app; [exact Hbody|apply IH].
Qed.

Lemma none_filter p evs : filter p evs = [] -> none p evs.
Proof.
  unfold none. induction evs as [|e l IH]; simpl; [constructor|].
  destruct (p e) eqn:He; [discriminate|]. intros H. constructor; [exact He|apply IH; exact H].
Qed.

Lemma main_without_ui cfg E (ticks : list tick) (s : state) :
  tracemode cfg = true \/ DEBUG cfg = true ->
  none is_ui (events (main cfg E ticks s)).
Proof.
  intros Hmode.
  assert (Hoff : ui_enabled cfg = false).
  { unfold ui_enabled. destruct Hmode as [->| ->]; [reflexivity|apply andb_false_r]. }
  assert (Hs : none is_ui (events (startup cfg E s))).
  { apply none_filter. rewrite startup_ui_calls, Hoff. reflexivity. }
  rewrite main_run.
  destruct (value (startup cfg E s)) as [hs|c]; [|exact Hs]. cbv zeta.
  pose proof (proj2 (main_loop_ui_calls cfg hs ticks (final (startup cfg E s))) Hoff) as Hl.
  destruct (value (main_loop cfg hs ticks (final (startup cfg E s)))) as [[|]|c];
    cbn [events]; try (apply none_app; assumption).
  apply none_app; [exact Hs|]. apply none_app; [exact Hl|].
  unfold teardown_events. unfold ui_enabled in Hoff. rewrite Hoff.
  apply none_app; [|repeat constructor].
  induction (pc_loop_fd_list _); simpl; constructor; [reflexivity|assumption].
Qed.

(** X10. In trace mode, and in a build with [DEBUG] on, no run of [main]
    makes a single UI call: neither [init_ui] nor [ui_tick] nor [exit_ui],
    on any way in or out. *)
Theorem trace_mode_never_touches_ui cfg E (ticks : list tick) (s : state) :
  tracemode cfg = true \/ DEBUG cfg = true ->
  none is_ui (events (main cfg E ticks s)).
Proof. apply main_without_ui. Qed.

Lemma trace_mode_never_touches_ui_witness :
  none is_ui
    (events (main {| DEBUG := false; tracemode := true; refreshdelay := 1 |} three_devices
               [quiet_tick 1000; sigint_tick 1001] initial_state)).
Proof.
  apply trace_mode_never_touches_ui. left. reflexivity.
Defined.

(** X11. With the UI on, every run of [main] that ended, by [exit] or by
    returning, called [exit_ui] exactly once, and a run that is still in the
    main loop has not called it. *)
Theorem exit_ui_once_on_every_way_out cfg E (ticks : list tick) (s : state) :
  tracemode cfg = false -> DEBUG cfg = false ->
  filter is_exit_ui (events (main cfg E ticks s))
  = match value (main cfg E ticks s) with
    | Ret Looping => []
    | _ => [EvExitUi]
    end.
Proof.
  intros Ht Hd.
  assert (Hon : ui_enabled cfg = true) by (unfold ui_enabled; rewrite Ht, Hd; reflexivity).
  assert (Hsub : forall l, filter is_exit_ui l = filter is_exit_ui (filter is_ui l)).
  { induction l as [|e l IH]; [reflexivity|]. simpl.
    destruct e; simpl; rewrite <- ?IH; reflexivity. }
  pose proof (startup_ui_calls cfg E s) as Hs. rewrite Hon in Hs.
  rewrite main_run.
  destruct (value (startup cfg E s)) as [hs|c] eqn:Hv.
  - cbv zeta.
    destruct (startup_ok_facts cfg E s hs Hv) as (_ & _ & _ & _ & Hp & _ & Hw & _).
    destruct (main_loop_returns cfg hs ticks (final (startup cfg E s))) as [b Hb].
    { rewrite Hp. exact Hw. }
    pose proof (proj1 (main_loop_ui_calls cfg hs ticks (final (startup cfg E s)))) as Hl.
    apply filter_none in Hl.
    assert (Hs' : filter is_exit_ui (events (startup cfg E s)) = []).
    { rewrite Hsub, Hs. destruct (get_devices E) eqn:Hdev; [|reflexivity].
      exfalso. destruct (startup_ok_facts cfg E s hs Hv) as (He & Hne & _).
      apply Hne. rewrite He, Hdev. reflexivity. }
    rewrite Hb. destruct b; cbn [events value]; rewrite !filter_app, Hs', Hl; cbn [app].
    + unfold teardown_events. rewrite !filter_app. unfold ui_enabled in Hon. rewrite Hon.
      cbn [filter is_exit_ui app].
      assert (Hc : forall l, filter is_exit_ui (map EvClose l) = [])
        by (induction l as [|x l IH]; [reflexivity|exact IH]).
      rewrite Hc. reflexivity.
    + reflexivity.
  - cbn [events value]. rewrite Hsub, Hs. destruct (get_devices E); reflexivity.
Qed.

Lemma exit_ui_once_on_every_way_out_witness :
  filter is_exit_ui
    (events (main cfg_ui lookup_fails_on_second [quiet_tick 1000] initial_state))
  = [EvExitUi]
  /\ filter is_exit_ui
       (events (main cfg_ui three_devices [quiet_tick 1000; sigint_tick 1001] initial_state))
     = [EvExitUi].
Proof.
  split.
  - apply (exit_ui_once_on_every_way_out cfg_ui lookup_fails_on_second [quiet_tick 1000]
             initial_state); reflexivity.
  - apply (exit_ui_once_on_every_way_out cfg_ui three_devices
             [quiet_tick 1000; sigint_tick 1001] initial_state); reflexivity.
Defined.

(** ** A period that is not positive *)

Lemma loop_body_time cfg hs t s :
  filter is_time (events (loop_body cfg hs t s)) = [EvTime (now t)].
Proof.
  rewrite loop_body_run. cbn [events]. rewrite !filter_app.
  rewrite (filter_none _ (flat_map (dispatch_log t) hs))
    by (apply none_dispatch_log; reflexivity).
  assert (Hw : filter is_time (if existsb (productive t) hs then []
                               else wait_log cfg (after_refresh cfg s t)) = []).
  { destruct (existsb (productive t) hs); [reflexivity|].
    unfold wait_log. destruct (pc_loop_use_select _); reflexivity. }
  rewrite Hw. unfold refresh_log. cbn [filter is_time app].
  destruct (refresh_due cfg s t); [|reflexivity].
  destruct (negb (DEBUG cfg) && negb (tracemode cfg)); reflexivity.
Qed.

Lemma filter_time_signal_log t s : filter is_time (signal_log t s) = [].
Proof. unfold signal_log. destruct (sigint t); reflexivity. Qed.

(** X12. With a refresh period of zero or less (as [-d 0] gives) and a
    clock that never goes back, the refresh fires in every iteration the
    main loop makes: as many refreshes as readings of the clock. *)
Theorem nonpositive_period_refreshes_every_iteration cfg (hs : list handle)
    (ticks : list tick) (s : state) :
  refreshdelay cfg <= 0 ->
  no_overflow (last_refresh_time s) (refreshdelay cfg) ->
  (forall t, In t ticks -> no_overflow (now t) (refreshdelay cfg)) ->
  clock_from (last_refresh_time s) ticks ->
  count_refresh (events (main_loop cfg hs ticks s))
  = List.length (filter is_time (events (main_loop cfg hs ticks s))).
Proof.
  intros HP. revert s. induction ticks as [|t rest IH]; intros s Hno Hall Hclock.
  - reflexivity.
  - destruct Hclock as [Hle Hclock].
    rewrite main_loop_step.
    destruct (sigint t && (snd (self_pipe s) =? -1)); [reflexivity|]. cbv zeta.
    assert (Hdue : refresh_due cfg (deliver t s) t = true).
    { apply refresh_due_true; rewrite deliver_last_refresh_time; [exact Hno|lia]. }
    assert (Hfin : final (loop_body cfg hs t (deliver t s))
                   = set_last_refresh_time (now t) (deliver t s)).
    { rewrite loop_body_final. unfold after_refresh. rewrite Hdue. reflexivity. }
    destruct (breaks cfg hs t (deliver t s)); cbn [events];
      rewrite !count_refresh_app, !filter_app, !List.length_app,
        count_refresh_signal_log, filter_time_signal_log,
        count_refresh_loop_body, loop_body_time, Hdue.
    + reflexivity.
    + rewrite Hfin. rewrite IH; [reflexivity| | |].
      * apply Hall. left. reflexivity.
      * intros t' Hin. apply Hall. right. exact Hin.
      * exact Hclock.
Qed.

Lemma nonpositive_period_refreshes_every_iteration_witness :
  count_refresh
    (events (main_loop {| DEBUG := false; tracemode := false; refreshdelay := 0 |}
               chain_two [quiet_tick 1000; busy_tick 1000; quiet_tick 1000] s_running))
  = 3%nat.
Proof.
  rewrite (nonpositive_period_refreshes_every_iteration
             {| DEBUG := false; tracemode := false; refreshdelay := 0 |}
             chain_two [quiet_tick 1000; busy_tick 1000; quiet_tick 1000] s_running).
  - vm_compute. reflexivity.
  - simpl. lia.
  - unfold no_overflow, time_min, time_max. simpl. lia.
  - intros t' [H|[H|[H|[]]]]; subst t'; unfold no_overflow, time_min, time_max; simpl; lia.
  - simpl. lia.
Defined.

(** ** The option loop *)

Lemma option_case_spec atoi COUNT (g : getopt_ret) (o : Opt.t) :
  match option_case atoi COUNT g o with
  | Parsed o' =>
      plain (opt g) = true
      /\ Opt.tracemode o' = Opt.tracemode o || is_opt "b" g || is_opt "t" g
      /\ Opt.bughuntmode o' = Opt.bughuntmode o || is_opt "b" g
      /\ Opt.viewMode o'
         = (if is_opt "v" g then Z.rem (atoi (optarg g)) COUNT else Opt.viewMode o)
      /\ Opt.refreshdelay o'
         = (if is_opt "d" g then atoi (optarg g) else Opt.refreshdelay o)
  | Stopped out code =>
      plain (opt g) = false /\ (out, code) = decisive (opt g)
  end.
Proof.
  destruct g as [c arg]. unfold option_case, is_opt. cbn [opt optarg].
  destruct c as [[] [] [] [] [] [] [] []];
    cbn; rewrite ?orb_false_r, ?orb_true_r; repeat split; reflexivity.
Qed.

Lemma getopt_loop_app atoi COUNT : forall l1 l2 o,
  getopt_loop atoi COUNT (l1 ++ l2) o
  = match getopt_loop atoi COUNT l1 o with
    | Parsed o' => getopt_loop atoi COUNT l2 o'
    | Stopped out code => Stopped out code
    end.
Proof.
  induction l1 as [|g rest IH]; intros l2 o; cbn [app getopt_loop]; [reflexivity|].
  destruct (option_case atoi COUNT g o); [apply IH|reflexivity].
Qed.

Lemma getopt_loop_plain atoi COUNT : forall gs o,
  (forall g, In g gs -> plain (opt g) = true) ->
  exists o', getopt_loop atoi COUNT gs o = Parsed o'.
Proof.
  induction gs as [|g rest IH]; intros o Hall; cbn [getopt_loop].
  - exists o. reflexivity.
  - pose proof (option_case_spec atoi COUNT g o) as Hc.
    destruct (option_case atoi COUNT g o) as [o'|out code].
    + apply IH. intros g' Hin. apply Hall. right. exact Hin.
    + destruct Hc as [Hp _]. rewrite (Hall g (or_introl eq_refl)) in Hp. discriminate Hp.
Qed.

(** X13. The option loop stops at the first option that is not one of
    [b t p s d v c l a f], and nothing after it is read: [-V] prints the
    version and [-h] the usage on standard output and the process exits
    with status 0; anything else ([getopt]'s ['?'] included) prints the
    usage on standard error and exits with [EXIT_FAILURE]. If every option
    is one of the ten, the loop ends with the options read. *)
Theorem getopt_loop_stops_at_first_decisive atoi COUNT
    (pre : list getopt_ret) (g : getopt_ret) (post : list getopt_ret) (o : Opt.t) :
  (forall g', In g' pre -> plain (opt g') = true) ->
  (plain (opt g) = false ->
     getopt_loop atoi COUNT (pre ++ g :: post) o
     = Stopped (fst (decisive (opt g))) (snd (decisive (opt g))))
  /\ decisive "V" = ((cout, VersionText), 0)
  /\ decisive "h" = ((cout, UsageText), 0)
  /\ (opt g <> "V"%char -> opt g <> "h"%char ->
      decisive (opt g) = ((cerr, UsageText), EXIT_FAILURE))
  /\ exists o', getopt_loop atoi COUNT pre o = Parsed o'.
Proof.
  intros Hpre.
  destruct (getopt_loop_plain atoi COUNT pre o Hpre) as [o' Ho'].
  split; [|split; [reflexivity|split; [reflexivity|split]]].
  - intros Hg. rewrite getopt_loop_app, Ho'. cbn [getopt_loop].
    pose proof (option_case_spec atoi COUNT g o') as Hc.
    destruct (option_case atoi COUNT g o') as [o''|out code].
    + destruct Hc as [Hp _]. rewrite Hg in Hp. discriminate Hp.
    + destruct Hc as [_ Hd]. rewrite <- Hd. reflexivity.
  - intros HV Hh. unfold decisive.
    destruct (Ascii.eqb_spec (opt g) "V") as [e|_]; [contradiction|].
    destruct (Ascii.eqb_spec (opt g) "h") as [e|_]; [contradiction|]. reflexivity.
  - exists o'. exact Ho'.
Qed.

Lemma getopt_loop_stops_at_first_decisive_witness :
  getopt_loop atoi_digits 4
    ([mk_getopt_ret "t" ""; mk_getopt_ret "d" "5"] ++ mk_getopt_ret "?" ""
       :: [mk_getopt_ret "V" ""]) default_options
  = Stopped (cerr, UsageText) EXIT_FAILURE.
Proof.
  apply (proj1 (getopt_loop_stops_at_first_decisive atoi_digits 4
                  [mk_getopt_ret "t" ""; mk_getopt_ret "d" "5"] (mk_getopt_ret "?" "")
                  [mk_getopt_ret "V" ""] default_options
                  ltac:(intros g' [<-|[<-|[]]]; reflexivity))).
  reflexivity.
Defined.

Lemma getopt_loop_flags atoi COUNT : forall gs o o',
  getopt_loop atoi COUNT gs o = Parsed o' ->
  Opt.tracemode o'
  = Opt.tracemode o || existsb (fun g => is_opt "b" g || is_opt "t" g) gs
  /\ Opt.bughuntmode o' = Opt.bughuntmode o || existsb (is_opt "b") gs.
Proof.
  induction gs as [|g rest IH]; intros o o' H; cbn [getopt_loop existsb] in *.
  - injection H as <-. rewrite !orb_false_r. split; reflexivity.
  - pose proof (option_case_spec atoi COUNT g o) as Hc.
    destruct (option_case atoi COUNT g o) as [o1|out code]; [|discriminate H].
    destruct Hc as (_ & Ht & Hb & _). destruct (IH o1 o' H) as [Ht' Hb'].
    rewrite Ht', Hb', Ht, Hb, !orb_assoc. split; reflexivity.
Qed.

(** X14. When the option loop ends with the options read, trace mode is on
    exactly if it was on before or [-t] or [-b] was among the options, and
    bughunt mode is on exactly if it was on before or [-b] was among them;
    no option switches either off. So bughunt mode implies trace mode after
    the loop whenever it did before. *)
Theorem trace_and_bughunt_flags atoi COUNT (gs : list getopt_ret) (o o' : Opt.t) :
  getopt_loop atoi COUNT gs o = Parsed o' ->
  Opt.tracemode o'
  = Opt.tracemode o || existsb (fun g => is_opt "b" g || is_opt "t" g) gs
  /\ Opt.bughuntmode o' = Opt.bughuntmode o || existsb (is_opt "b") gs
  /\ ((Opt.bughuntmode o = true -> Opt.tracemode o = true) ->
      Opt.bughuntmode o' = true -> Opt.tracemode o' = true).
Proof.
  intros H. destruct (getopt_loop_flags atoi COUNT gs o o' H) as [Ht Hb].
  split; [exact Ht|]. split; [exact Hb|].
  intros Himp Hb'. rewrite Ht. rewrite Hb in Hb'.
  apply orb_true_iff in Hb'. destruct Hb' as [Hb0|Hex].
  - rewrite (Himp Hb0). reflexivity.
  - apply orb_true_iff. right. apply existsb_exists in Hex.
    destruct Hex as (g & Hin & Hg). apply existsb_exists. exists g.
    split; [exact Hin|]. rewrite Hg. reflexivity.
Qed.

Lemma trace_and_bughunt_flags_witness :
  Opt.tracemode (set_tracemode true (set_bughuntmode true default_options)) = true
  /\ Opt.bughuntmode (set_tracemode true (set_bughuntmode true default_options)) = true.
Proof.
  destruct (trace_and_bughunt_flags atoi_digits 4 [mk_getopt_ret "b" ""] default_options
              (set_tracemode true (set_bughuntmode true default_options)) eq_refl)
    as (Ht & Hb & _).
  split; [exact Ht|exact Hb].
Defined.

Lemma getopt_loop_keeps atoi COUNT : forall gs o o',
  getopt_loop atoi COUNT gs o = Parsed o' ->
  (existsb (is_opt "v") gs = false -> Opt.viewMode o' = Opt.viewMode o)
  /\ (existsb (is_opt "d") gs = false -> Opt.refreshdelay o' = Opt.refreshdelay o).
Proof.
  induction gs as [|g rest IH]; intros o o' H; cbn [getopt_loop existsb] in *.
  - injection H as <-. split; reflexivity.
  - pose proof (option_case_spec atoi COUNT g o) as Hc.
    destruct (option_case atoi COUNT g o) as [o1|out code]; [|discriminate H].
    destruct Hc as (_ & _ & _ & Hv & Hd). destruct (IH o1 o' H) as [Hv' Hd'].
    split; intros Hno; apply orb_false_elim in Hno; destruct Hno as [Hg Hrest].
    + rewrite (Hv' Hrest), Hv, Hg. reflexivity.
    + rewrite (Hd' Hrest), Hd, Hg. reflexivity.
Qed.

Lemma getopt_loop_last atoi COUNT pre g post o o' :
  getopt_loop atoi COUNT (pre ++ g :: post) o = Parsed o' ->
  (is_opt "v" g = true -> existsb (is_opt "v") post = false ->
     Opt.viewMode o' = Z.rem (atoi (optarg g)) COUNT)
  /\ (is_opt "d" g = true -> existsb (is_opt "d") post = false ->
     Opt.refreshdelay o' = atoi (optarg g)).
Proof.
  intros H. rewrite getopt_loop_app in H.
  destruct (getopt_loop atoi COUNT pre o) as [o1|out code]; [|discriminate H].
  cbn [getopt_loop] in H.
  pose proof (option_case_spec atoi COUNT g o1) as Hc.
  destruct (option_case atoi COUNT g o1) as [o2|out code]; [|discriminate H].
  destruct Hc as (_ & _ & _ & Hv & Hd).
  destruct (getopt_loop_keeps atoi COUNT post o2 o' H) as [Hv' Hd'].
  split; intros Hg Hno.
  - rewrite (Hv' Hno), Hv, Hg. reflexivity.
  - rewrite (Hd' Hno), Hd, Hg. reflexivity.
Qed.

(** X15. The view mode after the option loop is the C remainder of the
    argument of the last [-v] by [VIEWMODE_COUNT]. For a positive count it
    lies strictly between [-VIEWMODE_COUNT] and [VIEWMODE_COUNT]; it is a
    valid mode (from 0 to the count, excluded) when the argument is not
    negative, and it is zero or negative, so never a valid mode other than
    0, when the argument is negative. *)
Theorem view_mode_is_c_remainder atoi COUNT
    (pre : list getopt_ret) (g : getopt_ret) (post : list getopt_ret) (o o' : Opt.t) :
  0 < COUNT ->
  getopt_loop atoi COUNT (pre ++ g :: post) o = Parsed o' ->
  opt g = "v"%char ->
  existsb (is_opt "v") post = false ->
  Opt.viewMode o' = Z.rem (atoi (optarg g)) COUNT
  /\ - COUNT < Opt.viewMode o' < COUNT
  /\ (0 <= atoi (optarg g) -> 0 <= Opt.viewMode o')
  /\ (atoi (optarg g) < 0 -> Opt.viewMode o' <= 0).
Proof.
  intros Hc H Hg Hno.
  assert (Hv : Opt.viewMode o' = Z.rem (atoi (optarg g)) COUNT).
  { apply (proj1 (getopt_loop_last atoi COUNT pre g post o o' H)); [|exact Hno].
    unfold is_opt. rewrite Hg. reflexivity. }
  rewrite Hv. split; [reflexivity|].
  pose proof (Z.rem_bound_abs (atoi (optarg g)) COUNT) as Habs.
  split; [|split].
  - assert (Hb : Z.abs (Z.rem (atoi (optarg g)) COUNT) < Z.abs COUNT) by (apply Habs; lia).
    lia.
  - intros Hpos. apply Z.rem_nonneg; lia.
  - intros Hneg. apply Z.rem_nonpos; lia.
Qed.

Lemma view_mode_is_c_remainder_witness :
  Opt.viewMode (set_viewMode (-1) default_options) = Z.rem (atoi_digits "-5") 4
  /\ - 4 < Opt.viewMode (set_viewMode (-1) default_options) < 4.
Proof.
  destruct (view_mode_is_c_remainder atoi_digits 4 [] (mk_getopt_ret "v" "-5") []
              default_options (set_viewMode (-1) default_options)
              ltac:(lia) eq_refl eq_refl eq_refl) as (H1 & H2 & _).
  split; [exact H1|exact H2].
Defined.

(** ** The options and the reactor together *)

(** X16. With [-t] or [-b] among the options, a run of the program that
    gets past the option loop makes no UI call at all, through startup,
    main loop and teardown, whatever the platform answers. *)
Theorem trace_option_runs_without_ui atoi COUNT (debug : bool) (globals : Opt.t)
    (gs : list getopt_ret) (env : Opt.t -> platform) (ticks : list tick)
    (r : result run_status) :
  (exists g, In g gs /\ (opt g = "t"%char \/ opt g = "b"%char)) ->
  program atoi COUNT debug globals gs env ticks = Run r ->
  none is_ui (events r).
Proof.
  intros (g & Hin & Hg) Hrun. unfold program, parse_options in Hrun.
  destruct (getopt_loop atoi COUNT gs _) as [o|out code] eqn:Hp; [|discriminate Hrun].
  injection Hrun as <-.
  apply main_without_ui. left. cbn [config_of tracemode].
  rewrite (proj1 (getopt_loop_flags atoi COUNT gs _ o Hp)).
  apply orb_true_iff. right. apply existsb_exists. exists g. split; [exact Hin|].
  unfold is_opt. destruct Hg as [-> | ->]; reflexivity.
Qed.

Lemma trace_option_runs_without_ui_witness :
  none is_ui
    (events (main (config_of false (set_tracemode true default_options)) three_devices
               [quiet_tick 1000; sigint_tick 1001] initial_state)).
Proof.
  apply (trace_option_runs_without_ui atoi_digits 4 false default_options
           [mk_getopt_ret "t" ""] (fun _ => three_devices)
           [quiet_tick 1000; sigint_tick 1001]).
  - exists (mk_getopt_ret "t" ""). split; [left; reflexivity|left; reflexivity].
  - reflexivity.
Defined.

Lemma none_select_call_ok P l evs : none is_select evs -> Forall (select_call_ok P l) evs.
Proof.
  unfold none. apply Forall_impl. intros [ ]; simpl; intros H; try exact I. discriminate H.
Qed.

Lemma main_loop_select_calls cfg hs : forall ticks s,
  Forall (select_call_ok (refreshdelay cfg) (pc_loop_fd_list s))
         (events (main_loop cfg hs ticks s)).
Proof.
  induction ticks as [|t rest IH]; intros s; [constructor|].
  rewrite main_loop_step.
  destruct (sigint t && (snd (self_pipe s) =? -1)); [constructor|]. cbv zeta.
  assert (Hsig : Forall (select_call_ok (refreshdelay cfg) (pc_loop_fd_list s))
                        (signal_log t s)).
  { unfold signal_log. destruct (sigint t); repeat constructor. }
  assert (Hl : pc_loop_fd_list (after_refresh cfg (deliver t s) t) = pc_loop_fd_list s)
    by (rewrite after_refresh_fd_list, deliver_fd_list; reflexivity).
  assert (Hbody : Forall (select_call_ok (refreshdelay cfg) (pc_loop_fd_list s))
                         (events (loop_body cfg hs t (deliver t s)))).
  { rewrite loop_body_run. cbn [events].
    apply Forall_app. split.
    { apply none_select_call_ok. apply none_dispatch_log; reflexivity. }
    apply Forall_app. split.
    { apply none_select_call_ok. apply none_refresh_log; reflexivity. }
    destruct (existsb (productive t) hs); [constructor|].
    unfold wait_log. rewrite Hl. destruct (pc_loop_use_select _); repeat constructor. }
  destruct (breaks cfg hs t (deliver t s)); cbn [events].
  - apply Forall_app. split; assumption.
  - apply Forall_app. split; [exact Hsig|]. apply Forall_app. split; [exact Hbody|].
    rewrite loop_body_final. rewrite <- Hl. apply IH.
Qed.

Lemma none_map_close p (fds : list Z) :
  (forall fd, p (EvClose fd) = false) -> none p (map EvClose fds).
Proof.
  intros H. induction fds as [|fd rest IH]; simpl; constructor; [apply H|exact IH].
Qed.

Lemma main_select_calls cfg E ticks s :
  Forall (select_call_ok (refreshdelay cfg) (pc_loop_fd_list (final (startup cfg E s))))
         (events (main cfg E ticks s)).
Proof.
  assert (Hs : forall l, Forall (select_call_ok (refreshdelay cfg) l)
                                (events (startup cfg E s))).
  { intros l. apply none_select_call_ok.
    apply (none_weaken _ (fun e => negb (startup_event e))); [|apply startup_alphabet].
    intros [ ]; simpl; intros H; try reflexivity; discriminate H. }
  rewrite main_run.
  destruct (value (startup cfg E s)) as [hs|c]; [|apply Hs]. cbv zeta.
  pose proof (main_loop_select_calls cfg hs ticks (final (startup cfg E s))) as Hl.
  destruct (value (main_loop cfg hs ticks (final (startup cfg E s)))) as [[|]|c];
    cbn [events]; apply Forall_app; split; try apply Hs; try exact Hl.
  apply Forall_app. split; [exact Hl|].
  apply none_select_call_ok. unfold teardown_events. apply none_app.
  - apply none_map_close. reflexivity.
  - constructor; [reflexivity|].
    destruct (negb (tracemode cfg) && negb (DEBUG cfg)); repeat constructor.
Qed.

(** X17. Every [select] call of a run is made on the whole registry that
    [startup] left behind, with [nfds] computed from it, and with a timeout
    of as many seconds as the argument of the last [-d] option reads. *)
Theorem select_waits_for_the_given_delay atoi COUNT (debug : bool) (globals : Opt.t)
    (pre : list getopt_ret) (g : getopt_ret) (post : list getopt_ret)
    (env : Opt.t -> platform) (ticks : list tick) (o : Opt.t) :
  parse_options atoi COUNT (pre ++ g :: post) globals = Parsed o ->
  opt g = "d"%char ->
  existsb (is_opt "d") post = false ->
  program atoi COUNT debug globals (pre ++ g :: post) env ticks
  = Run (main (config_of debug o) (env o) ticks initial_state)
  /\ Forall (select_call_ok (atoi (optarg g))
               (pc_loop_fd_list
                  (final (startup (config_of debug o) (env o) initial_state))))
            (events (main (config_of debug o) (env o) ticks initial_state)).
Proof.
  intros Hp Hg Hno. split.
  - unfold program. rewrite Hp. reflexivity.
  - unfold parse_options in Hp.
    assert (Hd : Opt.refreshdelay o = atoi (optarg g)).
    { apply (proj2 (getopt_loop_last atoi COUNT pre g post _ o Hp)); [|exact Hno].
      unfold is_opt. rewrite Hg. reflexivity. }
    rewrite <- Hd. apply (main_select_calls (config_of debug o)).
Qed.

Lemma select_waits_for_the_given_delay_witness :
  Forall (select_call_ok 5 [3; 5; 7])
    (events (main (config_of false (set_refreshdelay 5 default_options)) three_devices
               [quiet_tick 1000; sigint_tick 1001] initial_state)).
Proof.
  apply (proj2 (select_waits_for_the_given_delay atoi_digits 4 false default_options
                  [] (mk_getopt_ret "d" "5") [] (fun _ => three_devices)
                  [quiet_tick 1000; sigint_tick 1001]
                  (set_refreshdelay 5 default_options) eq_refl eq_refl eq_refl)).
Defined.

(** ** Two soft failures of the device loop *)

Lemma nonblock_notices_open_log E dev h s :
  filter is_nonblock_notice (open_log E dev h s)
  = if dp_setnonblock E h =? -1 then [EvStderr LogNonblock] else [].
Proof.
  unfold open_log, register_log. cbn [app filter is_nonblock_notice]. rewrite filter_app.
  assert (Hr : filter is_nonblock_notice
                 (if pc_loop_use_select s
                  then EvGetSelectableFd h ::
                       (if pcap_get_selectable_fd E (pcap_handle h) =? -1
                        then [EvStderr (LogNoSelectableFd dev)] else [])
                  else []) = []).
  { destruct (pc_loop_use_select s); [|reflexivity]. destruct (_ =? -1); reflexivity. }
  rewrite Hr, app_nil_r. destruct (dp_setnonblock E h =? -1); reflexivity.
Qed.

Lemma open_devices_nonblock cfg E : forall devs a s,
  (forall d, In d devs -> getLocal E d = true) ->
  filter is_nonblock_notice (events (open_devices cfg E devs a s))
  = map (fun _ => EvStderr LogNonblock)
        (filter (fun h => dp_setnonblock E (content h) =? -1) (opened E devs)).
Proof.
  induction devs as [|dev rest IH]; intros a s Hl; [reflexivity|].
  assert (Hdev : getLocal E dev = true) by (apply Hl; left; reflexivity).
  assert (Hrest : forall d, In d rest -> getLocal E d = true)
    by (intros d Hin; apply Hl; right; exact Hin).
  cbn [open_devices opened flat_map].
  destruct (dp_open_live E dev) as [h|] eqn:Ho.
  - rewrite (bind_Ret _ _ _ _ (f_equal value (open_device_opened cfg E dev a s h Hdev Ho))).
    rewrite (open_device_opened cfg E dev a s h Hdev Ho). cbn [events final value].
    rewrite filter_app, nonblock_notices_open_log, (IH _ _ Hrest).
    cbn [app filter content]. destruct (dp_setnonblock E h =? -1); reflexivity.
  - rewrite (bind_Ret _ _ _ _ (f_equal value (open_device_refused cfg E dev a s Hdev Ho))).
    rewrite (open_device_refused cfg E dev a s Hdev Ho). cbn [events final value].
    rewrite filter_app, (IH _ _ Hrest). reflexivity.
Qed.

(** X18. A session that cannot be put in non-blocking mode is kept: when
    the local-address lookup succeeds for every device and some device
    opens, the chain holds every session that opened, whatever
    [dp_setnonblock] returned, and the log holds one "nonblocking mode"
    line per opened session for which it returned [-1]. *)
Theorem nonblock_failure_keeps_the_session cfg E (devs : list string) (s : state) :
  (forall d, In d devs -> getLocal E d = true) ->
  (exists d, In d devs /\ dp_open_live E d <> None) ->
  value (open_sessions cfg E devs s) = Ret (rev (opened E devs))
  /\ filter is_nonblock_notice (events (open_sessions cfg E devs s))
     = map (fun _ => EvStderr LogNonblock)
           (filter (fun h => dp_setnonblock E (content h) =? -1) (opened E devs)).
Proof.
  intros Hok Hsome.
  split; [apply (open_sessions_some_opened cfg E devs s Hok Hsome)|].
  unfold open_sessions.
  destruct (open_devices_ok cfg E devs no_sessions s Hok) as [Hv _].
  rewrite (bind_Ret _ _ _ _ Hv). cbn [nb_devices nb_failed_devices no_sessions handles].
  pose proof (some_opened_length E devs Hsome) as Hlt.
  destruct (Z.eqb_spec (0 + Z.of_nat (List.length devs))
                       (0 + Z.of_nat (List.length (filter (refused E) devs)))) as [e|_];
    [lia|].
  unfold bind at 1, ret. cbn [events final value].
  rewrite !app_nil_r. apply open_devices_nonblock. exact Hok.
Qed.

Lemma nonblock_failure_keeps_the_session_witness :
  value (open_sessions cfg_ui nonblock_fails ["eth0"]%string s_running)
  = Ret [mk_handle h_eth0 "eth0"]
  /\ filter is_nonblock_notice
       (events (open_sessions cfg_ui nonblock_fails ["eth0"]%string s_running))
     = [EvStderr LogNonblock].
Proof.
  apply (nonblock_failure_keeps_the_session cfg_ui nonblock_fails ["eth0"]%string s_running).
  - intros d _. reflexivity.
  - exists "eth0"%string. split; [left; reflexivity|discriminate].
Defined.

Lemma open_device_unselectable cfg E dev a s :
  List.length (filter is_unselectable_notice (events (open_device cfg E dev a s)))
  = (if pc_loop_use_select s
        && negb (pc_loop_use_select (final (open_device cfg E dev a s)))
     then 1%nat else 0%nat)
  /\ (pc_loop_use_select s = false ->
      pc_loop_use_select (final (open_device cfg E dev a s)) = false).
Proof.
  destruct (getLocal E dev) eqn:Hl.
  - destruct (dp_open_live E dev) as [h|] eqn:Ho.
    + rewrite (open_device_opened cfg E dev a s h Hl Ho). cbn [events final].
      unfold open_log, register_log, register_state.
      cbn [app filter is_unselectable_notice]. rewrite filter_app.
      assert (Hn : filter is_unselectable_notice
                     (if dp_setnonblock E h =? -1 then [EvStderr LogNonblock] else []) = [])
        by (destruct (dp_setnonblock E h =? -1); reflexivity).
      rewrite Hn. cbn [app].
      destruct (pc_loop_use_select s) eqn:Hsel; cbn [andb].
      * destruct (pcap_get_selectable_fd E (pcap_handle h) =? -1);
          cbn [filter is_unselectable_notice pc_loop_use_select set_fd_list set_use_select];
          rewrite ?Hsel; split; try reflexivity; intros H; discriminate H.
      * rewrite Hsel. split; reflexivity.
    + rewrite (open_device_refused cfg E dev a s Hl Ho). cbn [events final filter].
      destruct (pc_loop_use_select s); split; try reflexivity; intros H; exact H.
  - rewrite (open_device_getLocal_failed cfg E dev a s Hl). cbn [events final].
    unfold fatal_log. cbn [filter is_unselectable_notice]. rewrite filter_app.
    assert (Hn : filter is_unselectable_notice (if ui_enabled cfg then [EvExitUi] else []) = [])
      by (destruct (ui_enabled cfg); reflexivity).
    rewrite Hn. cbn [app filter is_unselectable_notice List.length].
    destruct (pc_loop_use_select s); split; try reflexivity; intros H; exact H.
Qed.

Lemma open_devices_unselectable cfg E : forall devs a s,
  List.length (filter is_unselectable_notice (events (open_devices cfg E devs a s)))
  = (if pc_loop_use_select s
        && negb (pc_loop_use_select (final (open_devices cfg E devs a s)))
     then 1%nat else 0%nat)
  /\ (pc_loop_use_select s = false ->
      pc_loop_use_select (final (open_devices cfg E devs a s)) = false).
Proof.
  induction devs as [|dev rest IH]; intros a s; cbn [open_devices].
  - cbn [ret events final filter List.length].
    destruct (pc_loop_use_select s); split; try reflexivity; intros H; exact H.
  - destruct (open_device_unselectable cfg E dev a s) as [Hc Hm].
    destruct (value (open_device cfg E dev a s)) as [a'|c] eqn:Hv.
    + rewrite (bind_Ret _ _ _ a' Hv). cbn [events final].
      destruct (IH a' (final (open_device cfg E dev a s))) as [Hc' Hm'].
      rewrite filter_app, List.length_app, Hc, Hc'. split.
      * destruct (pc_loop_use_select s) eqn:Hsel; cbn [andb].
        -- destruct (pc_loop_use_select (final (open_device cfg E dev a s))) eqn:Hmid;
             cbn [negb andb].
           ++ reflexivity.
           ++ rewrite (Hm' eq_refl). reflexivity.
        -- rewrite (Hm eq_refl) in *. cbn [andb]. reflexivity.
      * intros Hsel. apply Hm'. apply Hm. exact Hsel.
    + rewrite (bind_Exit _ _ _ c Hv). cbn [events final]. split; [exact Hc|exact Hm].
Qed.

(** X19. The device loop reports a missing selectable descriptor at most
    once, however many devices lack one: the "failed to get selectable_fd"
    line is written exactly when the loop turns the select-mode flag off,
    and a flag that is off is never turned on again by the loop. *)
Theorem unselectable_is_reported_once cfg E (devs : list string) (a : open_acc) (s : state) :
  List.length (filter is_unselectable_notice (events (open_devices cfg E devs a s)))
  = (if pc_loop_use_select s
        && negb (pc_loop_use_select (final (open_devices cfg E devs a s)))
     then 1%nat else 0%nat)
  /\ (pc_loop_use_select s = false ->
      pc_loop_use_select (final (open_devices cfg E devs a s)) = false).
Proof. apply open_devices_unselectable. Qed.

Lemma unselectable_is_reported_once_witness :
  List.length
    (filter is_unselectable_notice
       (events (open_devices cfg_ui one_unselectable ["wlan0"; "wlan1"; "wlan2"]%string
                  no_sessions s_running)))
  = 1%nat.
Proof.
  rewrite (proj1 (unselectable_is_reported_once cfg_ui one_unselectable
                    ["wlan0"; "wlan1"; "wlan2"]%string no_sessions s_running)).
  vm_compute. reflexivity.
Defined.

(** ** C3: the fallback flag is monotonic, over a whole run *)

(** Through the device loop: the state after the first opened device
    without a selectable descriptor is in fallback. *)
Lemma open_devices_reaches_fallback cfg E pre d a s h :
  pc_loop_use_select s = true ->
  (forall d', In d' (pre ++ [d]) -> getLocal E d' = true) ->
  dp_open_live E d = Some h ->
  pcap_get_selectable_fd E (pcap_handle h) = -1 ->
  fallback (final (open_devices cfg E (pre ++ [d]) a s)).
Proof.
  intros Hsel Hok Ho Hfd.
  rewrite (open_devices_final cfg E (pre ++ [d]) a s Hok).
  unfold opened. rewrite flat_map_app. cbn [flat_map]. rewrite Ho, app_nil_r.
  unfold register_all. rewrite fold_left_app. cbn [fold_left content].
  change (fold_left (fun s0 h0 => register_state E (content h0) s0)
            (flat_map (fun d0 => match dp_open_live E d0 with
                                 | Some h0 => [mk_handle h0 d0]
                                 | None => []
                                 end) pre) s)
    with (register_all E (opened E pre) s).
  destruct (register_all_fields E (opened E pre) s) as (_ & _ & _ & _ & _ & F6).
  unfold register_state.
  destruct (pc_loop_use_select (register_all E (opened E pre) s)) eqn:Hmid.
  - rewrite Hfd. split; reflexivity.
  - split; [exact Hmid|]. apply F6; [exact Hsel|reflexivity].
Qed.

Lemma open_devices_after_unselectable cfg E pre d post a s h :
  pc_loop_use_select s = true ->
  (forall d', In d' (pre ++ [d]) -> getLocal E d' = true) ->
  dp_open_live E d = Some h ->
  pcap_get_selectable_fd E (pcap_handle h) = -1 ->
  fallback (final (open_devices cfg E (pre ++ d :: post) a s))
  /\ filter is_registration (events (open_devices cfg E (pre ++ d :: post) a s))
     = filter is_registration (events (open_devices cfg E (pre ++ [d]) a s)).
Proof.
  intros Hsel Hok Ho Hfd.
  pose proof (open_devices_reaches_fallback cfg E pre d a s h Hsel Hok Ho Hfd) as Hfb.
  destruct (open_devices_ok cfg E (pre ++ [d]) a s Hok) as [Hv _].
  change (pre ++ d :: post) with (pre ++ [d] ++ post).
  rewrite app_assoc, open_devices_app, (bind_Ret _ _ _ _ Hv). cbn [events final].
  match goal with |- context [open_devices cfg E post ?a1 ?s1] =>
    destruct (open_devices_fallback cfg E post a1 s1 Hfb) as [Hs Hn] end.
  rewrite Hs. split; [exact Hfb|].
  rewrite filter_app, (filter_none _ _ Hn), app_nil_r. reflexivity.
Qed.

(** Through the whole run, once [startup] has returned a chain with a
    session that has no selectable descriptor. *)
Lemma run_stays_in_fallback cfg E ticks hs :
  value (startup cfg E initial_state) = Ret hs ->
  (exists h, In h hs /\ selectable_fd E h = -1) ->
  fallback (final (startup cfg E initial_state))
  /\ fallback (final (main cfg E ticks initial_state))
  /\ none is_select (events (main cfg E ticks initial_state)).
Proof.
  intros Hs (h & Hin & Hh).
  destruct (startup_ok_registry cfg E hs Hs) as (Hiff & _ & Hempty).
  assert (Hsel : pc_loop_use_select (final (startup cfg E initial_state)) = false).
  { destruct (pc_loop_use_select (final (startup cfg E initial_state))); [|reflexivity].
    exfalso. exact (proj1 Hiff eq_refl h Hin Hh). }
  assert (Hfb : fallback (final (startup cfg E initial_state)))
    by (split; [exact Hsel|exact (Hempty Hsel)]).
  split; [exact Hfb|].
  assert (Hst : none is_select (events (startup cfg E initial_state))).
  { apply (none_weaken _ (fun e => negb (startup_event e))); [|apply startup_alphabet].
    intros [ ]; simpl; intros H; try reflexivity; discriminate H. }
  destruct (main_loop_fallback cfg hs ticks _ Hfb) as [Hf Hn].
  rewrite main_run, Hs. cbv zeta.
  destruct (value (main_loop cfg hs ticks (final (startup cfg E initial_state))))
    as [[|]|c]; cbn [events final]; (split; [exact Hf|]).
  - apply none_app; [exact Hst|]. apply none_app; [exact Hn|].
    unfold teardown_events. apply none_app; [apply none_map_close; reflexivity|].
    constructor; [reflexivity|].
    destruct (negb (tracemode cfg) && negb (DEBUG cfg)); repeat constructor.
  - apply none_app; assumption.
  - apply none_app; assumption.
Qed.

(** C3. Fallback is monotonic, step by step and over the whole run.
    (1) When a device that opened has no selectable descriptor while the
    select-mode flag is still on, the flag is turned off and the registry
    is emptied. (2) From any state in which the flag is off and the registry
    empty, that remains so through the rest of the device loop, whatever
    the devices answer, with no further request for a selectable
    descriptor, and (3) through every iteration of the main loop, SIGINT
    deliveries included, in which [select] is never called. (4) Over the
    device loop as a whole, started in select mode: once a device that
    opened has no selectable descriptor, the loop ends with the flag off
    and the registry empty, and the devices after it add no request for a
    selectable descriptor, whatever they would answer. (5) Over a run of
    [main] from the initial state: if [startup] returns a chain in which
    some session has no selectable descriptor, then the flag is off and the
    registry empty when [startup] ends and when the run ends, however many
    iterations it makes, and the run never calls [select]. *)
Theorem fallback_is_monotonic cfg E :
  (forall dev a s h,
     pc_loop_use_select s = true ->
     getLocal E dev = true ->
     dp_open_live E dev = Some h ->
     pcap_get_selectable_fd E (pcap_handle h) = -1 ->
     fallback (final (open_device cfg E dev a s)))
  /\ (forall devs a s,
        fallback s ->
        fallback (final (open_devices cfg E devs a s))
        /\ none is_registration (events (open_devices cfg E devs a s)))
  /\ (forall hs ticks s,
        fallback s ->
        fallback (final (main_loop cfg hs ticks s))
        /\ none is_select (events (main_loop cfg hs ticks s)))
  /\ (forall pre d post a s h,
        pc_loop_use_select s = true ->
        (forall d', In d' (pre ++ [d]) -> getLocal E d' = true) ->
        dp_open_live E d = Some h ->
        pcap_get_selectable_fd E (pcap_handle h) = -1 ->
        fallback (final (open_devices cfg E (pre ++ d :: post) a s))
        /\ filter is_registration (events (open_devices cfg E (pre ++ d :: post) a s))
           = filter is_registration (events (open_devices cfg E (pre ++ [d]) a s)))
  /\ (forall ticks hs,
        value (startup cfg E initial_state) = Ret hs ->
        (exists h, In h hs /\ selectable_fd E h = -1) ->
        fallback (final (startup cfg E initial_state))
        /\ fallback (final (main cfg E ticks initial_state))
        /\ none is_select (events (main cfg E ticks initial_state))).
Proof.
  split; [|split; [|split; [|split]]].
  - intros dev a s h Hsel Hl Ho Hfd.
    rewrite (open_device_opened cfg E dev a s h Hl Ho). cbn [final].
    unfold register_state. rewrite Hsel, Hfd. split; reflexivity.
  - intros devs a s Hfb. destruct (open_devices_fallback cfg E devs a s Hfb) as [Hs Hev].
    rewrite Hs. split; assumption.
  - intros hs ticks s Hfb. apply main_loop_fallback. exact Hfb.
  - intros pre d post a s h. apply open_devices_after_unselectable.
  - intros ticks hs. apply run_stays_in_fallback.
Qed.

Lemma fallback_is_monotonic_witness :
  (fallback (final (startup cfg_ui mixed_devices initial_state))
   /\ fallback (final (main cfg_ui mixed_devices
                         [quiet_tick 1000; sigint_tick 1001; quiet_tick 1002]
                         initial_state))
   /\ none is_select (events (main cfg_ui mixed_devices
                                [quiet_tick 1000; sigint_tick 1001; quiet_tick 1002]
                                initial_state)))
  /\ (fallback (final (open_devices cfg_ui mixed_devices
                         (["eth0"%string] ++ "wlan0"%string :: ["eth2"%string]) no_sessions s_running))
      /\ filter is_registration
           (events (open_devices cfg_ui mixed_devices
                      (["eth0"%string] ++ "wlan0"%string :: ["eth2"%string]) no_sessions s_running))
         = filter is_registration
             (events (open_devices cfg_ui mixed_devices
                        (["eth0"%string] ++ ["wlan0"%string]) no_sessions s_running)))
  /\ fallback (final (open_device cfg_ui one_unselectable "wlan0" no_sessions
                        (set_fd_list [3] (set_self_pipe (3, 4) initial_state))))
  /\ fallback (final (main_loop cfg_ui chain_wlan0
                        [sigint_tick 1000; quiet_tick 1001] s_fallback)).
Proof.
  split; [|split; [|split]].
  - apply (proj2 (proj2 (proj2 (proj2 (fallback_is_monotonic cfg_ui mixed_devices))))
             [quiet_tick 1000; sigint_tick 1001; quiet_tick 1002] chain_mixed).
    + vm_compute. reflexivity.
    + exists (mk_handle h_wlan0 "wlan0"). split; [right; left; reflexivity|reflexivity].
  - apply (proj1 (proj2 (proj2 (proj2 (fallback_is_monotonic cfg_ui mixed_devices))))
             ["eth0"%string] "wlan0"%string ["eth2"%string] no_sessions s_running h_wlan0).
    + reflexivity.
    + intros d' _. reflexivity.
    + reflexivity.
    + reflexivity.
  - apply (proj1 (fallback_is_monotonic cfg_ui one_unselectable)) with (h := h_wlan0);
      reflexivity.
  - apply (proj1 (proj2 (proj2 (fallback_is_monotonic cfg_ui one_unselectable)))).
    split; reflexivity.
Defined.

(** The run of the witness, evaluated: two requests for a selectable
    descriptor, none for [eth2]; no [select]; the loop only sleeps. *)
Example mixed_devices_run :
  filter (fun e => is_registration e || is_wait e)
    (events (main cfg_ui mixed_devices [quiet_tick 1000; sigint_tick 1001] initial_state))
  = [EvGetSelectableFd h_eth0; EvGetSelectableFd h_wlan0; EvUsleep 1000; EvUsleep 1000].
Proof. vm_compute. reflexivity. Qed.

(** ** Every way the privilege test can fail *)

Lemma startup_not_privileged cfg E s :
  ~ privileged E ->
  fails (startup cfg E s) /\ none is_device_call (events (startup cfg E s)).
Proof.
  intros Hnot.
  assert (Hcp : forall s', fails (check_privilege cfg E s')).
  { intros s'. destruct (check_privilege_cases cfg E s') as [Hp|Hf];
      [contradiction|exact Hf]. }
  unfold startup. split.
  - apply fails_bind.
    { destruct (get_devices E);
        [apply only_failure_forceExit | eapply only_failure_Ret; reflexivity]. }
    intros _ _. apply fails_bind.
    { unfold when. destruct (ui_enabled cfg); eapply only_failure_Ret; reflexivity. }
    intros _ _. apply fails_bind_l. apply Hcp.
  - apply none_bind.
    { destruct (get_devices E); [apply none_forceExit; reflexivity | constructor]. }
    intros _ _. apply none_bind.
    { unfold when. destruct (ui_enabled cfg); repeat constructor. }
    intros _ _.
    match goal with |- none _ (events (bind _ ?k ?s')) =>
      rewrite (bind_Exit _ k s' EXIT_FAILURE) by (apply Hcp)
    end.
    cbn [events]. apply check_privilege_alphabet; reflexivity.
Qed.

(** X20. Whenever the privilege test does not pass, that is, the process is
    not root and the platform is not Linux, or [readlink] on the binary
    fails, or the two capability bits are not both set, [main] ends in
    [exit(EXIT_FAILURE)] with no device touched: no [getLocal] and no
    [dp_open_live] call on its trace. When the test passes it prints
    nothing and changes nothing. *)
Theorem unprivileged_run_touches_no_device cfg E (ticks : list tick) (s : state) :
  (~ privileged E ->
     value (main cfg E ticks s) = Exit EXIT_FAILURE
     /\ none is_device_call (events (main cfg E ticks s)))
  /\ (privileged E -> check_privilege cfg E s = mk_result [] s (Ret tt)).
Proof.
  split.
  - intros Hnot. destruct (startup_not_privileged cfg E s Hnot) as [Hf Hev].
    destruct (main_startup_failed cfg E ticks s Hf) as [Hv He].
    split; [exact Hv|]. rewrite He. exact Hev.
  - apply check_privilege_passes.
Qed.

Lemma unprivileged_run_touches_no_device_witness :
  value (main cfg_ui readlink_fails [quiet_tick 1000] initial_state) = Exit EXIT_FAILURE
  /\ none is_device_call
       (events (main cfg_ui readlink_fails [quiet_tick 1000] initial_state)).
Proof.
  apply (proj1 (unprivileged_run_touches_no_device cfg_ui readlink_fails
                  [quiet_tick 1000] initial_state)).
  intros [Hroot|(_ & Hexe & _)]; [discriminate Hroot | apply Hexe; reflexivity].
Defined.
